(** * update_covid.py: the transform stage

    A shallow embedding of [transform_data] from [update_covid.py] and of
    the pandas operations it calls, followed by the properties of the
    enriched table that the specification lists.

    Numbers are the ones pandas computes with: [int64] counters with
    wrap-around and IEEE-754 binary64 values, the latter through the
    Standard Library's executable [SpecFloat] model (53-bit mantissa,
    round to nearest even, signed zeros, infinities, one NaN). *)

From Stdlib Require Import ZArith Lia Ascii.
From Stdlib Require Import Floats.SpecFloat.
From stdpp Require Import base option list strings.

Local Open Scope Z_scope.

(** ** numpy scalars *)

Module np.

Definition prec : Z := 53.
Definition emax : Z := 1024.

Definition float64 : Type := spec_float.

Definition nan : float64 := S754_nan.
Definition inf : float64 := S754_infinity false.
Definition zero : float64 := S754_zero false.

Definition add : float64 → float64 → float64 := SFadd prec emax.
Definition sub : float64 → float64 → float64 := SFsub prec emax.
Definition mul : float64 → float64 → float64 := SFmul prec emax.
Definition div : float64 → float64 → float64 := SFdiv prec emax.

(** [float(z)]: the binary64 nearest to the integer [z]. *)
Definition of_int (z : Z) : float64 := binary_normalize prec emax z 0 false.

Definition isnan (x : float64) : bool :=
  match x with S754_nan => true | _ => false end.

Definition isinf (x : float64) : bool :=
  match x with S754_infinity _ => true | _ => false end.

Definition isfinite (x : float64) : bool :=
  match x with S754_zero _ | S754_finite _ _ _ => true | _ => false end.

Definition iszero (x : float64) : bool :=
  match x with S754_zero _ => true | _ => false end.

(** The integer a float holds, when it holds one. *)
Definition to_int (x : float64) : option Z :=
  match x with
  | S754_zero _ => Some 0
  | S754_finite s m e =>
      let v := if s then Z.neg m else Z.pos m in
      if 0 <=? e then Some (v * 2 ^ e)
      else if v mod 2 ^ (- e) =? 0 then Some (v / 2 ^ (- e)) else None
  | _ => None
  end.

(** [int64] arithmetic wraps modulo [2^64] into [-2^63, 2^63). *)
Definition wrap64 (z : Z) : Z := (z + 2 ^ 63) mod 2 ^ 64 - 2 ^ 63.

Definition int64_range (z : Z) : Prop := - 2 ^ 63 <= z < 2 ^ 63.

End np.

(** ** Python values *)

Inductive pyexc :=
| KeyError (key : string)
| TypeError
| ValueError.

Inductive pyresult (A : Type) :=
| Ok (a : A)
| Raise (e : pyexc).
Arguments Ok {A} a.
Arguments Raise {A} e.

#[global] Instance pyresult_ret : MRet pyresult := λ A a, Ok a.
#[global] Instance pyresult_bind : MBind pyresult := λ A B f m,
  match m with Ok a => f a | Raise e => Raise e end.

(** A [dict] keeps its keys in insertion order. *)
Definition pydict (V : Type) : Type := list (string * V).

Fixpoint dict_get {V} (k : string) (d : pydict V) : option V :=
  match d with
  | [] => None
  | (k', v) :: d' => if bool_decide (k' = k) then Some v else dict_get k d'
  end.

Definition dict_keys {V} (d : pydict V) : list string := fst <$> d.

(** The JSON values of a country entry. *)
Inductive json :=
| JNull
| JInt (n : Z)
| JStr (s : string).

(** [historical_data]: series name -> date key -> cumulative count. *)
Definition historical : Type := pydict (pydict Z).
(** [countries_data]: one JSON object per country. *)
Definition countries : Type := list (pydict json).

(** ** pandas *)

(** A timestamp is a count of nanoseconds since the epoch. *)
Definition Timestamp : Type := Z.

Inductive pyval :=
| PNone
| PNan
| PInt (n : Z)
| PStr (s : string).

Inductive Index :=
| IdxStr (labels : list string)
| IdxTime (labels : list Timestamp)
| IdxRange (stop : nat).

Inductive Series :=
| SInt (values : list Z)
| SFloat (values : list np.float64)
| STime (values : list Timestamp)
| SObject (values : list pyval).

Inductive Scalar :=
| ScInt (z : Z)
| ScFloat (x : np.float64)
| ScStr (s : string).

Record DataFrame := mkDataFrame {
  df_index : Index;
  df_columns : pydict Series
}.

Definition Index_length (i : Index) : nat :=
  match i with
  | IdxStr l => length l
  | IdxTime l => length l
  | IdxRange n => n
  end.

Definition Series_length (s : Series) : nat :=
  match s with
  | SInt v => length v
  | SFloat v => length v
  | STime v => length v
  | SObject v => length v
  end.

(** Labels in order of first appearance. *)
Fixpoint unique (l : list string) : list string :=
  match l with
  | [] => []
  | x :: l' => x :: filter (λ y, y ≠ x) (unique l')
  end.

Definition is_int (c : pyval) : bool := match c with PInt _ => true | _ => false end.
Definition is_str (c : pyval) : bool := match c with PStr _ => true | _ => false end.
Definition is_nan (c : pyval) : bool := match c with PNan => true | _ => false end.
Definition is_none (c : pyval) : bool := match c with PNone => true | _ => false end.

Definition cell_int (c : pyval) : Z := match c with PInt n => n | _ => 0 end.
Definition cell_float (c : pyval) : np.float64 :=
  match c with PInt n => np.of_int n | _ => np.nan end.

(** The dtype pandas infers for a column of Python objects: [int64] when
    every cell is an integer, [float64] when integers meet missing cells or
    a NaN is present, [object] otherwise. The integers are taken to fit
    [int64] ([np.int64_range]): pandas holds a column with a larger integer
    as [uint64] or [object], which this model does not follow. The
    properties that depend on the dtype assume the range. *)
Definition convert_objects (cells : list pyval) : Series :=
  if existsb is_str cells then SObject cells
  else if existsb is_int cells then
    if forallb is_int cells then SInt (cell_int <$> cells)
    else SFloat (cell_float <$> cells)
  else if existsb is_nan cells then SFloat (cell_float <$> cells)
  else SObject cells.

Definition cell_of_count (o : option Z) : pyval :=
  match o with Some n => PInt n | None => PNan end.

Definition cell_of_json (o : option json) : pyval :=
  match o with
  | Some JNull => PNone
  | Some (JInt n) => PInt n
  | Some (JStr s) => PStr s
  | None => PNan
  end.

(** The date keys of all series, each once, in order of first appearance. *)
Definition labels (data : historical) : list string :=
  unique (concat ((λ c, dict_keys c.2) <$> data)).

(** [pd.DataFrame(d)] for a dict of dicts: one column per outer key, the
    index is the union of the inner keys, unsorted. *)
Definition DataFrame_from_dict (data : historical) : DataFrame :=
  let index := labels data in
  {| df_index := IdxStr index;
     df_columns :=
       (λ c, (c.1, convert_objects ((λ k, cell_of_count (dict_get k c.2)) <$> index)))
         <$> data |}.

(** [pd.DataFrame(l)] for a list of dicts: one row per dict, one column
    per key met. *)
Definition DataFrame_from_records (data : countries) : DataFrame :=
  let names := unique (concat (dict_keys <$> data)) in
  {| df_index := IdxRange (length data);
     df_columns :=
       (λ name, (name, convert_objects ((λ d, cell_of_json (dict_get name d)) <$> data)))
         <$> names |}.

(** [df[name]] *)
Definition DataFrame_getitem (df : DataFrame) (name : string) : pyresult Series :=
  match dict_get name (df_columns df) with
  | Some s => Ok s
  | None => Raise (KeyError name)
  end.

Fixpoint dict_set {V} (k : string) (v : V) (d : pydict V) : pydict V :=
  match d with
  | [] => [(k, v)]
  | (k', v') :: d' =>
      if bool_decide (k' = k) then (k', v) :: d' else (k', v') :: dict_set k v d'
  end.

(** [df[name] = s]: an existing column is replaced where it stands, a new
    one goes last. *)
Definition DataFrame_setitem (df : DataFrame) (name : string) (s : Series) : DataFrame :=
  {| df_index := df_index df; df_columns := dict_set name s (df_columns df) |}.

Definition DataFrame_set_index (df : DataFrame) (i : Index) : DataFrame :=
  {| df_index := i; df_columns := df_columns df |}.

(** *** Column arithmetic *)

(** [shift(1)]: every entry moves one row down, the first row gets [na]. *)
Definition shift1 {A} (na : A) (v : list A) : list A := take (length v) (na :: v).

(** The numeric view of a column that float arithmetic works on. The
    program only ever applies it to columns of counters and to columns it
    derived from them. *)
Definition as_float64 (s : Series) : pyresult (list np.float64) :=
  match s with
  | SInt v => Ok (np.of_int <$> v)
  | SFloat v => Ok v
  | SObject [] => Ok []
  | _ => Raise TypeError
  end.

(** [diff()] of an [int64] column subtracts in [int64] and stores the result
    in a [float64] column, whose first entry is NaN. *)
Definition diff_int64 (v : list Z) : list np.float64 :=
  match v with
  | [] => []
  | x :: l => np.nan :: zip_with (λ cur prev, np.of_int (np.wrap64 (cur - prev))) l v
  end.

Definition diff_float64 (v : list np.float64) : list np.float64 :=
  zip_with np.sub v (shift1 np.nan v).

Definition Series_diff (s : Series) : pyresult Series :=
  match s with
  | SInt v => Ok (SFloat (diff_int64 v))
  | _ => v ← as_float64 s; Ok (SFloat (diff_float64 v))
  end.

Definition Series_shift (s : Series) : pyresult Series :=
  v ← as_float64 s; Ok (SFloat (shift1 np.nan v)).

(** [a / b] on two columns that share their index. *)
Definition Series_truediv (a b : Series) : pyresult Series :=
  x ← as_float64 a; y ← as_float64 b; Ok (SFloat (zip_with np.div x y)).

(** [a * k] for a Python integer [k]. *)
Definition Series_mul_int (a : Series) (k : Z) : pyresult Series :=
  match a with
  | SInt v => Ok (SInt ((λ x, np.wrap64 (x * k)) <$> v))
  | _ => x ← as_float64 a; Ok (SFloat ((λ u, np.mul u (np.of_int k)) <$> x))
  end.

Definition Scalar_float (t : Scalar) : pyresult np.float64 :=
  match t with
  | ScInt z => Ok (np.of_int z)
  | ScFloat x => Ok x
  | ScStr _ => Raise TypeError
  end.

(** [a / t] for a scalar [t]. *)
Definition Series_truediv_scalar (a : Series) (t : Scalar) : pyresult Series :=
  x ← as_float64 a; y ← Scalar_float t; Ok (SFloat ((λ u, np.div u y) <$> x)).

(** The rows [i-w+1 .. i] of a column, clipped at the first row. *)
Definition window (w : nat) (v : list np.float64) (i : nat) : list np.float64 :=
  drop (S i - w) (take (S i) v).

Definition fsum (v : list np.float64) : np.float64 := foldl np.add np.zero v.

(** [rolling(window=w).mean()] at row [i]: the mean of the observations in
    the window, NaN unless the window holds [w] of them ([min_periods]
    defaults to the window size). NaN and infinite entries are not
    observations. pandas keeps a running, compensated sum of the window,
    to which it adds the row that enters and from which it takes the row
    that leaves; the sum here runs over the window from its first row.
    The two are the same number when every sum of consecutive rows of the
    window is exact, as for the deltas of counters below [2^52], and may
    differ in the last place otherwise. The properties that give the value
    of a mean assume that bound. *)
Definition rolling_mean_at (w : nat) (v : list np.float64) (i : nat) : np.float64 :=
  let obs := filter (λ x, np.isfinite x = true) (window w v i) in
  if bool_decide (w ≤ length obs)%nat
  then np.div (fsum obs) (np.of_int (Z.of_nat (length obs)))
  else np.nan.

Definition rolling_mean (w : nat) (v : list np.float64) : list np.float64 :=
  rolling_mean_at w v <$> seq 0 (length v).

Definition Series_rolling_mean (w : nat) (s : Series) : pyresult Series :=
  v ← as_float64 s; Ok (SFloat (rolling_mean w v)).

Definition str_of (c : pyval) : string := match c with PStr s => s | _ => EmptyString end.

(** [sum()] skips missing entries. An [int64] column is summed in [int64],
    a [float64] column in [float64] (row after row here; numpy may group
    the additions otherwise, with the same result whenever the partial sums
    are exact); an [object] column of [None]s sums to the integer 0, one of
    strings to their concatenation. *)
Definition Series_sum (s : Series) : pyresult Scalar :=
  match s with
  | SInt v => Ok (ScInt (np.wrap64 (foldr Z.add 0 v)))
  | SFloat v => Ok (ScFloat (fsum (filter (λ x, np.isnan x = false) v)))
  | SObject v =>
      if forallb is_none v then Ok (ScInt 0)
      else if forallb is_str v then Ok (ScStr (String.concat EmptyString (str_of <$> v)))
      else Raise TypeError
  | STime _ => Raise TypeError
  end.

Definition Index_to_series (i : Index) : Series :=
  match i with
  | IdxStr l => SObject (PStr <$> l)
  | IdxTime l => STime l
  | IdxRange n => SInt (Z.of_nat <$> seq 0 n)
  end.

(** [reset_index()]: a new frame on a range index whose first column holds
    the old index, under the name ["index"], or ["level_0"] when ["index"]
    is taken. *)
Definition DataFrame_reset_index (df : DataFrame) : pyresult DataFrame :=
  let name :=
    if bool_decide ("index" ∈ dict_keys (df_columns df)) then "level_0" else "index" in
  if bool_decide (name ∈ dict_keys (df_columns df)) then Raise ValueError
  else Ok {| df_index := IdxRange (Index_length (df_index df));
             df_columns := (name, Index_to_series (df_index df)) :: df_columns df |}.

(** [rename(columns={old: new})] *)
Definition DataFrame_rename (old new : string) (df : DataFrame) : DataFrame :=
  {| df_index := df_index df;
     df_columns :=
       (λ c, (if bool_decide (c.1 = old) then new else c.1, c.2)) <$> df_columns df |}.

(** ** The interpreter state

    [transform_data] receives references to a dict and a list and builds
    frames that it then updates in place. Objects live in a store; a
    reference is a position in it. *)

Inductive pyobj :=
| PyDict (d : historical)
| PyList (l : countries)
| PyFrame (df : DataFrame).

Definition loc : Type := nat.
Abbreviation store := (list pyobj).

Definition Py (A : Type) : Type := store → pyresult A * store.

#[global] Instance Py_ret : MRet Py := λ A a σ, (Ok a, σ).
#[global] Instance Py_bind : MBind Py := λ A B f m σ,
  match m σ with
  | (Ok a, σ') => f a σ'
  | (Raise e, σ') => (Raise e, σ')
  end.

Definition lift {A} (r : pyresult A) : Py A := λ σ, (r, σ).

Definition alloc (o : pyobj) : Py loc := λ σ, (Ok (length σ), σ ++ [o]).

Definition load_frame (l : loc) : Py DataFrame := λ σ,
  match σ !! l with
  | Some (PyFrame df) => (Ok df, σ)
  | _ => (Raise TypeError, σ)
  end.

Definition store_frame (l : loc) (df : DataFrame) : Py unit := λ σ,
  match σ !! l with
  | Some (PyFrame _) => (Ok (), <[l := PyFrame df]> σ)
  | _ => (Raise TypeError, σ)
  end.

(** [pd.DataFrame(x)] builds a new frame from the object [x] refers to. *)
Definition pd_DataFrame (x : loc) : Py loc := λ σ,
  match σ !! x with
  | Some (PyDict d) => alloc (PyFrame (DataFrame_from_dict d)) σ
  | Some (PyList l) => alloc (PyFrame (DataFrame_from_records l)) σ
  | Some (PyFrame df) => alloc (PyFrame df) σ
  | None => (Raise TypeError, σ)
  end.

(** [df.index] and [df.index = i] *)
Definition get_index (l : loc) : Py Index :=
  df ← load_frame l; mret (df_index df).

Definition set_index (l : loc) (i : Index) : Py unit :=
  df ← load_frame l; store_frame l (DataFrame_set_index df i).

(** [df[name]] and [df[name] = s] *)
Definition getitem (l : loc) (name : string) : Py Series :=
  df ← load_frame l; lift (DataFrame_getitem df name).

Definition setitem (l : loc) (name : string) (s : Series) : Py unit :=
  df ← load_frame l; store_frame l (DataFrame_setitem df name s).

(** [df.reset_index()] returns a new frame. *)
Definition reset_index (l : loc) : Py loc :=
  df ← load_frame l; df' ← lift (DataFrame_reset_index df); alloc (PyFrame df').

(** [df.rename(columns={old: new}, inplace=True)] *)
Definition rename_inplace (l : loc) (old new : string) : Py unit :=
  df ← load_frame l; store_frame l (DataFrame_rename old new df).

Section Transform.

(** The reading of one date string by [pd.to_datetime]; [None] when pandas
    rejects the string. *)
Variable parse_datetime : string → option Timestamp.

(** [pd.to_datetime(index)] *)
Definition to_datetime (i : Index) : pyresult Index :=
  match i with
  | IdxStr l =>
      match mapM parse_datetime l with
      | Some ts => Ok (IdxTime ts)
      | None => Raise ValueError
      end
  | IdxTime ts => Ok (IdxTime ts)
  | IdxRange n => Ok (IdxTime (Z.of_nat <$> seq 0 n))
  end.

(** ** [transform_data] *)

Definition transform_data (historical_data countries_data : loc) : Py loc :=
  df_historical ← pd_DataFrame historical_data;
  index ← get_index df_historical;
  index ← lift (to_datetime index);
  set_index df_historical index;;
  df_countries ← pd_DataFrame countries_data;
  cases ← getitem df_historical "cases";
  new_cases ← lift (Series_diff cases);
  setitem df_historical "new_cases" new_cases;;
  deaths ← getitem df_historical "deaths";
  new_deaths ← lift (Series_diff deaths);
  setitem df_historical "new_deaths" new_deaths;;
  new_cases ← getitem df_historical "new_cases";
  cases ← getitem df_historical "cases";
  previous ← lift (Series_shift cases);
  ratio ← lift (Series_truediv new_cases previous);
  growth_rate ← lift (Series_mul_int ratio 100);
  setitem df_historical "growth_rate" growth_rate;;
  new_cases ← getitem df_historical "new_cases";
  cases_ma7 ← lift (Series_rolling_mean 7 new_cases);
  setitem df_historical "cases_ma7" cases_ma7;;
  new_deaths ← getitem df_historical "new_deaths";
  deaths_ma7 ← lift (Series_rolling_mean 7 new_deaths);
  setitem df_historical "deaths_ma7" deaths_ma7;;
  population ← getitem df_countries "population";
  total_population ← lift (Series_sum population);
  cases ← getitem df_historical "cases";
  ratio ← lift (Series_truediv_scalar cases total_population);
  cases_per_million ← lift (Series_mul_int ratio 1000000);
  setitem df_historical "cases_per_million" cases_per_million;;
  deaths ← getitem df_historical "deaths";
  ratio ← lift (Series_truediv_scalar deaths total_population);
  deaths_per_million ← lift (Series_mul_int ratio 1000000);
  setitem df_historical "deaths_per_million" deaths_per_million;;
  df_historical ← reset_index df_historical;
  rename_inplace df_historical "index" "date";;
  mret df_historical.

(** A call of [transform_data] on two fresh arguments, and the frame it
    returns. *)
Definition call_transform (h : historical) (c : countries) : pyresult loc * store :=
  transform_data 0%nat 1%nat [PyDict h; PyList c].

Definition transform (h : historical) (c : countries) : pyresult DataFrame :=
  match call_transform h c with
  | (Ok l, σ) =>
      match σ !! l with
      | Some (PyFrame df) => Ok df
      | _ => Raise TypeError
      end
  | (Raise e, _) => Raise e
  end.

(** The frame [transform_data] returns, as a function of the two payloads. *)
Definition enrich (h : historical) (c : countries) : pyresult DataFrame :=
  let df := DataFrame_from_dict h in
  index ← to_datetime (df_index df);
  let df := DataFrame_set_index df index in
  let dfc := DataFrame_from_records c in
  cases ← DataFrame_getitem df "cases";
  new_cases ← Series_diff cases;
  let df := DataFrame_setitem df "new_cases" new_cases in
  deaths ← DataFrame_getitem df "deaths";
  new_deaths ← Series_diff deaths;
  let df := DataFrame_setitem df "new_deaths" new_deaths in
  new_cases ← DataFrame_getitem df "new_cases";
  cases ← DataFrame_getitem df "cases";
  previous ← Series_shift cases;
  ratio ← Series_truediv new_cases previous;
  growth_rate ← Series_mul_int ratio 100;
  let df := DataFrame_setitem df "growth_rate" growth_rate in
  new_cases ← DataFrame_getitem df "new_cases";
  cases_ma7 ← Series_rolling_mean 7 new_cases;
  let df := DataFrame_setitem df "cases_ma7" cases_ma7 in
  new_deaths ← DataFrame_getitem df "new_deaths";
  deaths_ma7 ← Series_rolling_mean 7 new_deaths;
  let df := DataFrame_setitem df "deaths_ma7" deaths_ma7 in
  population ← DataFrame_getitem dfc "population";
  total_population ← Series_sum population;
  cases ← DataFrame_getitem df "cases";
  ratio ← Series_truediv_scalar cases total_population;
  cases_per_million ← Series_mul_int ratio 1000000;
  let df := DataFrame_setitem df "cases_per_million" cases_per_million in
  deaths ← DataFrame_getitem df "deaths";
  ratio ← Series_truediv_scalar deaths total_population;
  deaths_per_million ← Series_mul_int ratio 1000000;
  let df := DataFrame_setitem df "deaths_per_million" deaths_per_million in
  df ← DataFrame_reset_index df;
  Ok (DataFrame_rename "index" "date" df).

End Transform.

(** ** Reading the enriched table *)

Definition column (df : DataFrame) (name : string) : option Series :=
  dict_get name (df_columns df).

Definition floats (df : DataFrame) (name : string) : list np.float64 :=
  match column df name with Some (SFloat v) => v | _ => [] end.

Definition ints (df : DataFrame) (name : string) : list Z :=
  match column df name with Some (SInt v) => v | _ => [] end.

Definition dates (df : DataFrame) : list Timestamp :=
  match column df "date" with Some (STime v) => v | _ => [] end.

Definition nrows (df : DataFrame) : nat := Index_length (df_index df).

(** ** A reader for the date keys of the data source

    The keys of the disease.sh payload are [M/D/YY]; ISO keys
    [YYYY-MM-DD] are read as well. *)

Definition digit (a : Ascii.ascii) : option Z :=
  let n := Z.of_nat (Ascii.nat_of_ascii a) in
  if (48 <=? n) && (n <=? 57) then Some (n - 48) else None.

Fixpoint number_from (acc : Z) (s : string) : option Z :=
  match s with
  | EmptyString => Some acc
  | String a s' => d ← digit a; number_from (10 * acc + d) s'
  end.

Definition number (s : string) : option Z :=
  match s with EmptyString => None | _ => number_from 0 s end.

Fixpoint split_on (sep : Ascii.ascii) (s : string) : list string :=
  match s with
  | EmptyString => [EmptyString]
  | String a s' =>
      if bool_decide (a = sep) then EmptyString :: split_on sep s'
      else match split_on sep s' with
           | [] => [String a EmptyString]
           | w :: ws => String a w :: ws
           end
  end.

Definition leap (y : Z) : bool :=
  ((y mod 4 =? 0) && negb (y mod 100 =? 0)) || (y mod 400 =? 0).

Definition days_in_month (y m : Z) : Z :=
  if m =? 2 then (if leap y then 29 else 28)
  else if (m =? 4) || (m =? 6) || (m =? 9) || (m =? 11) then 30 else 31.

(** Days from 1970-01-01 to the civil date [y-m-d]. *)
Definition days_from_civil (y m d : Z) : Z :=
  let y' := if m <=? 2 then y - 1 else y in
  let era := y' / 400 in
  let yoe := y' - era * 400 in
  let doy := (153 * (if 2 <? m then m - 3 else m + 9) + 2) / 5 + d - 1 in
  let doe := yoe * 365 + yoe / 4 - yoe / 100 + doy in
  era * 146097 + doe - 719468.

Definition timestamp_of (y m d : Z) : option Timestamp :=
  if (1 <=? m) && (m <=? 12) && (1 <=? d) && (d <=? days_in_month y m)
  then Some (days_from_civil y m d * 86400 * 1000000000)
  else None.

Definition parse_date (s : string) : option Timestamp :=
  match split_on "/"%char s with
  | [m; d; y] =>
      m ← number m; d ← number d; y ← number y;
      timestamp_of (if y <? 69 then 2000 + y else if y <? 100 then 1900 + y else y) m d
  | _ =>
      match split_on "-"%char s with
      | [y; m; d] => y ← number y; m ← number m; d ← number d; timestamp_of y m d
      | _ => None
      end
  end.

(** ** Quantities the properties speak of *)

(** Line 47: the population total of the country snapshot. *)
Definition total_population (c : countries) : pyresult Scalar :=
  population ← DataFrame_getitem (DataFrame_from_records c) "population";
  Series_sum population.

(** The denominator the per-million columns divide by. *)
Definition total_population_float (c : countries) : pyresult np.float64 :=
  t ← total_population c; Scalar_float t.

(** The populations that are present and not null. *)
Definition population_values (c : countries) : list Z :=
  omap (λ d, match dict_get "population" d with Some (JInt n) => Some n | _ => None end) c.

Definition has_population (d : pydict json) : Prop := is_Some (dict_get "population" d).

Definition population_is_text (d : pydict json) : Prop :=
  ∃ s, dict_get "population" d = Some (JStr s).

Definition sum_list (l : list Z) : Z := foldr Z.add 0 l.
Definition sum_abs (l : list Z) : Z := foldr (λ n s, Z.abs n + s) 0 l.

(** Series [name] of the payload has a count for every date: pandas holds
    it as the [int64] column [v]. *)
Definition int_series (h : historical) (name : string) (v : list Z) : Prop :=
  column (DataFrame_from_dict h) name = Some (SInt v).

(** The names [transform_data] gives to the columns it adds. *)
Definition derived_names : list string :=
  ["new_cases"; "new_deaths"; "growth_rate"; "cases_ma7"; "deaths_ma7";
   "cases_per_million"; "deaths_per_million"].

(** The name [reset_index] gives to the column of the old index. *)
Definition index_name (cols : pydict Series) : string :=
  if bool_decide ("index" ∈ dict_keys cols) then "level_0" else "index".

Definition add_derived (nc nd gr cma dma cpm dpm : Series) (cols : pydict Series) : pydict Series :=
  dict_set "deaths_per_million" dpm
    (dict_set "cases_per_million" cpm
      (dict_set "deaths_ma7" dma
        (dict_set "cases_ma7" cma
          (dict_set "growth_rate" gr
            (dict_set "new_deaths" nd
              (dict_set "new_cases" nc cols)))))).

Definition growth_rate_of (new_cases cases : Series) : pyresult Series :=
  previous ← Series_shift cases;
  ratio ← Series_truediv new_cases previous;
  Series_mul_int ratio 100.

Definition per_million_of (counts : Series) (total : Scalar) : pyresult Series :=
  ratio ← Series_truediv_scalar counts total;
  Series_mul_int ratio 1000000.

(** The mantissa and exponent of the binary64 that holds a positive integer
    below [2^53]. *)
Definition mant53 (p : positive) : positive :=
  Z.to_pos (Z.pos p * 2 ^ (53 - Z.pos (digits2_pos p))).
Definition exp53 (p : positive) : Z := Z.pos (digits2_pos p) - 53.

(** A computation that leaves every object of [σ0] as it is, and whose
    result satisfies [Q]. *)
Definition preserves {A} (σ0 : store) (m : Py A) (Q : A → Prop) : Prop :=
  ∀ σ, σ0 `prefix_of` σ →
    σ0 `prefix_of` (m σ).2 ∧ ∀ a, (m σ).1 = Ok a → Q a.

(** The place of a remainder [R] of a division by [D]: none, or below, at
    or above the half of [D]. *)
Definition loc_spec (D R : Z) (l : location) : Prop :=
  match l with
  | loc_Exact => R = 0
  | loc_Inexact Lt => 0 < 2 * R < D
  | loc_Inexact Eq => 0 < R ∧ 2 * R = D
  | loc_Inexact Gt => D < 2 * R
  end.

(** [x] is a binary64 nearest to the quotient [n / d] of two integers: a
    zero when [n] is 0, and otherwise the sign of [n], a mantissa [m] of
    53 bits and an exponent [e] with [|m * 2^e - |n| / d|] at most half a
    unit in the last place, [2^e / 2]. *)
Definition nearest_quotient (x : np.float64) (n d : Z) : Prop :=
  match x with
  | S754_zero _ => n = 0
  | S754_finite s m e =>
      s = (n <? 0) ∧ Z.pos (digits2_pos m) = 53 ∧ e <= 0 ∧
      2 * Z.abs (d * Z.pos m - Z.abs n * 2 ^ (- e)) <= d
  | _ => False
  end.

(** Every count of the payload fits [int64]. *)
Definition int64_counts (h : historical) : Prop :=
  Forall (λ series, Forall (λ cell, np.int64_range cell.2) series.2) h.

(** The moving-average rule: [ma] is defined from row 7 on and on no row
    before. For counters below [2^52] the seven deltas [nc[i-6..i]] are
    the floats of the integer differences of consecutive counters, which
    add up to [counts[i] - counts[i-7]], and [ma[i]] is the binary64
    nearest to the seventh of that sum, which is what [np.div] gives. *)
Definition ma7_rule (counts : list Z) (nc ma : list np.float64) : Prop :=
  length ma = length counts ∧
  ∀ i, (i < length counts)%nat →
    ∃ x, ma !! i = Some x ∧
      (np.isnan x = false ↔ (7 ≤ i)%nat) ∧
      ((7 ≤ i)%nat → Forall (λ n, Z.abs n < 2 ^ 52) counts →
         ∀ a b, counts !! (i - 7)%nat = Some a → counts !! i = Some b →
           ∃ deltas,
             take 7 (drop (i - 6) nc) = np.of_int <$> deltas ∧
             length deltas = 7%nat ∧
             sum_list deltas = b - a ∧
             nearest_quotient x (sum_list deltas) 7 ∧
             x = np.div (np.of_int (sum_list deltas)) (np.of_int 7)).

(** ** Sample payloads *)

Definition one_country : countries :=
  [[("country", JStr "Chile"); ("population", JInt 1000000)]].

Definition mixed_countries : countries :=
  [[("country", JStr "A"); ("population", JInt 1000)];
   [("country", JStr "B"); ("population", JNull)];
   [("country", JStr "C")];
   [("country", JStr "D"); ("population", JInt 500)]].

Definition unpopulated : countries := [[("country", JStr "Chile")]].

Definition zero_population : countries :=
  [[("country", JStr "Diamond Princess"); ("population", JInt 0)]].

Definition large_populations : countries :=
  [[("country", JStr "A"); ("population", JInt 9007199254740992)];
   [("country", JStr "B"); ("population", JInt 1)];
   [("country", JStr "C"); ("population", JNull)]].

Definition null_countries : countries :=
  [[("country", JStr "A"); ("population", JNull)];
   [("country", JStr "B"); ("population", JNull)]].

Definition scenario_A : historical :=
  [("cases", [("1/22/20", 1); ("1/23/20", 3)]);
   ("deaths", [("1/22/20", 0); ("1/23/20", 0)])].

Definition scenario_B : historical :=
  [("cases", [("1/22/20", 5); ("1/23/20", 15); ("1/24/20", 25); ("1/25/20", 35);
              ("1/26/20", 45); ("1/27/20", 55); ("1/28/20", 65); ("1/29/20", 135)]);
   ("deaths", [("1/22/20", 0); ("1/23/20", 1); ("1/24/20", 1); ("1/25/20", 2);
               ("1/26/20", 2); ("1/27/20", 3); ("1/28/20", 3); ("1/29/20", 4)])].

Definition scenario_C : historical :=
  [("cases", [("1/22/20", 0); ("1/23/20", 5)]);
   ("deaths", [("1/22/20", 0); ("1/23/20", 0)])].

Definition descending : historical :=
  [("cases", [("10/1/20", 3); ("2/1/20", 1)]);
   ("deaths", [("10/1/20", 0); ("2/1/20", 0)])].

Definition with_recovered : historical :=
  [("cases", [("1/22/20", 557); ("1/23/20", 657)]);
   ("deaths", [("1/22/20", 17); ("1/23/20", 18)]);
   ("recovered", [("1/22/20", 30); ("1/23/20", 32)])].

Definition huge_step : historical :=
  [("cases", [("1/22/20", 0); ("1/23/20", 9007199254740993)]);
   ("deaths", [("1/22/20", 0); ("1/23/20", 0)])].

Definition no_dates : historical := [("cases", []); ("deaths", [])].

(** A step from [-2^62] to [2^62]. *)
Definition wide_step : historical :=
  [("cases", [("1/22/20", -4611686018427387904); ("1/23/20", 4611686018427387904)]);
   ("deaths", [("1/22/20", 0); ("1/23/20", 0)])].

(** A payload with a series that has the name of a derived column. *)
Definition with_new_cases : historical :=
  [("new_cases", [("1/22/20", 7); ("1/23/20", 8)]);
   ("cases", [("1/22/20", 1); ("1/23/20", 3)]);
   ("deaths", [("1/22/20", 0); ("1/23/20", 0)])].

(** Eight dates, the last of which has a count of deaths but none of cases. *)
Definition short_cases : historical :=
  [("cases", [("1/22/20", 5); ("1/23/20", 15); ("1/24/20", 25); ("1/25/20", 35);
              ("1/26/20", 45); ("1/27/20", 55); ("1/28/20", 65)]);
   ("deaths", [("1/22/20", 0); ("1/23/20", 1); ("1/24/20", 1); ("1/25/20", 2);
               ("1/26/20", 2); ("1/27/20", 3); ("1/28/20", 3); ("1/29/20", 4)])].

(** The payloads [transform_data] does not raise on. *)
Definition accepted (parse : string → option Timestamp) (h : historical) (c : countries) : Prop :=
  is_Some (dict_get "cases" h) ∧ is_Some (dict_get "deaths" h) ∧
  is_Some (mapM parse (labels h)) ∧
  (∃ x, total_population_float c = Ok x) ∧
  ¬ ("index" ∈ dict_keys h ∧ "level_0" ∈ dict_keys h).

(** The columns computed from a series of counters that pandas holds as
    [int64], given the float [x] of the population total. *)
Definition int_view (df : DataFrame) (x : np.float64) (cs : list Z)
    (counts delta ma7 per_million : string) : Prop :=
  ints df counts = cs ∧
  floats df delta = diff_int64 cs ∧
  floats df ma7 = rolling_mean 7 (diff_int64 cs) ∧
  floats df per_million
  = (λ u, np.mul u (np.of_int 1000000)) <$> ((λ u, np.div u x) <$> (np.of_int <$> cs)).


(** * update_covid.py: the stages around the transform

    [fetch_covid_data], [setup_git_repo], [save_and_push_data] and [main]
    talk to the network, to a git repository and to the disk. They are
    programs over the calls they make to [requests], GitPython, [os],
    pandas' writer and the clock; a run answers every call from a world and
    records what was printed and what was called, in order. The properties
    hold for every world.

    Printing is taken to succeed, and the exceptions are those that derive
    from [Exception], which is what [main] catches. *)

(** ** Exceptions of the pipeline *)

Inductive exn :=
| Exception (message : string)
| Pandas (e : pyexc)
| External (class message : string).

Inductive outcome (A : Type) :=
| Returns (a : A)
| Raises (e : exn).
Arguments Returns {A} a.
Arguments Raises {A} e.

(** ** The objects the libraries hand out *)

(** A [requests.Response]: its status and what [.json()] gives. *)
Record Response := mkResponse {
  status_code : Z;
  Response_json : outcome pyobj
}.

(** A [git.Repo], a [git.Remote] and a config writer. *)
Definition Repo : Type := nat.
Record Remote := mkRemote { Remote_name : string; Remote_repo : Repo }.
Definition Writer : Type := nat.

(** ** The calls *)

Inductive call : Type → Type :=
| requests_get (url : string) : call Response
| Repo_open (path : string) : call Repo
| Repo_init (path : string) : call Repo
| Repo_remotes (repo : Repo) : call (list Remote)
| Repo_create_remote (repo : Repo) (name url : string) : call Remote
| Repo_remote (repo : Repo) (name : string) : call Remote
| Repo_config_writer (repo : Repo) : call Writer
| Writer_set_value (w : Writer) (section key value : string) : call Writer
| Writer_release (w : Writer) : call unit
| os_makedirs (path : string) (exist_ok : bool) : call unit
| DataFrame_to_parquet (df : DataFrame) (path compression : string) : call unit
| index_add (repo : Repo) (paths : list string) : call unit
| now_strftime (format : string) : call string
| index_commit (repo : Repo) (message : string) : call unit
| Remote_push (origin : Remote) : call unit.

Inductive event :=
| Printed (s : string)
| Called {A} (c : call A) (r : outcome A).

(** A world answers a call in view of everything that happened so far. *)
Definition world : Type := ∀ A, list event → call A → outcome A.

(** ** Programs *)

Inductive prog (A : Type) : Type :=
| Ret (a : A)
| Throw (e : exn)
| Print (s : string) (k : prog A)
| Call {B} (c : call B) (k : outcome B → prog A).
Arguments Ret {A} a.
Arguments Throw {A} e.
Arguments Print {A} s k.
Arguments Call {A B} c k.

Fixpoint prog_bind {A B} (f : A → prog B) (m : prog A) : prog B :=
  match m with
  | Ret a => f a
  | Throw e => Throw e
  | Print s k => Print s (prog_bind f k)
  | Call c k => Call c (λ r, prog_bind f (k r))
  end.

#[global] Instance prog_ret : MRet prog := λ A a, Ret a.
#[global] Instance prog_mbind : MBind prog := λ A B f m, prog_bind f m.

(** [print(s)] *)
Definition print (s : string) : prog unit := Print s (Ret ()).

(** A call whose exception, if any, propagates. *)
Definition perform {A} (c : call A) : prog A :=
  Call c (λ r, match r with Returns a => Ret a | Raises e => Throw e end).

Definition value {A} (r : outcome A) : prog A :=
  match r with Returns a => Ret a | Raises e => Throw e end.

(** [try: body / except: handler] *)
Fixpoint try_except {A} (body : prog A) (handler : exn → prog A) : prog A :=
  match body with
  | Ret a => Ret a
  | Throw e => handler e
  | Print s k => Print s (try_except k handler)
  | Call c k => Call c (λ r, try_except (k r) handler)
  end.

(** A run from the trace [tr]: the outcome and the trace it leaves. *)
Fixpoint run {A} (w : world) (m : prog A) (tr : list event) : outcome A * list event :=
  match m with
  | Ret a => (Returns a, tr)
  | Throw e => (Raises e, tr)
  | Print s k => run w k (tr ++ [Printed s])
  | Call c k => let r := w _ tr c in run w (k r) (tr ++ [Called c r])
  end.

Section Pipeline.

Variable parse_datetime : string → option Timestamp.

(** The text pandas attaches to a [TypeError] or a [ValueError]. *)
Variable pandas_text : pyexc → string.

(** The constants of [config.py]. *)
Variables GITHUB_URL GIT_NAME GIT_EMAIL : string.

(** [str(e)]. The key of a [KeyError] is shown quoted; the keys
    [transform_data] asks for are plain column names. *)
Definition str (e : exn) : string :=
  match e with
  | Exception m => m
  | External _ m => m
  | Pandas (KeyError k) => "'" +:+ k +:+ "'"
  | Pandas e => pandas_text e
  end.

Definition historical_url : string :=
  "https://disease.sh/v3/covid-19/historical/all?lastdays=all".
Definition countries_url : string := "https://disease.sh/v3/covid-19/countries".

(** ** [fetch_covid_data] *)

Definition fetch_covid_data : prog (pyobj * pyobj) :=
  print "Obteniendo datos de COVID-19...";;
  historical_response ← perform (requests_get historical_url);
  countries_response ← perform (requests_get countries_url);
  if bool_decide (status_code historical_response ≠ 200
                  ∨ status_code countries_response ≠ 200)
  then Throw (Exception "Error al obtener datos de la API")
  else
    historical_data ← value (Response_json historical_response);
    countries_data ← value (Response_json countries_response);
    mret (historical_data, countries_data).

(** ** The call of [transform_data]

    The frame [transform_data] returns for the two objects it is handed. *)
Definition transformed (historical_data countries_data : pyobj) : pyresult DataFrame :=
  match transform_data parse_datetime 0%nat 1%nat [historical_data; countries_data] with
  | (Ok l, σ) =>
      match σ !! l with
      | Some (PyFrame df) => Ok df
      | _ => Raise TypeError
      end
  | (Raise e, _) => Raise e
  end.

Definition transform_data_call (historical_data countries_data : pyobj) : prog DataFrame :=
  print "Transformando datos...";;
  match transformed historical_data countries_data with
  | Ok df => Ret df
  | Raise e => Throw (Pandas e)
  end.

(** ** [setup_git_repo] *)

Definition setup_git_repo : prog Repo :=
  print "Configurando repositorio Git...";;
  repo ← try_except (perform (Repo_open ".")) (λ _, perform (Repo_init "."));
  remotes ← perform (Repo_remotes repo);
  origin ← (if bool_decide ("origin" ∉ Remote_name <$> (remotes : list Remote))
            then perform (Repo_create_remote repo "origin" GITHUB_URL)
            else perform (Repo_remote repo "origin"));
  w ← perform (Repo_config_writer repo);
  w ← perform (Writer_set_value w "user" "name" GIT_NAME);
  perform (Writer_release w);;
  w ← perform (Repo_config_writer repo);
  w ← perform (Writer_set_value w "user" "email" GIT_EMAIL);
  perform (Writer_release w);;
  mret repo.

(** ** [save_and_push_data] *)

Definition output_path : string := "data/raw/covid_historical_data.parquet".

Definition commit_prefix : string := "Actualización datos COVID-19 ".

Definition save_and_push_data (df : DataFrame) (repo : Repo) : prog unit :=
  print "Guardando y subiendo datos...";;
  perform (os_makedirs "data/raw" true);;
  perform (DataFrame_to_parquet df output_path "gzip");;
  print ("Datos guardados en " +:+ output_path);;
  perform (index_add repo [output_path]);;
  stamp ← perform (now_strftime "%Y-%m-%d %H:%M:%S");
  let commit_message := commit_prefix +:+ stamp in
  perform (index_commit repo commit_message);;
  origin ← perform (Repo_remote repo "origin");
  perform (Remote_push origin);;
  print "Datos subidos exitosamente a GitHub".

(** ** [main] *)

Definition success_line : string := "¡Proceso completado exitosamente!".

Definition error_line (e : exn) : string := "Error en el proceso: " +:+ str e.

Definition main : prog unit :=
  try_except
    ('(historical_data, countries_data) ← fetch_covid_data;
     df_transformed ← transform_data_call historical_data countries_data;
     repo ← setup_git_repo;
     save_and_push_data df_transformed repo;;
     print success_line)
    (λ e, print (error_line e)).

End Pipeline.

(** ** Runs *)

Definition trace_of {A} (w : world) (m : prog A) : list event := (run w m []).2.
Definition outcome_of {A} (w : world) (m : prog A) : outcome A := (run w m []).1.

(** ** Reading a trace *)

(** The lines printed. *)
Definition printed (tr : list event) : list string :=
  omap (λ e, match e with Printed s => Some s | Called _ _ => None end) tr.

(** The responses the requests returned. *)
Definition responses (tr : list event) : list Response :=
  omap (λ e,
    match e with
    | Printed _ => None
    | Called c r =>
        match c in call A return outcome A → option Response with
        | requests_get _ => λ r, match r with Returns x => Some x | Raises _ => None end
        | _ => λ _, None
        end r
    end) tr.

(** The URLs requested. *)
Definition requested (tr : list event) : list string :=
  omap (λ e, match e with Called (requests_get url) _ => Some url | _ => None end) tr.

(** The frames handed to the parquet writer, with path and compression. *)
Definition written (tr : list event) : list (DataFrame * string * string) :=
  omap (λ e,
    match e with
    | Called (DataFrame_to_parquet df path compression) _ => Some (df, path, compression)
    | _ => None
    end) tr.

(** The paths staged, the messages of the commits made and the remotes
    pushed to. *)
Definition staged (tr : list event) : list (list string) :=
  omap (λ e, match e with Called (index_add _ paths) _ => Some paths | _ => None end) tr.

Definition commits (tr : list event) : list string :=
  omap (λ e, match e with Called (index_commit _ m) _ => Some m | _ => None end) tr.

Definition pushed (tr : list event) : list Remote :=
  omap (λ e, match e with Called (Remote_push o) _ => Some o | _ => None end) tr.

(** The remotes created, as name and URL, and the repositories initialised. *)
Definition remotes_created (tr : list event) : list (string * string) :=
  omap (λ e,
    match e with
    | Called (Repo_create_remote _ name url) _ => Some (name, url)
    | _ => None
    end) tr.

Definition initialised (tr : list event) : list string :=
  omap (λ e, match e with Called (Repo_init path) _ => Some path | _ => None end) tr.

(** The values written to the git configuration. *)
Definition configured (tr : list event) : list (string * string * string) :=
  omap (λ e,
    match e with
    | Called (Writer_set_value _ section key v) _ => Some (section, key, v)
    | _ => None
    end) tr.

(** The names of the remotes each listing returned. *)
Definition listings (tr : list event) : list (list string) :=
  omap (λ e,
    match e with
    | Printed _ => None
    | Called c r =>
        match c in call A return outcome A → option (list string) with
        | Repo_remotes _ => λ r,
            match r with Returns l => Some (Remote_name <$> l) | Raises _ => None end
        | _ => λ _, None
        end r
    end) tr.

(** The pushes that returned. *)
Definition delivered (tr : list event) : list Remote :=
  omap (λ e, match e with Called (Remote_push o) (Returns _) => Some o | _ => None end) tr.

(** The strings the clock returned for the format of the commit message,
    and the remotes the repository returned under the name [origin]. *)
Definition stamps (tr : list event) : list string :=
  omap (λ e,
    match e with
    | Printed _ => None
    | Called c r =>
        match c in call A return outcome A → option string with
        | now_strftime "%Y-%m-%d %H:%M:%S" =>
            λ r, match r with Returns s => Some s | Raises _ => None end
        | _ => λ _, None
        end r
    end) tr.

Definition fetched (tr : list event) : list Remote :=
  omap (λ e,
    match e with
    | Printed _ => None
    | Called c r =>
        match c in call A return outcome A → option Remote with
        | Repo_remote _ "origin" =>
            λ r, match r with Returns o => Some o | Raises _ => None end
        | _ => λ _, None
        end r
    end) tr.

(** The exceptions the calls raised, but for the opening of the working
    directory as a repository, whose exception [setup_git_repo] catches. *)
Definition raised (tr : list event) : list exn :=
  omap (λ e,
    match e with
    | Called (Repo_open _) _ => None
    | Called _ (Raises e) => Some e
    | _ => None
    end) tr.

(** The exception that ends the [try] block of [main] in a run with trace
    [tr]: the one a call raised; or, all calls having returned, the
    exception of [fetch_covid_data] for a status other than 200; or the
    one the decoding of a body raised, the historical body first; or the
    one [transform_data] raised on the two bodies. [None] when there is
    none. *)
Definition stopped_by (parse_datetime : string → option Timestamp)
    (tr : list event) : option exn :=
  match raised tr with
  | e :: _ => Some e
  | [] =>
      match responses tr with
      | [historical_response; countries_response] =>
          if bool_decide (status_code historical_response ≠ 200
                          ∨ status_code countries_response ≠ 200)
          then Some (Exception "Error al obtener datos de la API")
          else
            match Response_json historical_response with
            | Raises e => Some e
            | Returns historical_data =>
                match Response_json countries_response with
                | Raises e => Some e
                | Returns countries_data =>
                    match transformed parse_datetime historical_data countries_data with
                    | Raise e => Some (Pandas e)
                    | Ok _ => None
                    end
                end
            end
      | _ => None
      end
  end.

(** The steps of a publication: the configuration values set, the writes,
    stagings and commits that returned and the pushes made, in the order of
    the trace. *)
Inductive step :=
| Configured (section key value : string)
| Wrote (path : string)
| Staged (paths : list string)
| Committed (message : string)
| Pushed (origin : Remote).

Definition publication (tr : list event) : list step :=
  omap (λ e,
    match e with
    | Called (Writer_set_value _ section key v) (Returns _) => Some (Configured section key v)
    | Called (DataFrame_to_parquet _ path _) (Returns _) => Some (Wrote path)
    | Called (index_add _ paths) (Returns _) => Some (Staged paths)
    | Called (index_commit _ m) (Returns _) => Some (Committed m)
    | Called (Remote_push o) _ => Some (Pushed o)
    | _ => None
    end) tr.

(** A call that reaches the repository or the disk. *)
Definition local_effect (e : event) : bool :=
  match e with
  | Printed _ => false
  | Called c _ =>
      match c with
      | requests_get _ | now_strftime _ => false
      | _ => true
      end
  end.

(** A call that raised. *)
Definition failed (e : event) : bool :=
  match e with
  | Called _ (Raises _) => true
  | _ => false
  end.

(** A run in which nothing raised, but possibly the opening of the working
    directory as a repository, which [setup_git_repo] catches. *)
Definition opening (e : event) : bool :=
  match e with
  | Called (Repo_open _) _ => true
  | _ => false
  end.

Definition unhindered (tr : list event) : bool :=
  forallb (λ e, negb (failed e) || opening e) tr.

(** ** Sample worlds *)

Definition respond (status : Z) (body : pyobj) : Response :=
  {| status_code := status; Response_json := Returns body |}.

(** A world given by the two responses of the API, by what opening the
    working directory as a repository gives, by the names of the remotes
    and by what the push gives; every other call goes through. *)
Definition sample_world (historical_response countries_response : Response)
    (checkout : outcome Repo) (remote_names : list string) (push : outcome unit) : world :=
  λ A tr c,
  match c in call A return outcome A with
  | requests_get url =>
      Returns (if bool_decide (url = historical_url) then historical_response
               else countries_response)
  | Repo_open _ => checkout
  | Repo_init _ => Returns 0%nat
  | Repo_remotes repo =>
      Returns ((λ name, {| Remote_name := name; Remote_repo := repo |}) <$> remote_names)
  | Repo_create_remote repo name _ => Returns {| Remote_name := name; Remote_repo := repo |}
  | Repo_remote repo name => Returns {| Remote_name := name; Remote_repo := repo |}
  | Repo_config_writer _ => Returns 0%nat
  | Writer_set_value w _ _ _ => Returns w
  | Writer_release _ => Returns ()
  | os_makedirs _ _ => Returns ()
  | DataFrame_to_parquet _ _ _ => Returns ()
  | index_add _ _ => Returns ()
  | now_strftime _ => Returns "2021-03-01 06:00:00"
  | index_commit _ _ => Returns ()
  | Remote_push _ => push
  end.

(** The API serves the two payloads and the directory holds no repository
    yet. *)
Definition fresh_checkout (h : historical) (c : countries) : world :=
  sample_world (respond 200 (PyDict h)) (respond 200 (PyList c))
    (Raises (External "InvalidGitRepositoryError" ".")) [] (Returns ()).


(** The countries endpoint answers 503 with a body that is no JSON. *)
Definition countries_down (h : historical) : world :=
  sample_world (respond 200 (PyDict h))
    {| status_code := 503;
       Response_json := Raises (External "JSONDecodeError" "Expecting value") |}
    (Returns 0%nat) ["origin"] (Returns ()).


(** A text for the exceptions of pandas in the sample runs. *)
Definition sample_text (e : pyexc) : string :=
  match e with
  | KeyError k => k
  | TypeError => "unsupported operand type(s)"
  | ValueError => "Unknown datetime string format"
  end.

(** [main] with sample constants. *)
Definition sample_main : prog unit :=
  main parse_date sample_text "https://github.com/user/covid.git" "bot" "bot@example.org".

(** ** More sample payloads *)

Definition unreadable : historical :=
  [("cases", [("1/22/20", 1); ("soon", 3)]);
   ("deaths", [("1/22/20", 0); ("soon", 0)])].

Definition cases_only : historical := [("cases", [("1/22/20", 1); ("1/23/20", 3)])].

Definition deaths_only : historical := [("deaths", [("1/22/20", 0); ("1/23/20", 0)])].

Definition text_population : countries :=
  [[("country", JStr "A"); ("population", JInt 1000)];
   [("country", JStr "B"); ("population", JStr "unknown")]].

(** The [cases] series has no count for the second date. *)
Definition gapped : historical :=
  [("deaths", [("1/22/20", 0); ("1/23/20", 0); ("1/24/20", 1)]);
   ("cases", [("1/22/20", 1); ("1/24/20", 4)])].

Definition index_named : historical :=
  [("cases", [("1/22/20", 1); ("1/23/20", 3)]);
   ("deaths", [("1/22/20", 0); ("1/23/20", 0)]);
   ("index", [("1/22/20", 7); ("1/23/20", 8)])].

(** The frame of scenario A. *)
Definition scenario_A_frame : DataFrame :=
  match transform parse_date scenario_A one_country with
  | Ok df => df
  | Raise _ => {| df_index := IdxRange 0; df_columns := [] |}
  end.

(** The same date under two keys. *)
Definition twice_dated : historical :=
  [("cases", [("1/22/20", 1); ("01/22/20", 3)]);
   ("deaths", [("1/22/20", 0); ("01/22/20", 0)])].

(** A snapshot with the population of [one_country] and other fields. *)
Definition other_fields : countries :=
  [[("population", JInt 1000000); ("country", JStr "Elsewhere"); ("cases", JInt 5)]].

(** Scenario A a day later. *)
Definition scenario_A_next : historical :=
  [("cases", [("1/22/20", 1); ("1/23/20", 3); ("1/24/20", 4)]);
   ("deaths", [("1/22/20", 0); ("1/23/20", 0); ("1/24/20", 1)])].
(** * Facts

    ** binary64 *)

Lemma digits2_size p : digits2_pos p = Pos.size p.
Proof. induction p; simpl; congruence. Qed.

Lemma digits_log2 p : Z.pos (digits2_pos p) = Z.log2 (Z.pos p) + 1.
Proof. rewrite digits2_size. destruct p; simpl; lia. Qed.

Lemma iter_pos_iter {A} (f : A -> A) n : forall x, SpecFloat.iter_pos f n x = Pos.iter f x n.
Proof.
  induction n; intros x; simpl.
  - rewrite !IHn. rewrite <- !Pos.iter_swap. reflexivity.
  - rewrite !IHn. reflexivity.
  - reflexivity.
Qed.

Lemma iter_xO p n : Z.pos (Pos.iter xO p n) = Z.pos p * 2 ^ Z.pos n.
Proof.
  revert p. induction n using Pos.peano_ind; intros p.
  - simpl. lia.
  - rewrite Pos.iter_succ. rewrite Pos2Z.inj_xO, IHn, Pos2Z.inj_succ, Z.pow_succ_r by lia. lia.
Qed.

(* shifting right an exact record *)
Lemma shr_1_m mrs : 0 <= shr_m mrs -> shr_m (shr_1 mrs) = shr_m mrs / 2.
Proof.
  destruct mrs as [m r s]. simpl. intros H.
  destruct m as [|p|p]; try lia; [reflexivity|].
  destruct p; simpl shr_m.
  - rewrite Pos2Z.inj_xI. apply Z.div_unique with 1; lia.
  - rewrite Pos2Z.inj_xO. apply Z.div_unique with 0; lia.
  - reflexivity.
Qed.

Lemma shr_iter_m n : forall mrs, 0 <= shr_m mrs ->
  shr_m (SpecFloat.iter_pos shr_1 n mrs) = shr_m mrs / 2 ^ Z.pos n.
Proof.
  intros mrs. rewrite iter_pos_iter. revert mrs.
  induction n using Pos.peano_ind; intros mrs H.
  - simpl Pos.iter. rewrite shr_1_m by assumption. reflexivity.
  - rewrite Pos.iter_succ_r. rewrite IHn.
    + rewrite shr_1_m by assumption. rewrite Pos2Z.inj_succ, Z.pow_succ_r by lia.
      rewrite Z.div_div by lia. reflexivity.
    + rewrite shr_1_m by assumption. apply Z.div_pos; lia.
Qed.

Lemma shr_iter_exact n : forall M q, Z.pos M = Z.pos q * 2 ^ Z.pos n ->
  SpecFloat.iter_pos shr_1 n (Build_shr_record (Z.pos M) false false)
  = Build_shr_record (Z.pos q) false false.
Proof.
  intros M q. rewrite iter_pos_iter. revert M q.
  induction n using Pos.peano_ind; intros M q H.
  - destruct M; try lia. simpl. f_equal. lia.
  - rewrite Pos.iter_succ_r.
    rewrite Pos2Z.inj_succ, Z.pow_succ_r in H by lia.
    destruct M as [M|M|]; try lia.
    simpl shr_1. apply IHn. lia.
Qed.

Lemma fexp_eq e : fexp np.prec np.emax e = Z.max (e - 53) (-1074).
Proof. reflexivity. Qed.

Lemma round_aux_canonical s q e :
  Z.pos (digits2_pos q) = 53 -> -1074 <= e <= 971 ->
  binary_round_aux np.prec np.emax s (Z.pos q) e loc_Exact = S754_finite s q e.
Proof.
  intros Hd He. unfold binary_round_aux, shr_fexp.
  cbn [Zdigits2 shr_record_of_loc]. rewrite Hd, fexp_eq.
  replace (Z.max (53 + e - 53) (-1074) - e) with 0 by lia.
  cbn [shr shr_m loc_of_shr_record round_nearest_even Zdigits2 shr_record_of_loc].
  rewrite Hd, fexp_eq.
  replace (Z.max (53 + e - 53) (-1074) - e) with 0 by lia.
  cbn [shr shr_m].
  replace (e <=? np.emax - np.prec) with true; [reflexivity|].
  symmetry. apply Z.leb_le. unfold np.emax, np.prec. lia.
Qed.

Lemma round_aux_shift s M q e n :
  Z.pos (digits2_pos q) = 53 -> 0 < n -> -1074 <= e + n <= 971 ->
  Z.pos M = Z.pos q * 2 ^ n ->
  binary_round_aux np.prec np.emax s (Z.pos M) e loc_Exact = S754_finite s q (e + n).
Proof.
  intros Hd Hn He HM.
  assert (HdM : Z.pos (digits2_pos M) = 53 + n).
  { rewrite digits_log2, HM, Z.log2_mul_pow2 by lia. rewrite digits_log2 in Hd. lia. }
  unfold binary_round_aux, shr_fexp.
  cbn [Zdigits2 shr_record_of_loc]. rewrite HdM, fexp_eq.
  replace (Z.max (53 + n + e - 53) (-1074) - e) with n by lia.
  destruct n as [|n|n]; try lia.
  cbn [shr]. rewrite (shr_iter_exact n M q HM).
  cbn [shr_m loc_of_shr_record round_nearest_even Zdigits2 shr_record_of_loc].
  rewrite Hd, fexp_eq.
  replace (Z.max (53 + (e + Z.pos n) - 53) (-1074) - (e + Z.pos n)) with 0 by lia.
  cbn [shr shr_m].
  replace (e + Z.pos n <=? np.emax - np.prec) with true; [reflexivity|].
  symmetry. apply Z.leb_le. unfold np.emax, np.prec. lia.
Qed.

(** A dyadic [M * 2^e] that a 53-bit mantissa [q] and an exponent [e'] in
    range represent is left as it is by rounding. *)
Lemma binary_round_representable s M e q e' :
  Z.pos (digits2_pos q) = 53 -> -1074 <= e' <= 971 ->
  Z.pos M * 2 ^ (e - Z.min e e') = Z.pos q * 2 ^ (e' - Z.min e e') ->
  binary_round np.prec np.emax s M e = S754_finite s q e'.
Proof.
  intros Hd He' Hv. unfold binary_round.
  assert (HdM : Z.pos (digits2_pos M) + e = 53 + e').
  { assert (Z.log2 (Z.pos M * 2 ^ (e - Z.min e e')) = Z.log2 (Z.pos q * 2 ^ (e' - Z.min e e')))
      by (rewrite Hv; reflexivity).
    rewrite !Z.log2_mul_pow2 in H by lia.
    rewrite !digits_log2. rewrite digits_log2 in Hd. lia. }
  rewrite HdM, fexp_eq. replace (Z.max (53 + e' - 53) (-1074)) with e' by lia.
  unfold shl_align.
  destruct (e' - e) as [|d|d] eqn:Hde.
  - replace (Z.min e e') with e in Hv by lia. replace e' with e in * by lia.
    rewrite Z.sub_diag in Hv. assert (M = q) by lia. subst M.
    apply round_aux_canonical; [assumption | lia].
  - replace (Z.min e e') with e in Hv by lia.
    rewrite Z.sub_diag, Hde in Hv.
    replace e' with (e + Z.pos d) by lia.
    apply round_aux_shift; try assumption; lia.
  - replace (Z.min e e') with e' in Hv by lia.
    rewrite Z.sub_diag in Hv. replace (e - e') with (Z.pos d) in Hv by lia.
    assert (Pos.iter xO M d = q) by (apply Pos2Z.inj; rewrite iter_xO; lia).
    rewrite H. apply round_aux_canonical; [assumption | lia].
Qed.



Lemma digits_pos_bound p : Z.pos p < 2 ^ 53 -> Z.pos (digits2_pos p) <= 53.
Proof.
  intros H. rewrite digits_log2.
  assert (Z.log2 (Z.pos p) < 53) by (apply Z.log2_lt_pow2; lia). lia.
Qed.

Lemma mant53_spec p : Z.pos p < 2 ^ 53 ->
  Z.pos (mant53 p) = Z.pos p * 2 ^ (53 - Z.pos (digits2_pos p)) /\
  Z.pos (digits2_pos (mant53 p)) = 53.
Proof.
  intros H. pose proof (digits_pos_bound p H) as Hd.
  assert (Hq : Z.pos (mant53 p) = Z.pos p * 2 ^ (53 - Z.pos (digits2_pos p))).
  { unfold mant53. rewrite Z2Pos.id; [reflexivity|].
    apply Z.mul_pos_pos; [lia | apply Z.pow_pos_nonneg; lia]. }
  split; [exact Hq|].
  rewrite digits_log2, Hq, Z.log2_mul_pow2 by lia.
  rewrite digits_log2. lia.
Qed.

Lemma binary_round_scaled s M e p :
  Z.pos p < 2 ^ 53 -> e <= 0 -> Z.pos M = Z.pos p * 2 ^ (- e) ->
  binary_round np.prec np.emax s M e = S754_finite s (mant53 p) (exp53 p).
Proof.
  intros Hp He HM. destruct (mant53_spec p Hp) as [Hq Hd].
  pose proof (digits_pos_bound p Hp) as Hdp.
  assert (0 < Z.pos (digits2_pos p)) by lia.
  apply binary_round_representable; [assumption | unfold exp53; lia |].
  rewrite HM, Hq. unfold exp53.
  set (d := Z.pos (digits2_pos p)) in *.
  rewrite <- !Z.mul_assoc, <- !Z.pow_add_r by lia.
  f_equal. f_equal. lia.
Qed.

Lemma of_int_pos p : Z.pos p < 2 ^ 53 ->
  np.of_int (Z.pos p) = S754_finite false (mant53 p) (exp53 p).
Proof. intros H. apply binary_round_scaled; [assumption | lia | simpl; lia]. Qed.

Lemma of_int_neg p : Z.pos p < 2 ^ 53 ->
  np.of_int (Z.neg p) = S754_finite true (mant53 p) (exp53 p).
Proof. intros H. apply binary_round_scaled; [assumption | lia | simpl; lia]. Qed.

Lemma normalize_scaled z k :
  Z.abs z < 2 ^ 53 -> 0 <= k ->
  binary_normalize np.prec np.emax (z * 2 ^ k) (- k) false = np.of_int z.
Proof.
  intros Hz Hk. assert (0 < 2 ^ k) by (apply Z.pow_pos_nonneg; lia).
  destruct z as [|p|p].
  - reflexivity.
  - rewrite of_int_pos by lia.
    destruct (Z.pos p * 2 ^ k) as [|M|M] eqn:HM; try lia.
    apply binary_round_scaled; [lia | lia |]. rewrite Z.opp_involutive. lia.
  - rewrite of_int_neg by lia.
    destruct (Z.neg p * 2 ^ k) as [|M|M] eqn:HM; try lia.
    apply binary_round_scaled; [lia | lia |]. rewrite Z.opp_involutive. lia.
Qed.

Lemma of_int_aligned z e' :
  0 < Z.abs z < 2 ^ 53 -> 
  forall s m e, np.of_int z = S754_finite s m e -> e' <= e -> e <= 0 ->
  cond_Zopp s (Z.pos (fst (shl_align m e e'))) = z * 2 ^ (- e').
Proof.
  intros Hz s m e Hof He' He.
  assert (Hval : cond_Zopp s (Z.pos m) = z * 2 ^ (- e)).
  { destruct z as [|p|p]; [lia| |].
    - rewrite of_int_pos in Hof by lia. inversion Hof; subst.
      destruct (mant53_spec p) as [Hq _]; [lia|]. cbn [cond_Zopp]. rewrite Hq. unfold exp53.
      f_equal. f_equal. lia.
    - rewrite of_int_neg in Hof by lia. inversion Hof; subst.
      destruct (mant53_spec p) as [Hq _]; [lia|]. cbn [cond_Zopp].
      rewrite Hq. unfold exp53.
      change (Z.neg p) with (- Z.pos p). rewrite Z.mul_opp_l. f_equal. f_equal. f_equal. lia. }
  unfold shl_align. destruct (e' - e) as [|d|d] eqn:Hd; try lia.
  - cbn [fst]. replace e' with e by lia. exact Hval.
  - cbn [fst]. replace (- e') with (- e + Z.pos d) by lia. rewrite Z.pow_add_r by lia.
    rewrite Z.mul_assoc, <- Hval. destruct s; cbn [cond_Zopp]; rewrite iter_xO; lia.
Qed.

Lemma of_int_exp z s m e : 0 < Z.abs z < 2 ^ 53 -> np.of_int z = S754_finite s m e -> e <= 0.
Proof.
  intros Hz Hof. destruct z as [|p|p]; [lia| |].
  - rewrite of_int_pos in Hof by lia. inversion Hof; subst. unfold exp53.
    pose proof (digits_pos_bound p). lia.
  - rewrite of_int_neg in Hof by lia. inversion Hof; subst. unfold exp53.
    pose proof (digits_pos_bound p). lia.
Qed.

Lemma of_int_nonzero_finite z : 0 < Z.abs z < 2 ^ 53 ->
  exists m e, np.of_int z = S754_finite (z <? 0) m e.
Proof.
  intros Hz. destruct z as [|p|p]; [lia| |].
  - rewrite of_int_pos by lia. eauto.
  - rewrite of_int_neg by lia. eauto.
Qed.

(** Addition of integers that stay below [2^53] is exact. *)
Lemma add_of_int a b :
  Z.abs a < 2 ^ 53 -> Z.abs b < 2 ^ 53 -> Z.abs (a + b) < 2 ^ 53 ->
  np.add (np.of_int a) (np.of_int b) = np.of_int (a + b).
Proof.
  intros Ha Hb Hab.
  destruct (Z.eq_dec a 0) as [->|Ha0].
  { rewrite Z.add_0_l. destruct (Z.eq_dec b 0) as [->|Hb0]; [reflexivity|].
    destruct (of_int_nonzero_finite b) as (m & e & Hf); [lia|]. rewrite Hf. reflexivity. }
  destruct (Z.eq_dec b 0) as [->|Hb0].
  { rewrite Z.add_0_r. destruct (of_int_nonzero_finite a) as (m & e & Hf); [lia|].
    rewrite Hf. reflexivity. }
  destruct (of_int_nonzero_finite a) as (ma & ea & Hfa); [lia|].
  destruct (of_int_nonzero_finite b) as (mb & eb & Hfb); [lia|].
  pose proof (of_int_exp a _ _ _ ltac:(lia) Hfa) as Hea.
  pose proof (of_int_exp b _ _ _ ltac:(lia) Hfb) as Heb.
  rewrite Hfa, Hfb. unfold np.add, SFadd.
  rewrite (of_int_aligned a (Z.min ea eb) ltac:(lia) _ _ _ Hfa) by lia.
  rewrite (of_int_aligned b (Z.min ea eb) ltac:(lia) _ _ _ Hfb) by lia.
  rewrite <- Z.mul_add_distr_r.
  change (IntDef.Z.min ea eb) with (Z.min ea eb).
  rewrite <- (Z.opp_involutive (Z.min ea eb)) at 2.
  apply normalize_scaled; lia.
Qed.

Lemma shr_spec mrs e n : 0 <= shr_m mrs ->
  (n <= 0 -> shr mrs e n = (mrs, e)) /\
  (0 < n -> shr_m (fst (shr mrs e n)) = shr_m mrs / 2 ^ n /\ snd (shr mrs e n) = e + n).
Proof.
  intros Hm. split; intros Hn.
  - destruct n; try lia; reflexivity.
  - destruct n as [|n|n]; try lia. cbn [shr fst snd]. split; [|reflexivity].
    apply shr_iter_m. assumption.
Qed.

Lemma round_nearest_even_bounds m l : m <= round_nearest_even m l <= m + 1.
Proof.
  destruct l as [|[]]; simpl; try lia. destruct (Z.even m); lia.
Qed.

Lemma Zdigits2_log2 m : 0 < m -> Zdigits2 m = Z.log2 m + 1.
Proof. destruct m; try lia. intros _. apply digits_log2. Qed.

(** Rounding a positive mantissa whose value lies in the normal range gives
    a finite non-zero float of the requested sign. *)
Lemma round_aux_finite s M e l :
  -1074 <= e <= 970 -> Z.pos (digits2_pos M) + e <= 1023 ->
  exists m e', binary_round_aux np.prec np.emax s (Z.pos M) e l = S754_finite s m e'.
Proof.
  intros He Hd. unfold binary_round_aux, shr_fexp.
  cbn [Zdigits2]. rewrite fexp_eq.
  set (d := Z.pos (digits2_pos M)) in *.
  set (n1 := Z.max (d + e - 53) (-1074) - e).
  set (r0 := shr_record_of_loc (Z.pos M) l).
  assert (Hr0 : shr_m r0 = Z.pos M) by (subst r0; destruct l as [|[]]; reflexivity).
  destruct (shr_spec r0 e n1 ltac:(lia)) as [Hle Hgt].
  destruct (shr r0 e n1) as [mrs' e'] eqn:Hshr. cbn [fst snd] in Hgt.
  assert (HM : Z.log2 (Z.pos M) = d - 1) by (subst d; rewrite digits_log2; lia).
  assert (H1 : 0 < shr_m mrs' < 2 ^ 53 /\ -1074 <= e' <= 970).
  { destruct (Z_le_gt_dec n1 0) as [Hn|Hn].
    - specialize (Hle Hn). inversion Hle; subst mrs' e'. rewrite Hr0.
      assert (Hlt : Z.log2 (Z.pos M) < 53) by lia.
      apply Z.log2_lt_pow2 in Hlt; lia.
    - destruct (Hgt ltac:(lia)) as [Hm' He']. rewrite Hr0 in Hm'.
      assert (n1 = d - 53) by lia.
      rewrite Hm', He'. split; [|lia].
      rewrite <- Z.shiftr_div_pow2 by lia.
      assert (Hl : Z.log2 (Z.shiftr (Z.pos M) n1) = 52).
      { rewrite Z.log2_shiftr by lia. lia. }
      assert (Hpos : 0 < Z.shiftr (Z.pos M) n1).
      { destruct (Z.shiftr (Z.pos M) n1) eqn:E; try lia; simpl in Hl; lia. }
      split; [assumption|]. apply Z.log2_lt_pow2; lia. }
  destruct H1 as [Hm' He'].
  pose proof (round_nearest_even_bounds (shr_m mrs') (loc_of_shr_record mrs')) as Hr.
  set (m2 := round_nearest_even (shr_m mrs') (loc_of_shr_record mrs')) in *.
  assert (Hd2 : Zdigits2 m2 <= 54).
  { rewrite Zdigits2_log2 by lia.
    assert (Z.log2 m2 < 54) by (apply Z.log2_lt_pow2; lia). lia. }
  assert (Hd2' : 0 < Zdigits2 m2).
  { rewrite Zdigits2_log2 by lia. pose proof (Z.log2_nonneg m2). lia. }
  rewrite fexp_eq.
  set (n2 := Z.max (Zdigits2 m2 + e' - 53) (-1074) - e').
  set (r2 := shr_record_of_loc m2 loc_Exact).
  assert (Hr2 : shr_m r2 = m2) by reflexivity.
  destruct (shr_spec r2 e' n2 ltac:(lia)) as [Hle2 Hgt2].
  destruct (shr r2 e' n2) as [mrs2 e2] eqn:Hshr2. cbn [fst snd] in Hgt2.
  assert (H2 : 0 < shr_m mrs2 /\ e2 <= 971).
  { destruct (Z_le_gt_dec n2 0) as [Hn|Hn].
    - specialize (Hle2 Hn). inversion Hle2; subst mrs2 e2. rewrite Hr2. lia.
    - destruct (Hgt2 ltac:(lia)) as [Hm2 He2]. rewrite Hr2 in Hm2.
      assert (n2 = 1) by lia. assert (Zdigits2 m2 = 54) by lia.
      rewrite Hm2, He2. split; [|lia].
      rewrite Zdigits2_log2 in H0 by lia.
      assert (2 ^ 53 <= m2) by (apply Z.log2_le_pow2; lia).
      subst n2. rewrite H. apply Z.div_str_pos. lia. }
  destruct H2 as [Hm2 He2].
  destruct (shr_m mrs2) as [|m|m]; try lia.
  replace (e2 <=? np.emax - np.prec) with true by (symmetry; apply Z.leb_le; unfold np.emax, np.prec; lia).
  eauto.
Qed.

Lemma of_int_finite z : z <> 0 -> Z.abs z < 2 ^ 1023 ->
  exists m e, np.of_int z = S754_finite (z <? 0) m e.
Proof.
  intros Hz Hb.
  assert (H : forall s p, Z.pos p < 2 ^ 1023 ->
             exists m e, binary_round np.prec np.emax s p 0 = S754_finite s m e).
  { intros s p Hp. unfold binary_round.
    assert (Hd : Z.pos (digits2_pos p) <= 1023).
    { rewrite digits_log2. assert (Z.log2 (Z.pos p) < 1023) by (apply Z.log2_lt_pow2; lia). lia. }
    rewrite Z.add_0_r, fexp_eq. unfold shl_align.
    destruct (Z.max (Z.pos (digits2_pos p) - 53) (-1074) - 0) as [|k|k] eqn:Hk.
    - apply round_aux_finite; lia.
    - apply round_aux_finite; lia.
    - apply round_aux_finite; [lia|].
      assert (Hq := iter_xO p k).
      rewrite digits_log2, Hq, Z.log2_mul_pow2 by lia.
      rewrite digits_log2 in Hk. lia. }
  destruct z as [|p|p]; [lia| |]; apply H; lia.
Qed.

Lemma of_int_zero : np.of_int 0 = np.zero.
Proof. reflexivity. Qed.

Lemma of_int_isfinite z : Z.abs z < 2 ^ 1023 -> np.isfinite (np.of_int z) = true.
Proof.
  intros Hz. destruct (Z.eq_dec z 0) as [->|Hne]; [reflexivity|].
  destruct (of_int_finite z Hne Hz) as (m & e & Hf). rewrite Hf. reflexivity.
Qed.

Lemma to_int_of_int z : Z.abs z < 2 ^ 53 -> np.to_int (np.of_int z) = Some z.
Proof.
  intros Hz.
  assert (H : forall s p, Z.pos p < 2 ^ 53 ->
            np.to_int (S754_finite s (mant53 p) (exp53 p))
            = Some (if s then Z.neg p else Z.pos p)).
  { intros s p Hp. destruct (mant53_spec p Hp) as [Hq _].
    pose proof (digits_pos_bound p Hp) as Hd.
    unfold np.to_int, exp53.
    set (d := Z.pos (digits2_pos p)) in *.
    assert (Hpow : 0 < 2 ^ (53 - d)) by (apply Z.pow_pos_nonneg; lia).
    destruct (Z.leb_spec 0 (d - 53)) as [Hge|Hlt].
    - replace (d - 53) with 0 by lia. replace (53 - d) with 0 in Hq by lia.
      rewrite Z.pow_0_r, Z.mul_1_r in *. f_equal. destruct s; lia.
    - replace (- (d - 53)) with (53 - d) by lia.
      assert (Hv : (if s then Z.neg (mant53 p) else Z.pos (mant53 p))
                   = (if s then Z.neg p else Z.pos p) * 2 ^ (53 - d)).
      { destruct s; [|exact Hq].
        change (Z.neg (mant53 p)) with (- Z.pos (mant53 p)).
        change (Z.neg p) with (- Z.pos p). rewrite Hq. lia. }
      rewrite Hv, Z.mod_mul, Z.eqb_refl, Z.div_mul by lia. reflexivity. }
  destruct z as [|p|p].
  - reflexivity.
  - rewrite of_int_pos by lia. apply (H false). lia.
  - rewrite of_int_neg by lia. apply (H true). lia.
Qed.

Lemma wrap64_range z : - 2 ^ 63 <= np.wrap64 z < 2 ^ 63.
Proof.
  unfold np.wrap64. pose proof (Z.mod_pos_bound (z + 2 ^ 63) (2 ^ 64) ltac:(lia)). lia.
Qed.

Lemma wrap64_congruent z : (np.wrap64 z - z) mod 2 ^ 64 = 0.
Proof.
  unfold np.wrap64.
  pose proof (Z.div_mod (z + 2 ^ 63) (2 ^ 64) ltac:(lia)) as H.
  replace ((z + 2 ^ 63) mod 2 ^ 64 - 2 ^ 63 - z)
    with (- ((z + 2 ^ 63) / 2 ^ 64) * 2 ^ 64) by lia.
  apply Z.mod_mul. lia.
Qed.

Lemma wrap64_id z : - 2 ^ 63 <= z < 2 ^ 63 -> np.wrap64 z = z.
Proof.
  intros Hz. unfold np.wrap64. rewrite Z.mod_small by lia. lia.
Qed.

Lemma of_int_wrap64_isfinite z : np.isfinite (np.of_int (np.wrap64 z)) = true.
Proof.
  apply of_int_isfinite. pose proof (wrap64_range z).
  assert (2 ^ 63 < 2 ^ 1023) by (apply Z.pow_lt_mono_r; lia). lia.
Qed.

(** *** Operations that cannot produce NaN *)

Lemma round_aux_not_nan s m e l :
  0 <= m -> np.isnan (binary_round_aux np.prec np.emax s m e l) = false.
Proof.
  intros Hm. unfold binary_round_aux, shr_fexp.
  set (n1 := fexp np.prec np.emax (Zdigits2 m + e) - e).
  set (r0 := shr_record_of_loc m l).
  assert (Hr0 : shr_m r0 = m) by (subst r0; destruct l as [|[]]; reflexivity).
  destruct (shr_spec r0 e n1 ltac:(lia)) as [Hle Hgt].
  destruct (shr r0 e n1) as [mrs' e'] eqn:Hshr. cbn [fst snd] in Hgt.
  assert (H1 : 0 <= shr_m mrs').
  { destruct (Z_le_gt_dec n1 0) as [Hn|Hn].
    - specialize (Hle Hn). inversion Hle; subst mrs' e'. lia.
    - destruct (Hgt ltac:(lia)) as [-> _]. rewrite Hr0.
      apply Z.div_pos; [lia | apply Z.pow_pos_nonneg; lia]. }
  pose proof (round_nearest_even_bounds (shr_m mrs') (loc_of_shr_record mrs')) as Hr.
  set (m2 := round_nearest_even (shr_m mrs') (loc_of_shr_record mrs')) in *.
  set (n2 := fexp np.prec np.emax (Zdigits2 m2 + e') - e').
  set (r2 := shr_record_of_loc m2 loc_Exact).
  assert (Hr2 : shr_m r2 = m2) by reflexivity.
  destruct (shr_spec r2 e' n2 ltac:(lia)) as [Hle2 Hgt2].
  destruct (shr r2 e' n2) as [mrs2 e2] eqn:Hshr2. cbn [fst snd] in Hgt2.
  assert (H2 : 0 <= shr_m mrs2).
  { destruct (Z_le_gt_dec n2 0) as [Hn|Hn].
    - specialize (Hle2 Hn). inversion Hle2; subst mrs2 e2. lia.
    - destruct (Hgt2 ltac:(lia)) as [-> _]. rewrite Hr2.
      apply Z.div_pos; [lia | apply Z.pow_pos_nonneg; lia]. }
  destruct (shr_m mrs2) as [|q|q]; try lia; [reflexivity|].
  destruct (e2 <=? np.emax - np.prec); reflexivity.
Qed.

Lemma normalize_not_nan m e : np.isnan (binary_normalize np.prec np.emax m e false) = false.
Proof.
  destruct m as [|p|p]; [reflexivity| |]; unfold binary_normalize, binary_round;
    destruct (shl_align _ _ _); apply round_aux_not_nan; lia.
Qed.

Lemma of_int_not_nan z : np.isnan (np.of_int z) = false.
Proof. apply normalize_not_nan. Qed.

Lemma add_not_nan x y :
  np.isnan x = false -> np.isfinite y = true -> np.isnan (np.add x y) = false.
Proof.
  intros Hx Hy. destruct x as [sx|sx| |sx mx ex]; try discriminate;
    destruct y as [sy|sy| |sy my ey]; try discriminate; try reflexivity.
  - destruct sx, sy; reflexivity.
  - apply normalize_not_nan.
Qed.

Lemma fsum_from_not_nan v : Forall (λ x, np.isfinite x = true) v →
  ∀ a, np.isnan a = false → np.isnan (foldl np.add a v) = false.
Proof.
  induction 1 as [|x v Hx _ IH]; intros a Ha; [exact Ha|].
  simpl. apply IH. apply add_not_nan; assumption.
Qed.

Lemma fsum_not_nan v : Forall (λ x, np.isfinite x = true) v → np.isnan (fsum v) = false.
Proof. intros H. apply fsum_from_not_nan; [assumption | reflexivity]. Qed.

Lemma div_core_nonneg m1 e1 m2 e2 :
  0 <= (SFdiv_core_binary np.prec np.emax (Z.pos m1) e1 (Z.pos m2) e2).1.1.
Proof.
  unfold SFdiv_core_binary.
  set (s := _ - _ - _).
  set (m' := match s with Z.pos _ => Z.shiftl (Z.pos m1) s | 0 => Z.pos m1 | Z.neg _ => 0 end).
  assert (Hm' : 0 <= m').
  { subst m'. destruct s; try lia. apply Z.shiftl_nonneg. lia. }
  pose proof (Z_div_mod m' (Z.pos m2) ltac:(lia)) as Hdm.
  destruct (Z.div_eucl m' (Z.pos m2)) as [q r]. cbn [fst].
  destruct Hdm as [Heq Hr]. nia.
Qed.

Lemma div_not_nan x s m e :
  np.isnan x = false -> np.isnan (np.div x (S754_finite s m e)) = false.
Proof.
  intros Hx. destruct x as [sx|sx| |sx mx ex]; try discriminate; try reflexivity.
  unfold np.div, SFdiv.
  pose proof (div_core_nonneg mx ex m e) as Hq.
  destruct (SFdiv_core_binary _ _ _ _ _ _) as [[mz ez] lz]. cbn [fst] in Hq.
  apply round_aux_not_nan. assumption.
Qed.

Lemma mul_not_nan x s m e :
  np.isnan x = false -> np.isnan (np.mul x (S754_finite s m e)) = false.
Proof.
  intros Hx. destruct x as [sx|sx| |sx mx ex]; try discriminate; try reflexivity.
  apply round_aux_not_nan. lia.
Qed.

(** *** Exact sums of integers *)

Lemma sum_abs_nonneg l : 0 <= sum_abs l.
Proof. induction l; simpl; lia. Qed.

Lemma sum_list_abs l : Z.abs (sum_list l) <= sum_abs l.
Proof. induction l; simpl; lia. Qed.

Lemma fsum_from_of_int ns : ∀ a,
  Z.abs a + sum_abs ns < 2 ^ 53 →
  foldl np.add (np.of_int a) (np.of_int <$> ns) = np.of_int (a + sum_list ns).
Proof.
  induction ns as [|n ns IH]; intros a Hb; simpl in *.
  - f_equal. lia.
  - pose proof (sum_abs_nonneg ns).
    rewrite add_of_int by lia. rewrite IH by lia. f_equal. lia.
Qed.

Lemma fsum_of_int ns :
  sum_abs ns < 2 ^ 53 → fsum (np.of_int <$> ns) = np.of_int (sum_list ns).
Proof.
  intros H. unfold fsum. rewrite <- of_int_zero. rewrite fsum_from_of_int by (simpl; lia).
  reflexivity.
Qed.

(** ** Rounding to nearest: the quotient of two integers *)



Lemma new_location_spec D R : 0 < D → 0 <= R < D → loc_spec D R (new_location D R).
Proof.
  intros HD HR. unfold new_location, new_location_even, new_location_odd.
  destruct (Z.even D) eqn:Hev.
  - destruct (Z.eqb_spec R 0) as [->|Hne]; [done|].
    destruct (Z.compare_spec (2 * R) D); simpl; lia.
  - destruct (Z.eqb_spec R 0) as [->|Hne]; [done|].
    assert (Hodd : Z.odd D = true) by (by rewrite <- Z.negb_even, Hev).
    apply Z.odd_spec in Hodd as [j Hj].
    destruct (Z.compare_spec (2 * R + 1) D); simpl; lia.
Qed.

Lemma loc_of_record_of_loc m l : loc_of_shr_record (shr_record_of_loc m l) = l.
Proof. by destruct l as [|[]]. Qed.

(** Rounding a mantissa of 53 or 54 bits that stands for
    [(M * D + R) / D]: the result is within half a unit in the last place
    of that value. *)
Lemma round_nearest_even_spec M D R l :
  0 < D → 0 <= R < D → loc_spec D R l →
  2 * Z.abs (round_nearest_even M l * D - (M * D + R)) <= D.
Proof.
  intros HD HR Hl. destruct l as [|[]]; simpl in *.
  - subst. lia.
  - destruct (Z.even M); lia.
  - lia.
  - lia.
Qed.

Lemma shr_1_spec M D R l :
  0 < D → 0 <= R < D → loc_spec D R l →
  let mrs := shr_1 (shr_record_of_loc (Z.pos M) l) in
  ∃ R', shr_m mrs = Z.pos M / 2 ∧ 0 <= R' < 2 * D ∧
        Z.pos M * D + R = shr_m mrs * (2 * D) + R' ∧
        loc_spec (2 * D) R' (loc_of_shr_record mrs).
Proof.
  intros HD HR Hl. cbn zeta.
  destruct M as [p|p|].
  - exists (D + R). rewrite Pos2Z.inj_xI.
    replace ((2 * Z.pos p + 1) / 2) with (Z.pos p) by (apply Z.div_unique with 1; lia).
    destruct l as [|[]]; simpl in *; repeat split; try lia.
  - exists R. rewrite Pos2Z.inj_xO.
    replace ((2 * Z.pos p) / 2) with (Z.pos p) by (apply Z.div_unique with 0; lia).
    destruct l as [|[]]; simpl in *; repeat split; try lia.
  - exists (D + R). destruct l as [|[]]; simpl in *; repeat split; try lia.
Qed.

Lemma digits_53 m : 2 ^ 52 <= Z.pos m < 2 ^ 53 ↔ Z.pos (digits2_pos m) = 53.
Proof.
  rewrite digits_log2. split.
  - intros [H1 H2]. assert (Z.log2 (Z.pos m) = 52); [|lia].
    apply Z.log2_unique; lia.
  - intros H. assert (Hl : Z.log2 (Z.pos m) = 52) by lia.
    pose proof (Z.log2_spec (Z.pos m) ltac:(lia)) as Hs. rewrite Hl in Hs.
    change (Z.succ 52) with 53 in Hs. lia.
Qed.

Lemma digits_54 m : 2 ^ 53 <= Z.pos m < 2 ^ 54 ↔ Z.pos (digits2_pos m) = 54.
Proof.
  rewrite digits_log2. split.
  - intros [H1 H2]. assert (Z.log2 (Z.pos m) = 53); [|lia].
    apply Z.log2_unique; lia.
  - intros H. assert (Hl : Z.log2 (Z.pos m) = 53) by lia.
    pose proof (Z.log2_spec (Z.pos m) ltac:(lia)) as Hs. rewrite Hl in Hs.
    change (Z.succ 53) with 54 in Hs. lia.
Qed.

(** The second pass of [binary_round_aux]: a mantissa of 53 bits is kept,
    and [2^53] becomes [2^52] one exponent up. *)
Lemma round_aux_second s mr e :
  2 ^ 52 <= mr <= 2 ^ 53 → -1074 <= e <= 970 →
  ∃ m k, (let '(mrs, e') := shr_fexp np.prec np.emax mr e loc_Exact in
          match shr_m mrs with
          | 0 => S754_zero s
          | Z.pos m => if e' <=? np.emax - np.prec then S754_finite s m e' else S754_infinity s
          | Z.neg _ => S754_nan
          end) = S754_finite s m (e + k) ∧
         Z.pos (digits2_pos m) = 53 ∧ 0 <= k <= 1 ∧ Z.pos m * 2 ^ k = mr.
Proof.
  intros Hmr He. destruct (Z.eq_dec mr (2 ^ 53)) as [->|Hne].
  - exists (Z.to_pos (2 ^ 52)), 1. unfold shr_fexp.
    change (Zdigits2 (2 ^ 53)) with 54. rewrite fexp_eq.
    replace (Z.max (54 + e - 53) (-1074) - e) with 1 by lia.
    cbn [shr shr_record_of_loc SpecFloat.iter_pos shr_1 shr_m].
    replace (e + 1 <=? np.emax - np.prec) with true
      by (symmetry; apply Z.leb_le; unfold np.emax, np.prec; lia).
    done.
  - destruct mr as [|p|p]; try lia. exists p, 0.
    assert (Hd : Z.pos (digits2_pos p) = 53) by (apply digits_53; lia).
    unfold shr_fexp. cbn [Zdigits2]. rewrite Hd, fexp_eq.
    replace (Z.max (53 + e - 53) (-1074) - e) with 0 by lia.
    cbn [shr shr_record_of_loc shr_m].
    replace (e <=? np.emax - np.prec) with true
      by (symmetry; apply Z.leb_le; unfold np.emax, np.prec; lia).
    rewrite Z.add_0_r. repeat split; try done; lia.
Qed.

Lemma round_aux_nearest s M e D R l :
  0 < D → 0 <= R < D → loc_spec D R l →
  53 <= Z.pos (digits2_pos M) <= 54 → -1074 <= e <= 969 →
  ∃ m k, binary_round_aux np.prec np.emax s (Z.pos M) e l = S754_finite s m (e + k) ∧
         Z.pos (digits2_pos m) = 53 ∧ 0 <= k <= 2 ∧
         2 * Z.abs (Z.pos m * 2 ^ k * D - (Z.pos M * D + R)) <= 2 ^ k * D.
Proof.
  intros HD HR Hl Hdig He.
  (* the first pass *)
  assert (H1 : ∃ mrs k1 R1,
             shr_fexp np.prec np.emax (Z.pos M) e l = (mrs, e + k1) ∧ 0 <= k1 <= 1 ∧
             2 ^ 52 <= shr_m mrs < 2 ^ 53 ∧ 0 <= R1 < 2 ^ k1 * D ∧
             Z.pos M * D + R = shr_m mrs * (2 ^ k1 * D) + R1 ∧
             loc_spec (2 ^ k1 * D) R1 (loc_of_shr_record mrs)).
  { unfold shr_fexp. cbn [Zdigits2]. rewrite fexp_eq.
    destruct (Z.eq_dec (Z.pos (digits2_pos M)) 53) as [Hd|Hd].
    - rewrite Hd. replace (Z.max (53 + e - 53) (-1074) - e) with 0 by lia.
      cbn [shr]. exists (shr_record_of_loc (Z.pos M) l), 0, R.
      rewrite Z.add_0_r, loc_of_record_of_loc.
      assert (shr_m (shr_record_of_loc (Z.pos M) l) = Z.pos M) as -> by (by destruct l as [|[]]).
      apply digits_53 in Hd. change (2 ^ 0) with 1. rewrite Z.mul_1_l.
      repeat split; try done; lia.
    - assert (Hd' : Z.pos (digits2_pos M) = 54) by lia. rewrite Hd'.
      replace (Z.max (54 + e - 53) (-1074) - e) with 1 by lia.
      cbn [shr SpecFloat.iter_pos].
      destruct (shr_1_spec M D R l HD HR Hl) as (R' & Hm & HR' & Hval & Hloc).
      exists (shr_1 (shr_record_of_loc (Z.pos M) l)), 1, R'.
      change (2 ^ 1) with 2. apply digits_54 in Hd'.
      assert (2 ^ 52 <= Z.pos M / 2 < 2 ^ 53).
      { split; [apply Z.div_le_lower_bound; lia | apply Z.div_lt_upper_bound; lia]. }
      rewrite Hm in *. repeat split; try done; lia. }
  destruct H1 as (mrs & k1 & R1 & Hshr & Hk1 & Hm1 & HR1 & Hval & Hloc).
  unfold binary_round_aux. rewrite Hshr.
  assert (HD1 : 0 < 2 ^ k1 * D) by (apply Z.mul_pos_pos; [apply Z.pow_pos_nonneg|]; lia).
  pose proof (round_nearest_even_spec (shr_m mrs) _ _ _ HD1 HR1 Hloc) as Hrnd.
  pose proof (round_nearest_even_bounds (shr_m mrs) (loc_of_shr_record mrs)) as Hb.
  set (mr := round_nearest_even (shr_m mrs) (loc_of_shr_record mrs)) in *.
  destruct (round_aux_second s mr (e + k1) ltac:(lia) ltac:(lia))
    as (m & k2 & Hres & Hd & Hk2 & Hmr).
  exists m, (k1 + k2). rewrite Hres. replace (e + k1 + k2) with (e + (k1 + k2)) by lia.
  split; [done|]. split; [done|]. split; [lia|].
  rewrite Hval. rewrite Z.pow_add_r by lia.
  replace (Z.pos m * (2 ^ k1 * 2 ^ k2) * D) with ((Z.pos m * 2 ^ k2) * (2 ^ k1 * D)) by ring.
  rewrite Hmr.
  assert (0 < 2 ^ k2) by (apply Z.pow_pos_nonneg; lia).
  assert (1 <= 2 ^ k2) by lia.
  nia.
Qed.

(** The quotient of two floats with full mantissas, away from the ends of
    the exponent range: a float within half a unit in the last place of
    the exact quotient. *)
Lemma div_nearest sx mx ex sy my ey :
  Z.pos (digits2_pos mx) = 53 → Z.pos (digits2_pos my) = 53 →
  -1074 <= ex - ey - 53 <= 969 →
  ∃ m k, np.div (S754_finite sx mx ex) (S754_finite sy my ey)
         = S754_finite (xorb sx sy) m (ex - ey - 53 + k) ∧
         Z.pos (digits2_pos m) = 53 ∧ 0 <= k <= 2 ∧
         2 * Z.abs (Z.pos m * 2 ^ k * Z.pos my - Z.pos mx * 2 ^ 53) <= 2 ^ k * Z.pos my.
Proof.
  intros Hdx Hdy He. unfold np.div, SFdiv, SFdiv_core_binary.
  cbn [Zdigits2]. rewrite Hdx, Hdy, fexp_eq.
  replace (53 + ex - (53 + ey)) with (ex - ey) by lia.
  change (IntDef.Z.min (Z.max (ex - ey - 53) (-1074)) (ex - ey))
    with (Z.min (Z.max (ex - ey - 53) (-1074)) (ex - ey)).
  replace (Z.min (Z.max (ex - ey - 53) (-1074)) (ex - ey)) with (ex - ey - 53) by lia.
  replace (ex - ey - (ex - ey - 53)) with 53 by lia.
  change (IntDef.Z.shiftl (Z.pos mx) 53) with (Z.shiftl (Z.pos mx) 53).
  rewrite Z.shiftl_mul_pow2 by lia.
  change (IntDef.Z.div_eucl (Z.pos mx * 2 ^ 53) (Z.pos my))
    with (Z.div_eucl (Z.pos mx * 2 ^ 53) (Z.pos my)).
  pose proof (Z_div_mod (Z.pos mx * 2 ^ 53) (Z.pos my) ltac:(lia)) as Hdm.
  destruct (Z.div_eucl (Z.pos mx * 2 ^ 53) (Z.pos my)) as [q r].
  destruct Hdm as [Heq Hr].
  apply digits_53 in Hdx, Hdy.
  assert (Hq : 2 ^ 52 <= q < 2 ^ 54) by nia.
  destruct q as [|q|q]; try lia.
  assert (Hdq : 53 <= Z.pos (digits2_pos q) <= 54).
  { destruct (Z_lt_le_dec (Z.pos q) (2 ^ 53)).
    - assert (Z.pos (digits2_pos q) = 53) by (apply digits_53; lia). lia.
    - assert (Z.pos (digits2_pos q) = 54) by (apply digits_54; lia). lia. }
  assert (Hpos : 0 < Z.pos my) by lia.
  destruct (round_aux_nearest (xorb sx sy) q (ex - ey - 53) (Z.pos my) r
              (new_location (Z.pos my) r) Hpos Hr
              (new_location_spec (Z.pos my) r Hpos Hr) Hdq He)
    as (m & k & Hres & Hdm & Hk & Herr).
  exists m, k. split; [exact Hres|]. split; [done|]. split; [done|].
  rewrite Heq. replace (Z.pos my * Z.pos q + r) with (Z.pos q * Z.pos my + r) by ring.
  exact Herr.
Qed.


Lemma of_int_mantissa z s m e : 0 < Z.abs z < 2 ^ 53 → np.of_int z = S754_finite s m e →
  s = (z <? 0) ∧ Z.pos (digits2_pos m) = 53 ∧ -52 <= e <= 0 ∧
  Z.pos m = Z.abs z * 2 ^ (- e).
Proof.
  intros Hz Hof.
  assert (H : ∀ p sg, Z.pos p < 2 ^ 53 → S754_finite sg (mant53 p) (exp53 p) = S754_finite s m e →
              s = sg ∧ Z.pos (digits2_pos m) = 53 ∧ -52 <= e <= 0 ∧ Z.pos m = Z.pos p * 2 ^ (- e)).
  { intros p sg Hp [= <- <- <-]. destruct (mant53_spec p Hp) as [Hq Hd].
    pose proof (digits_pos_bound p Hp). unfold exp53.
    assert (0 < Z.pos (digits2_pos p)) by lia.
    repeat split; try done; try lia. rewrite Hq. f_equal. f_equal. lia. }
  destruct z as [|p|p]; [lia| |].
  - rewrite of_int_pos in Hof by lia. exact (H p false ltac:(lia) Hof).
  - rewrite of_int_neg in Hof by lia. exact (H p true ltac:(lia) Hof).
Qed.

Lemma div_of_int_nearest n d :
  Z.abs n < 2 ^ 53 → 2 <= d < 2 ^ 53 →
  nearest_quotient (np.div (np.of_int n) (np.of_int d)) n d.
Proof.
  intros Hn Hd.
  destruct (of_int_nonzero_finite d ltac:(lia)) as (my & ey & Hy).
  destruct (of_int_mantissa d _ _ _ ltac:(lia) Hy) as (_ & Hdy & Hey & Hmy).
  replace (d <? 0) with false in Hy by (symmetry; apply Z.ltb_ge; lia).
  rewrite Z.abs_eq in Hmy by lia.
  destruct (Z.eq_dec n 0) as [->|Hn0].
  { rewrite Hy. reflexivity. }
  destruct (of_int_nonzero_finite n ltac:(lia)) as (mx & ex & Hx).
  destruct (of_int_mantissa n _ _ _ ltac:(lia) Hx) as (_ & Hdx & Hex & Hmx).
  rewrite Hx, Hy.
  destruct (div_nearest (n <? 0) mx ex false my ey Hdx Hdy ltac:(lia))
    as (m & k & -> & Hdm & Hk & Herr).
  rewrite xorb_false_r. cbn [nearest_quotient].
  rewrite Hmx, Hmy in Herr.
  set (A := - ey) in *. set (B := - ex) in *. set (N := Z.abs n) in *.
  assert (HA : 0 <= A <= 52) by lia. assert (HB : 0 <= B <= 52) by lia.
  assert (Hm : 2 ^ 52 <= Z.pos m < 2 ^ 53) by (by apply digits_53).
  set (e := ex - ey - 53 + k).
  assert (He : e <= 0).
  { destruct (Z_le_gt_dec e 0) as [|Hpos]; [done|]. exfalso.
    assert (HAk : A + k = B + 53 + e) by (unfold e, A, B; lia).
    assert (Hp : 2 ^ k * 2 ^ A = 2 ^ (B + 53) * 2 ^ e).
    { rewrite <- !Z.pow_add_r by lia. f_equal. lia. }
    assert (Hq : 2 ^ B * 2 ^ 53 = 2 ^ (B + 53)) by (rewrite <- Z.pow_add_r by lia; done).
    assert (HP : 0 < 2 ^ (B + 53)) by (apply Z.pow_pos_nonneg; lia).
    assert (HE : 2 <= 2 ^ e).
    { change 2 with (2 ^ 1) at 1. apply Z.pow_le_mono_r; lia. }
    replace (Z.pos m * 2 ^ k * (d * 2 ^ A)) with (Z.pos m * d * 2 ^ e * 2 ^ (B + 53)) in Herr
      by (rewrite <- (Z.mul_assoc _ (2 ^ e)), (Z.mul_comm (2 ^ e)), <- Hp; ring).
    replace (N * 2 ^ B * 2 ^ 53) with (N * 2 ^ (B + 53)) in Herr by (rewrite <- Hq; ring).
    replace (2 ^ k * (d * 2 ^ A)) with (d * 2 ^ e * 2 ^ (B + 53)) in Herr
      by (rewrite <- (Z.mul_assoc _ (2 ^ e)), (Z.mul_comm (2 ^ e)), <- Hp; ring).
    rewrite <- Z.mul_sub_distr_r, Z.abs_mul, (Z.abs_eq (2 ^ (B + 53))) in Herr by lia.
    assert (Herr' : 2 * Z.abs (Z.pos m * d * 2 ^ e - N) <= d * 2 ^ e) by nia.
    unfold N in *. nia. }
  split; [done|]. split; [done|]. split; [done|].
  assert (HAk : B + 53 = - e + (A + k)) by (unfold e, A, B; lia).
  assert (HP : 0 < 2 ^ (A + k)) by (apply Z.pow_pos_nonneg; lia).
  replace (Z.pos m * 2 ^ k * (d * 2 ^ A)) with (d * Z.pos m * 2 ^ (A + k)) in Herr
    by (rewrite Z.pow_add_r by lia; ring).
  replace (N * 2 ^ B * 2 ^ 53) with (N * 2 ^ (- e) * 2 ^ (A + k)) in Herr.
  2:{ rewrite <- !Z.mul_assoc, <- !Z.pow_add_r by lia. do 2 f_equal. lia. }
  replace (2 ^ k * (d * 2 ^ A)) with (d * 2 ^ (A + k)) in Herr
    by (rewrite Z.pow_add_r by lia; ring).
  rewrite <- Z.mul_sub_distr_r, Z.abs_mul, (Z.abs_eq (2 ^ (A + k))) in Herr by lia.
  nia.
Qed.


(** ** Dictionaries *)

Lemma dict_get_set_eq {V} k (v : V) d : dict_get k (dict_set k v d) = Some v.
Proof.
  induction d as [|[k' v'] d IH]; simpl.
  - by rewrite bool_decide_eq_true_2.
  - case_bool_decide; simpl; [by rewrite bool_decide_eq_true_2|].
    by rewrite bool_decide_eq_false_2.
Qed.

Lemma dict_get_set_ne {V} k k' (v : V) d :
  k ≠ k' → dict_get k (dict_set k' v d) = dict_get k d.
Proof.
  intros Hne. induction d as [|[k'' v''] d IH]; simpl.
  - by rewrite bool_decide_eq_false_2.
  - case_bool_decide; simpl.
    + subst. by rewrite !bool_decide_eq_false_2.
    + by rewrite IH.
Qed.

Lemma dict_get_None {V} k (d : pydict V) : dict_get k d = None ↔ k ∉ dict_keys d.
Proof.
  induction d as [|[k' v'] d IH]; simpl.
  - split; [intros _; apply not_elem_of_nil | done].
  - case_bool_decide; subst.
    + split; [done | intros []; left].
    + rewrite IH, not_elem_of_cons. naive_solver.
Qed.

Lemma dict_get_is_Some {V} k (d : pydict V) : is_Some (dict_get k d) ↔ k ∈ dict_keys d.
Proof.
  rewrite <- not_eq_None_Some, dict_get_None.
  destruct (decide (k ∈ dict_keys d)); naive_solver.
Qed.

Lemma dict_keys_set_new {V} k (v : V) d :
  k ∉ dict_keys d → dict_keys (dict_set k v d) = dict_keys d ++ [k].
Proof.
  induction d as [|[k' v'] d IH]; simpl; [done|].
  rewrite not_elem_of_cons. intros [Hne Hin].
  rewrite bool_decide_eq_false_2 by done. simpl. by rewrite IH.
Qed.

Lemma dict_keys_set_old {V} k (v : V) d :
  k ∈ dict_keys d → dict_keys (dict_set k v d) = dict_keys d.
Proof.
  induction d as [|[k' v'] d IH]; simpl; [by intros ?%elem_of_nil|].
  case_bool_decide; simpl; [done|].
  rewrite elem_of_cons. intros [?|Hin]; [congruence|]. by rewrite IH.
Qed.

Lemma elem_of_dict_keys_set {V} x k (v : V) d :
  x ∈ dict_keys (dict_set k v d) ↔ x = k ∨ x ∈ dict_keys d.
Proof.
  destruct (decide (k ∈ dict_keys d)) as [Hin|Hnin].
  - rewrite dict_keys_set_old by done. naive_solver.
  - rewrite dict_keys_set_new by done. rewrite elem_of_app, list_elem_of_singleton.
    naive_solver.
Qed.

Lemma dict_get_map {V W} (f : string * V → W) k (d : pydict V) :
  dict_get k ((λ c, (c.1, f c)) <$> d)
  = match dict_get k d with Some v => Some (f (k, v)) | None => None end.
Proof.
  induction d as [|[k' v'] d IH]; csimpl; [done|].
  case_bool_decide; subst; [done|]. apply IH.
Qed.

Lemma dict_keys_map {V W} (f : string * V → W) (d : pydict V) :
  dict_keys ((λ c, (c.1, f c)) <$> d) = dict_keys d.
Proof. unfold dict_keys. rewrite <- list_fmap_compose. by apply list_fmap_ext. Qed.

Lemma dict_get_names {W} (f : string → W) k (names : list string) :
  dict_get k ((λ name, (name, f name)) <$> names)
  = if bool_decide (k ∈ names) then Some (f k) else None.
Proof.
  induction names as [|n names IH]; csimpl; [done|].
  destruct (decide (n = k)) as [->|Hne].
  - rewrite bool_decide_eq_true_2 by done.
    by rewrite bool_decide_eq_true_2 by apply list_elem_of_here.
  - rewrite bool_decide_eq_false_2 by done. rewrite IH.
    rewrite (bool_decide_ext (k ∈ n :: names) (k ∈ names)); [done|].
    rewrite elem_of_cons. naive_solver.
Qed.

(** ** Labels *)

Lemma elem_of_unique x l : x ∈ unique l ↔ x ∈ l.
Proof.
  induction l as [|y l IH]; simpl; [done|].
  rewrite !elem_of_cons, list_elem_of_filter, IH.
  destruct (decide (x = y)); naive_solver.
Qed.

Lemma NoDup_unique l : NoDup (unique l).
Proof.
  induction l as [|y l IH]; simpl; [constructor|].
  constructor.
  - rewrite list_elem_of_filter. naive_solver.
  - by apply NoDup_filter.
Qed.

Lemma unique_nil l : unique l = [] ↔ l = [].
Proof. destruct l; naive_solver. Qed.

(** ** Frames *)

Lemma getitem_setitem_eq df k s :
  DataFrame_getitem (DataFrame_setitem df k s) k = Ok s.
Proof. unfold DataFrame_getitem, DataFrame_setitem. simpl. by rewrite dict_get_set_eq. Qed.

Lemma getitem_setitem_ne df k k' s :
  k ≠ k' → DataFrame_getitem (DataFrame_setitem df k' s) k = DataFrame_getitem df k.
Proof.
  intros. unfold DataFrame_getitem, DataFrame_setitem. simpl.
  by rewrite dict_get_set_ne.
Qed.

Lemma getitem_set_index df i k :
  DataFrame_getitem (DataFrame_set_index df i) k = DataFrame_getitem df k.
Proof. reflexivity. Qed.

Lemma getitem_column df k s : DataFrame_getitem df k = Ok s ↔ column df k = Some s.
Proof.
  unfold DataFrame_getitem, column. destruct (dict_get k (df_columns df)); naive_solver.
Qed.

Ltac read_columns H :=
  repeat first
    [ rewrite getitem_setitem_eq in H
    | rewrite getitem_setitem_ne in H by discriminate
    | rewrite getitem_set_index in H ].

Section TransformFacts.

Variable parse_datetime : string → option Timestamp.

(** The stateful program and its functional reading return the same frame. *)
Lemma transform_enrich h c :
  transform parse_datetime h c = enrich parse_datetime h c.
Proof.
  unfold transform, call_transform, transform_data, enrich.
  cbv [mbind mret Py_bind Py_ret pyresult_bind pyresult_ret pd_DataFrame alloc
       get_index set_index getitem setitem load_frame store_frame lift
       reset_index rename_inplace lookup list_lookup insert list_insert
       length app].
  repeat case_match; simplify_eq; reflexivity.
Qed.

Lemma to_datetime_labels h i :
  to_datetime parse_datetime (df_index (DataFrame_from_dict h)) = Ok i ↔
  ∃ ts, mapM parse_datetime (labels h) = Some ts ∧ i = IdxTime ts.
Proof.
  simpl. destruct (mapM parse_datetime (labels h)); naive_solver.
Qed.

(** What a successful run computed, column by column. *)
Lemma enrich_Ok_inv h c df :
  enrich parse_datetime h c = Ok df →
  ∃ ts cases deaths nc nd gr cma dma t cpm dpm,
    mapM parse_datetime (labels h) = Some ts ∧
    column (DataFrame_from_dict h) "cases" = Some cases ∧
    column (DataFrame_from_dict h) "deaths" = Some deaths ∧
    Series_diff cases = Ok nc ∧ Series_diff deaths = Ok nd ∧
    growth_rate_of nc cases = Ok gr ∧
    Series_rolling_mean 7 nc = Ok cma ∧ Series_rolling_mean 7 nd = Ok dma ∧
    total_population c = Ok t ∧
    per_million_of cases t = Ok cpm ∧ per_million_of deaths t = Ok dpm ∧
    (let cols := add_derived nc nd gr cma dma cpm dpm (df_columns (DataFrame_from_dict h)) in
     (index_name cols ∉ dict_keys cols) ∧
     df = DataFrame_rename "index" "date"
            {| df_index := IdxRange (length ts);
               df_columns := (index_name cols, STime ts) :: cols |}).
Proof.
  unfold enrich. cbv [mbind mret pyresult_bind pyresult_ret].
  intros H. repeat case_match; simplify_eq.
  repeat match goal with
  | H : DataFrame_getitem _ _ = Ok _ |- _ => progress read_columns H
  end.
  repeat match goal with
  | H1 : ?x = Ok _, H2 : ?x = Ok _ |- _ => rewrite H1 in H2; simplify_eq
  end.
  match goal with H : to_datetime _ _ = _ |- _ =>
    apply to_datetime_labels in H as (ts & Hts & ->) end.
  match goal with H : DataFrame_reset_index _ = _ |- _ =>
    unfold DataFrame_reset_index in H; cbn [df_columns df_index DataFrame_setitem
      DataFrame_set_index Index_length Index_to_series] in H;
    repeat match type of H with context [dict_set "deaths_per_million" ?dpm
      (dict_set _ ?cpm (dict_set _ ?dma (dict_set _ ?cma (dict_set _ ?gr
        (dict_set _ ?nd (dict_set _ ?nc ?cols))))))] =>
      fold (add_derived nc nd gr cma dma cpm dpm cols) in H end;
    repeat match type of H with context [add_derived ?nc ?nd ?gr ?cma ?dma ?cpm ?dpm ?cols] =>
      fold (index_name (add_derived nc nd gr cma dma cpm dpm cols)) in H end;
    case_bool_decide; simplify_eq end.
  do 11 eexists.
  repeat split; try eassumption; try (apply getitem_column; eassumption).
  - unfold growth_rate_of. cbv [mbind pyresult_bind].
    repeat match goal with H : ?x = Ok _ |- context [?x] => rewrite H end. done.
  - unfold total_population. cbv [mbind pyresult_bind].
    repeat match goal with H : ?x = _ |- context [?x] => rewrite H end. done.
  - unfold per_million_of. cbv [mbind pyresult_bind].
    repeat match goal with H : ?x = Ok _ |- context [?x] => rewrite H end. done.
  - unfold per_million_of. cbv [mbind pyresult_bind].
    repeat match goal with H : ?x = Ok _ |- context [?x] => rewrite H end. done.
Qed.

Lemma enrich_Ok_intro h c ts cases deaths nc nd gr cma dma t cpm dpm :
  mapM parse_datetime (labels h) = Some ts →
  column (DataFrame_from_dict h) "cases" = Some cases →
  column (DataFrame_from_dict h) "deaths" = Some deaths →
  Series_diff cases = Ok nc → Series_diff deaths = Ok nd →
  growth_rate_of nc cases = Ok gr →
  Series_rolling_mean 7 nc = Ok cma → Series_rolling_mean 7 nd = Ok dma →
  total_population c = Ok t →
  per_million_of cases t = Ok cpm → per_million_of deaths t = Ok dpm →
  let cols := add_derived nc nd gr cma dma cpm dpm (df_columns (DataFrame_from_dict h)) in
  index_name cols ∉ dict_keys cols →
  enrich parse_datetime h c =
    Ok (DataFrame_rename "index" "date"
          {| df_index := IdxRange (length ts);
             df_columns := (index_name cols, STime ts) :: cols |}).
Proof.
  intros Hts Hc Hd Hnc Hnd Hgr Hcma Hdma Ht Hcpm Hdpm cols Hname.
  apply getitem_column in Hc, Hd.
  unfold growth_rate_of in Hgr. unfold per_million_of in Hcpm, Hdpm.
  unfold total_population in Ht.
  cbv [mbind pyresult_bind] in Hgr, Hcpm, Hdpm, Ht.
  repeat case_match; simplify_eq.
  unfold enrich. cbv [mbind mret pyresult_bind pyresult_ret].
  cbn [to_datetime DataFrame_from_dict df_index]. rewrite Hts.
  change (IdxStr (labels h)) with (df_index (DataFrame_from_dict h)).
  repeat first
    [ rewrite getitem_setitem_eq
    | rewrite getitem_setitem_ne by discriminate
    | rewrite getitem_set_index
    | match goal with H : ?x = Ok _ |- context [?x] => rewrite H end ].
  unfold DataFrame_reset_index.
  cbn [df_columns df_index DataFrame_setitem DataFrame_set_index Index_length
       Index_to_series].
  fold (add_derived nc nd a0 cma dma cpm dpm (df_columns (DataFrame_from_dict h))).
  fold cols. fold (index_name cols).
  rewrite bool_decide_eq_false_2 by done. reflexivity.
Qed.

End TransformFacts.

(** ** The columns of the enriched table *)

Lemma dict_get_rename {V} k old new (d : pydict V) :
  k ≠ old → k ≠ new →
  dict_get k ((λ c, (if bool_decide (c.1 = old) then new else c.1, c.2)) <$> d)
  = dict_get k d.
Proof.
  intros Ho Hn. induction d as [|[k' v'] d IH]; csimpl; [done|].
  rewrite IH. destruct (decide (k' = old)) as [Heq|Hne].
  - rewrite (bool_decide_eq_true_2 _ Heq). subst k'.
    rewrite (bool_decide_eq_false_2 (new = k)) by congruence.
    by rewrite (bool_decide_eq_false_2 (old = k)) by congruence.
  - by rewrite (bool_decide_eq_false_2 _ Hne).
Qed.

Lemma dict_keys_cons {V} k (v : V) d : dict_keys ((k, v) :: d) = k :: dict_keys d.
Proof. reflexivity. Qed.

Lemma dict_keys_rename {V} old new (d : pydict V) :
  old ∉ dict_keys d →
  dict_keys ((λ c, (if bool_decide (c.1 = old) then new else c.1, c.2)) <$> d) = dict_keys d.
Proof.
  induction d as [|[k v] d IH]; csimpl; [done|].
  rewrite not_elem_of_cons. intros [Hne Hin].
  rewrite bool_decide_eq_false_2 by done. f_equal. by apply IH.
Qed.

Lemma dict_get_add_derived k nc nd gr cma dma cpm dpm cols :
  k ∉ derived_names →
  dict_get k (add_derived nc nd gr cma dma cpm dpm cols) = dict_get k cols.
Proof.
  unfold derived_names, add_derived. rewrite !not_elem_of_cons. intros H.
  rewrite !dict_get_set_ne by naive_solver. done.
Qed.

Lemma dict_keys_assign {V} (kvs : pydict V) : ∀ cols : pydict V,
  NoDup (dict_keys kvs) → (∀ n, n ∈ dict_keys kvs → n ∉ dict_keys cols) →
  dict_keys (foldl (λ d kv, dict_set kv.1 kv.2 d) cols kvs) = dict_keys cols ++ dict_keys kvs.
Proof.
  induction kvs as [|[k v] kvs IH]; intros cols Hnd Hfresh; csimpl.
  - by rewrite app_nil_r.
  - apply NoDup_cons in Hnd as [Hk Hnd].
    rewrite IH; [| done |].
    + rewrite dict_keys_set_new by (apply Hfresh; left).
      by rewrite <- app_assoc.
    + intros n Hn. rewrite dict_keys_set_new by (apply Hfresh; left).
      rewrite elem_of_app, list_elem_of_singleton. intros [Hc | ->]; [|done].
      revert Hc. apply Hfresh. by right.
Qed.

Lemma filter_ext_elem {A} (P Q : A → Prop) `{∀ x, Decision (P x)} `{∀ x, Decision (Q x)}
    (l : list A) :
  (∀ x, x ∈ l → P x ↔ Q x) → filter P l = filter Q l.
Proof.
  induction l as [|x l IH]; intros Hl; [done|].
  assert (Hx : P x ↔ Q x) by (apply Hl; left).
  assert (Hr : filter P l = filter Q l) by (apply IH; intros y Hy; apply Hl; by right).
  destruct (decide (P x)) as [HP|HP].
  - rewrite !filter_cons_True by tauto. by rewrite Hr.
  - rewrite !filter_cons_False by tauto. done.
Qed.

(** Assigning to a column that exists keeps its place; a new column goes
    to the end. *)
Lemma dict_keys_assign_any {V} (kvs : pydict V) : ∀ cols : pydict V,
  NoDup (dict_keys kvs) →
  dict_keys (foldl (λ d kv, dict_set kv.1 kv.2 d) cols kvs)
  = dict_keys cols ++ filter (λ n, n ∉ dict_keys cols) (dict_keys kvs).
Proof.
  induction kvs as [|[k v] kvs IH]; intros cols Hnd; csimpl.
  - by rewrite app_nil_r.
  - apply NoDup_cons in Hnd as [Hk Hnd]. rewrite IH by done.
    destruct (decide (k ∈ dict_keys cols)) as [Hin|Hnin].
    + rewrite dict_keys_set_old by done.
      by rewrite filter_cons_False by (by intros []).
    + rewrite dict_keys_set_new by done. rewrite filter_cons_True by done.
      rewrite <- app_assoc. f_equal. simpl. f_equal.
      apply filter_ext_elem. intros n Hn.
      rewrite elem_of_app, list_elem_of_singleton.
      split; [naive_solver|]. intros H1 [H2 | ->]; [done|].
      by apply Hk.
Qed.

Lemma dict_keys_add_derived_any nc nd gr cma dma cpm dpm cols :
  dict_keys (add_derived nc nd gr cma dma cpm dpm cols)
  = dict_keys cols ++ filter (λ n, n ∉ dict_keys cols) derived_names.
Proof.
  apply (dict_keys_assign_any
    [("new_cases", nc); ("new_deaths", nd); ("growth_rate", gr); ("cases_ma7", cma);
     ("deaths_ma7", dma); ("cases_per_million", cpm); ("deaths_per_million", dpm)]).
  apply (bool_decide_unpack _). by compute.
Qed.

Lemma dict_keys_renamed {V} old new (d : pydict V) :
  dict_keys ((λ c, (if bool_decide (c.1 = old) then new else c.1, c.2)) <$> d)
  = (λ k, if bool_decide (k = old) then new else k) <$> dict_keys d.
Proof. unfold dict_keys. rewrite <- !list_fmap_compose. by apply list_fmap_ext. Qed.

Lemma dict_keys_add_derived nc nd gr cma dma cpm dpm cols :
  (∀ n, n ∈ derived_names → n ∉ dict_keys cols) →
  dict_keys (add_derived nc nd gr cma dma cpm dpm cols) = dict_keys cols ++ derived_names.
Proof.
  intros H.
  apply (dict_keys_assign
    [("new_cases", nc); ("new_deaths", nd); ("growth_rate", gr); ("cases_ma7", cma);
     ("deaths_ma7", dma); ("cases_per_million", cpm); ("deaths_per_million", dpm)]);
    [|exact H].
  apply (bool_decide_unpack _). by compute.
Qed.

Lemma elem_of_keys_add_derived x nc nd gr cma dma cpm dpm cols :
  x ∈ dict_keys (add_derived nc nd gr cma dma cpm dpm cols) ↔
  x ∈ derived_names ∨ x ∈ dict_keys cols.
Proof.
  unfold add_derived, derived_names.
  rewrite !elem_of_dict_keys_set, !elem_of_cons, elem_of_nil. naive_solver.
Qed.

Lemma index_name_cases cols :
  index_name cols = "index" ∨ index_name cols = "level_0".
Proof. unfold index_name. case_bool_decide; auto. Qed.

Lemma column_enriched k ts cols :
  k ≠ "index" → k ≠ "date" → k ≠ "level_0" →
  column (DataFrame_rename "index" "date"
            {| df_index := IdxRange (length ts);
               df_columns := (index_name cols, STime ts) :: cols |}) k
  = dict_get k cols.
Proof.
  intros H1 H2 H3. unfold column, DataFrame_rename. cbn [df_columns].
  rewrite dict_get_rename by done. simpl.
  rewrite bool_decide_eq_false_2; [done|].
  destruct (index_name_cases cols) as [-> | ->]; done.
Qed.

Lemma column_enriched_date ts cols :
  "index" ∉ dict_keys cols →
  column (DataFrame_rename "index" "date"
            {| df_index := IdxRange (length ts);
               df_columns := (index_name cols, STime ts) :: cols |}) "date"
  = Some (STime ts).
Proof.
  intros H. unfold column, DataFrame_rename, index_name. cbn [df_columns].
  rewrite bool_decide_eq_false_2 by done. reflexivity.
Qed.

(** ** Column arithmetic *)

Local Open Scope nat_scope.

Lemma length_shift1 {A} (na : A) v : length (shift1 na v) = length v.
Proof. unfold shift1. rewrite length_take. simpl. lia. Qed.

Lemma lookup_shift1_0 {A} (na : A) v : v ≠ [] → shift1 na v !! 0 = Some na.
Proof. destruct v; [done|]. reflexivity. Qed.

Lemma lookup_shift1_S {A} (na : A) v i :
  S i < length v → shift1 na v !! S i = v !! i.
Proof. intros H. unfold shift1. rewrite lookup_take_lt by done. reflexivity. Qed.

Lemma length_diff_int64 v : length (diff_int64 v) = length v.
Proof.
  destruct v as [|x l]; [done|]. simpl. rewrite length_zip_with. simpl. lia.
Qed.

Lemma lookup_diff_int64_0 v : v ≠ [] → diff_int64 v !! 0 = Some np.nan.
Proof. destruct v; [done|]. reflexivity. Qed.

Lemma lookup_diff_int64_S v i a b :
  v !! i = Some a → v !! S i = Some b →
  diff_int64 v !! S i = Some (np.of_int (np.wrap64 (b - a))).
Proof.
  destruct v as [|x l]; [done|]. intros Ha Hb. simpl in Hb.
  simpl. rewrite lookup_zip_with, Hb. simpl. rewrite Ha. reflexivity.
Qed.

(** Past the first row the deltas of an [int64] column are pairwise
    differences. *)
Lemma drop_diff_int64 v k :
  drop (S k) (diff_int64 v)
  = zip_with (λ cur prev, np.of_int (np.wrap64 (cur - prev))) (drop (S k) v) (drop k v).
Proof.
  destruct v as [|x l]; [by rewrite !drop_nil|].
  simpl. by rewrite zip_with_drop.
Qed.

Lemma diff_int64_finite v :
  Forall (λ x, np.isfinite x = true) (drop 1 (diff_int64 v)).
Proof.
  rewrite drop_diff_int64. apply Forall_lookup. intros i x.
  rewrite lookup_zip_with_Some. intros (a & b & -> & _ & _).
  apply of_int_wrap64_isfinite.
Qed.

Lemma length_rolling_mean w v : length (rolling_mean w v) = length v.
Proof. unfold rolling_mean. by rewrite length_fmap, length_seq. Qed.

Lemma lookup_rolling_mean w v i :
  i < length v → rolling_mean w v !! i = Some (rolling_mean_at w v i).
Proof.
  intros H. unfold rolling_mean. rewrite list_lookup_fmap, lookup_seq_lt by done.
  reflexivity.
Qed.

Lemma filter_Forall_id {A} (P : A → Prop) `{∀ x, Decision (P x)} l :
  Forall P l → filter P l = l.
Proof.
  induction 1 as [|x l Hx _ IH]; [done|].
  rewrite filter_cons_True by done. by rewrite IH.
Qed.

Lemma of_int_7 : np.of_int 7 = S754_finite false 7881299347898368 (-50).
Proof. reflexivity. Qed.

(** The first row is NaN, so no window that reaches it holds seven
    observations. *)
Lemma rolling_mean_at_early v i :
  v !! 0 = Some np.nan → i < 7 → rolling_mean_at 7 v i = np.nan.
Proof.
  intros H0 Hi. unfold rolling_mean_at, window.
  replace (S i - 7) with 0 by lia. rewrite drop_0.
  destruct v as [|x v]; [done|]. simpl in H0. injection H0 as ->.
  rewrite firstn_cons, filter_cons_False by done.
  rewrite bool_decide_eq_false_2; [done|].
  pose proof (length_filter (λ x, np.isfinite x = true) (take i v)) as Hf.
  rewrite length_take in Hf. lia.
Qed.

Lemma rolling_mean_at_full v i :
  Forall (λ x, np.isfinite x = true) (drop 1 v) → 7 ≤ i → i < length v →
  rolling_mean_at 7 v i = np.div (fsum (take 7 (drop (i - 6) v))) (np.of_int 7).
Proof.
  intros Hfin Hi Hlen. unfold rolling_mean_at, window.
  replace (S i - 7) with (i - 6) by lia.
  replace (S i) with ((i - 6) + 7) by lia. rewrite <- take_drop_commute.
  assert (Hall : Forall (λ x, np.isfinite x = true) (take 7 (drop (i - 6) v))).
  { apply Forall_take. replace (i - 6) with (1 + (i - 7)) by lia.
    rewrite <- drop_drop. by apply Forall_drop. }
  rewrite filter_Forall_id by done.
  assert (Hl : length (take 7 (drop (i - 6) v)) = 7).
  { rewrite length_take, length_drop. lia. }
  rewrite Hl. rewrite bool_decide_eq_true_2 by done. reflexivity.
Qed.

Lemma rolling_mean_at_full_defined v i :
  Forall (λ x, np.isfinite x = true) (drop 1 v) → 7 ≤ i → i < length v →
  np.isnan (rolling_mean_at 7 v i) = false.
Proof.
  intros Hfin Hi Hlen. rewrite rolling_mean_at_full by done.
  rewrite of_int_7. apply div_not_nan. apply fsum_not_nan.
  apply Forall_take. replace (i - 6) with (1 + (i - 7)) by lia.
  rewrite <- drop_drop. by apply Forall_drop.
Qed.

(** With counters below [2^52] the sum of seven consecutive deltas is
    exact: it telescopes to the difference of the counters at the two
    ends. *)
Lemma foldl_add_of_int a x l :
  (Z.abs a < 2 ^ 53)%Z → (Z.abs x < 2 ^ 53)%Z → (Z.abs (a + x) < 2 ^ 53)%Z →
  foldl np.add (np.of_int a) (np.of_int x :: l) = foldl np.add (np.of_int (a + x)) l.
Proof. intros. cbn [foldl]. by rewrite add_of_int. Qed.

Lemma fsum_deltas_exact (c0 c1 c2 c3 c4 c5 c6 c7 : Z) :
  Forall (λ n, (Z.abs n < 2 ^ 52)%Z) [c0; c1; c2; c3; c4; c5; c6; c7] →
  fsum [np.of_int (c1 - c0); np.of_int (c2 - c1); np.of_int (c3 - c2);
        np.of_int (c4 - c3); np.of_int (c5 - c4); np.of_int (c6 - c5);
        np.of_int (c7 - c6)]
  = np.of_int (c7 - c0).
Proof.
  intros H.
  repeat match goal with H : Forall _ (_ :: _) |- _ => apply Forall_cons in H as [? H] end.
  unfold fsum. rewrite <- of_int_zero.
  do 7 (rewrite foldl_add_of_int by lia).
  cbn [foldl]. f_equal. lia.
Qed.

Lemma window_sum_exact (cs : list Z) i a b :
  7 ≤ i → cs !! (i - 7) = Some a → cs !! i = Some b →
  Forall (λ n, (Z.abs n < 2 ^ 52)%Z) cs →
  fsum (take 7 (drop (i - 6) (diff_int64 cs))) = np.of_int (b - a).
Proof.
  intros Hi Ha Hb Hbound.
  replace (i - 6) with (S (i - 7)) by lia. rewrite drop_diff_int64, zip_with_take.
  assert (Hlen : i < length cs) by (by eapply lookup_lt_Some).
  assert (Hall : Forall (λ n, (Z.abs n < 2 ^ 52)%Z) (drop (i - 7) cs)) by (by apply Forall_drop).
  assert (HbA : drop (i - 7) cs !! 7 = Some b).
  { rewrite lookup_drop. rewrite <- Hb. f_equal. lia. }
  assert (HaA : drop (i - 7) cs !! 0 = Some a).
  { rewrite lookup_drop. rewrite <- Ha. f_equal. lia. }
  replace (S (i - 7)) with (i - 7 + 1) by lia. rewrite <- (drop_drop cs 1 (i - 7)).
  destruct (drop (i - 7) cs) as [|c0 [|c1 [|c2 [|c3 [|c4 [|c5 [|c6 [|c7 rest]]]]]]]];
    try discriminate.
  injection HbA as ->. injection HaA as ->.
  assert (Hall8 : Forall (λ n, (Z.abs n < 2 ^ 52)%Z) [a; c1; c2; c3; c4; c5; c6; b]).
  { change (a :: c1 :: c2 :: c3 :: c4 :: c5 :: c6 :: b :: rest)
      with ([a; c1; c2; c3; c4; c5; c6; b] ++ rest) in Hall.
    by apply Forall_app in Hall as [? _]. }
  rewrite <- (fsum_deltas_exact a c1 c2 c3 c4 c5 c6 b Hall8).
  repeat match goal with H : Forall _ (_ :: _) |- _ => apply Forall_cons in H as [? H] end.
  change (drop 1 (a :: ?l)) with l.
  change (take 7 (c1 :: c2 :: c3 :: c4 :: c5 :: c6 :: b :: rest))
    with [c1; c2; c3; c4; c5; c6; b].
  change (take 7 (a :: c1 :: c2 :: c3 :: c4 :: c5 :: c6 :: b :: rest))
    with [a; c1; c2; c3; c4; c5; c6].
  cbn [zip_with].
  rewrite !wrap64_id by lia. reflexivity.
Qed.

(** The seven deltas of such a window are the floats of the differences of
    consecutive counters. *)
Lemma window_deltas (cs : list Z) i a b :
  7 ≤ i → cs !! (i - 7) = Some a → cs !! i = Some b →
  Forall (λ n, (Z.abs n < 2 ^ 52)%Z) cs →
  ∃ deltas : list Z,
    take 7 (drop (i - 6) (diff_int64 cs)) = np.of_int <$> deltas ∧
    length deltas = 7 ∧ sum_list deltas = (b - a)%Z.
Proof.
  intros Hi Ha Hb Hbound.
  replace (i - 6) with (S (i - 7)) by lia. rewrite drop_diff_int64, zip_with_take.
  assert (Hlen : i < length cs) by (by eapply lookup_lt_Some).
  assert (Hall : Forall (λ n, (Z.abs n < 2 ^ 52)%Z) (drop (i - 7) cs)) by (by apply Forall_drop).
  assert (HbA : drop (i - 7) cs !! 7 = Some b).
  { rewrite lookup_drop. rewrite <- Hb. f_equal. lia. }
  assert (HaA : drop (i - 7) cs !! 0 = Some a).
  { rewrite lookup_drop. rewrite <- Ha. f_equal. lia. }
  replace (S (i - 7)) with (i - 7 + 1) by lia. rewrite <- (drop_drop cs 1 (i - 7)).
  destruct (drop (i - 7) cs) as [|c0 [|c1 [|c2 [|c3 [|c4 [|c5 [|c6 [|c7 rest]]]]]]]];
    try discriminate.
  injection HbA as ->. injection HaA as ->.
  repeat match goal with H : Forall _ (_ :: _) |- _ => apply Forall_cons in H as [? H] end.
  exists [c1 - a; c2 - c1; c3 - c2; c4 - c3; c5 - c4; c6 - c5; b - c6]%Z.
  split; [|split; [reflexivity | simpl; lia]].
  change (drop 1 (a :: ?l)) with l.
  change (take 7 (c1 :: c2 :: c3 :: c4 :: c5 :: c6 :: b :: rest))
    with [c1; c2; c3; c4; c5; c6; b].
  change (take 7 (a :: c1 :: c2 :: c3 :: c4 :: c5 :: c6 :: b :: rest))
    with [a; c1; c2; c3; c4; c5; c6].
  cbn [zip_with fmap list_fmap].
  rewrite !wrap64_id by lia. reflexivity.
Qed.

Local Close Scope nat_scope.

(** ** The input frame *)

Lemma convert_objects_length cells : Series_length (convert_objects cells) = length cells.
Proof.
  unfold convert_objects. repeat case_match; simpl; by rewrite ?length_fmap.
Qed.

Lemma from_dict_column h name s :
  column (DataFrame_from_dict h) name = Some s →
  ∃ d, dict_get name h = Some d ∧
       s = convert_objects ((λ k, cell_of_count (dict_get k d)) <$> labels h).
Proof.
  unfold column, DataFrame_from_dict. cbn [df_columns].
  rewrite (dict_get_map (λ c, convert_objects ((λ k, cell_of_count (dict_get k c.2)) <$> labels h))).
  destruct (dict_get name h) as [d|]; [|done]. intros [= <-]. eauto.
Qed.

Lemma from_dict_column_length h name s :
  column (DataFrame_from_dict h) name = Some s → Series_length s = length (labels h).
Proof.
  intros (d & _ & ->)%from_dict_column.
  by rewrite convert_objects_length, length_fmap.
Qed.

Lemma from_dict_column_is_Some h name :
  is_Some (dict_get name h) → is_Some (column (DataFrame_from_dict h) name).
Proof.
  unfold column, DataFrame_from_dict. cbn [df_columns].
  rewrite (dict_get_map (λ c, convert_objects ((λ k, cell_of_count (dict_get k c.2)) <$> labels h))).
  intros [d ->]. eauto.
Qed.

Lemma from_dict_keys h : dict_keys (df_columns (DataFrame_from_dict h)) = dict_keys h.
Proof.
  unfold DataFrame_from_dict. cbn [df_columns].
  apply (dict_keys_map (λ c, convert_objects ((λ k, cell_of_count (dict_get k c.2)) <$> labels h))).
Qed.

(** A series is held as an [int64] column exactly when there is a date and
    every date has a count in it; the column lists the counts in the order
    of the labels. *)
Lemma counts_no_str (d : pydict Z) l :
  existsb is_str ((λ k, cell_of_count (dict_get k d)) <$> l) = false.
Proof.
  induction l as [|k l IH]; [done|]. csimpl. rewrite IH. by destruct (dict_get k d).
Qed.

Lemma counts_mapM (d : pydict Z) l w :
  mapM (λ k, dict_get k d) l = Some w ↔
  forallb is_int ((λ k, cell_of_count (dict_get k d)) <$> l) = true ∧
  w = cell_int <$> ((λ k, cell_of_count (dict_get k d)) <$> l).
Proof.
  revert w. induction l as [|k l IH]; intros w; csimpl.
  - split; [by intros [= <-] | by intros [_ ->]].
  - destruct (dict_get k d) as [n|]; csimpl; [|by split; [|intros []]].
    destruct (mapM _ l) as [w'|]; csimpl.
    + destruct (proj1 (IH w') eq_refl) as [Hfa ->]. rewrite Hfa.
      split; [by intros [= <-] | by intros [_ ->]].
    + split; [done|]. intros [Hfa ->].
      by pose proof (proj2 (IH _) (conj Hfa eq_refl)).
Qed.

Lemma convert_counts_int (d : pydict Z) l v :
  convert_objects ((λ k, cell_of_count (dict_get k d)) <$> l) = SInt v ↔
  l ≠ [] ∧ mapM (λ k, dict_get k d) l = Some v.
Proof.
  rewrite counts_mapM. unfold convert_objects. rewrite counts_no_str. split.
  - destruct (existsb is_int _) eqn:Hex.
    + destruct (forallb is_int _) eqn:Hfa; [|done]. intros [= <-].
      split; [by intros ->|done].
    + by destruct (existsb is_nan _).
  - intros (Hne & Hfa & ->). rewrite Hfa.
    destruct l as [|k l]; [done|]. csimpl in *.
    by destruct (dict_get k d).
Qed.

Lemma int_series_iff h name v :
  int_series h name v ↔
  ∃ d, dict_get name h = Some d ∧ labels h ≠ [] ∧
       mapM (λ k, dict_get k d) (labels h) = Some v.
Proof.
  unfold int_series. split.
  - intros Hc. destruct (from_dict_column _ _ _ Hc) as (d & Hd & Heq).
    exists d. split; [done|]. by apply convert_counts_int.
  - intros (d & Hd & Hl). unfold column, DataFrame_from_dict. cbn [df_columns].
    rewrite (dict_get_map
               (λ c, convert_objects ((λ k, cell_of_count (dict_get k c.2)) <$> labels h))).
    rewrite Hd. f_equal. by apply convert_counts_int.
Qed.

(** A column of counters is numeric. *)
Lemma from_dict_column_numeric h name s :
  column (DataFrame_from_dict h) name = Some s →
  ∃ v, as_float64 s = Ok v ∧ length v = length (labels h).
Proof.
  intros Hc. pose proof (from_dict_column_length _ _ _ Hc) as Hlen.
  apply from_dict_column in Hc as (d & _ & ->).
  revert Hlen. generalize (labels h) as l. intros l.
  assert (Hstr : existsb is_str ((λ k, cell_of_count (dict_get k d)) <$> l) = false).
  { induction l as [|k l IH]; [done|]. csimpl. rewrite IH.
    by destruct (dict_get k d). }
  unfold convert_objects. rewrite Hstr.
  destruct (existsb is_int _) eqn:Hint.
  - destruct (forallb is_int _); simpl; intros <-; eexists; split; try done.
    by rewrite length_fmap.
  - destruct (existsb is_nan _) eqn:Hnan; simpl; intros Hlen; [eauto|].
    destruct l as [|k l]; [by eexists|].
    csimpl in *. destruct (dict_get k d); simpl in *; congruence.
Qed.

Lemma as_float64_length s v : as_float64 s = Ok v → length v = Series_length s.
Proof.
  destruct s as [l|l|l|[|? l]]; simpl; intros [= <-]; by rewrite ?length_fmap.
Qed.

(** ** Column arithmetic on numeric columns cannot fail *)

Lemma Series_diff_numeric s v :
  as_float64 s = Ok v → ∃ nc, Series_diff s = Ok (SFloat nc).
Proof.
  destruct s as [l|l|l|[|? l]]; simpl; intros [= <-]; eauto.
Qed.

Lemma growth_rate_of_numeric nc s v :
  as_float64 s = Ok v →
  growth_rate_of (SFloat nc) s
  = Ok (SFloat ((λ u, np.mul u (np.of_int 100)) <$> zip_with np.div nc (shift1 np.nan v))).
Proof.
  intros Hv. unfold growth_rate_of, Series_shift. cbv [mbind pyresult_bind].
  rewrite Hv. reflexivity.
Qed.

Lemma per_million_of_numeric s v t x :
  as_float64 s = Ok v → Scalar_float t = Ok x →
  per_million_of s t
  = Ok (SFloat ((λ u, np.mul u (np.of_int 1000000)) <$> ((λ u, np.div u x) <$> v))).
Proof.
  intros Hv Hx. unfold per_million_of, Series_truediv_scalar. cbv [mbind pyresult_bind].
  rewrite Hv, Hx. reflexivity.
Qed.

Lemma per_million_of_Ok_inv s t r :
  per_million_of s t = Ok r → ∃ v x, as_float64 s = Ok v ∧ Scalar_float t = Ok x.
Proof.
  unfold per_million_of, Series_truediv_scalar. cbv [mbind pyresult_bind].
  destruct (as_float64 s); [|done]. destruct (Scalar_float t); [|done]. eauto.
Qed.

Lemma total_population_float_Ok c x :
  total_population_float c = Ok x ↔ ∃ t, total_population c = Ok t ∧ Scalar_float t = Ok x.
Proof.
  unfold total_population_float. cbv [mbind pyresult_bind].
  destruct (total_population c); naive_solver.
Qed.

Section Acceptance.

Variable parse_datetime : string → option Timestamp.

Lemma index_name_fresh h nc nd gr cma dma cpm dpm :
  ¬ ("index" ∈ dict_keys h ∧ "level_0" ∈ dict_keys h) →
  let cols := add_derived nc nd gr cma dma cpm dpm (df_columns (DataFrame_from_dict h)) in
  index_name cols ∉ dict_keys cols.
Proof.
  intros Hno cols. unfold index_name. subst cols.
  assert (Hd : ∀ x, x = "index" ∨ x = "level_0" → x ∉ derived_names).
  { intros x [-> | ->]; unfold derived_names; rewrite !not_elem_of_cons;
      repeat split; try discriminate; apply not_elem_of_nil. }
  case_bool_decide as Hi; rewrite elem_of_keys_add_derived, from_dict_keys in *.
  - intros [?|?]; [by eapply Hd; eauto|]. destruct Hi as [?|?]; [by eapply (Hd "index"); eauto|].
    naive_solver.
  - done.
Qed.

(** [transform_data] returns a frame on every accepted payload. *)
Lemma accepted_enrich h c :
  accepted parse_datetime h c → ∃ df, enrich parse_datetime h c = Ok df.
Proof.
  intros ([dc Hc]%from_dict_column_is_Some & [dd Hd]%from_dict_column_is_Some
          & [ts Hts] & [x Hx] & Hnames).
  apply total_population_float_Ok in Hx as (t & Ht & Hx).
  destruct (from_dict_column_numeric _ _ _ Hc) as (vc & Hvc & _).
  destruct (from_dict_column_numeric _ _ _ Hd) as (vd & Hvd & _).
  destruct (Series_diff_numeric _ _ Hvc) as (nc & Hnc).
  destruct (Series_diff_numeric _ _ Hvd) as (nd & Hnd).
  eexists. eapply enrich_Ok_intro; try eassumption.
  - by apply growth_rate_of_numeric.
  - reflexivity.
  - reflexivity.
  - by eapply per_million_of_numeric.
  - by eapply per_million_of_numeric.
  - by apply index_name_fresh.
Qed.

(** And on no other payload. *)
Lemma enrich_accepted h c df :
  enrich parse_datetime h c = Ok df → accepted parse_datetime h c.
Proof.
  intros (ts & cases & deaths & nc & nd & gr & cma & dma & t & cpm & dpm & Hts & Hc & Hd
          & Hnc & Hnd & Hgr & Hcma & Hdma & Ht & Hcpm & Hdpm & Hfresh & ->)%enrich_Ok_inv.
  apply from_dict_column in Hc as (dc & Hc & _).
  apply from_dict_column in Hd as (dd & Hd & _).
  destruct (per_million_of_Ok_inv _ _ _ Hcpm) as (v & x & _ & Hx).
  repeat split; [by eexists | by eexists | by eexists | |].
  - exists x. apply total_population_float_Ok. eauto.
  - intros [Hi Hl]. apply Hfresh. unfold index_name.
    rewrite bool_decide_eq_true_2;
      rewrite elem_of_keys_add_derived, from_dict_keys; auto.
Qed.

Lemma transform_accepted h c :
  accepted parse_datetime h c ↔ ∃ df, transform parse_datetime h c = Ok df.
Proof.
  split.
  - intros [df Hdf]%accepted_enrich. exists df. by rewrite transform_enrich.
  - intros [df Hdf]. rewrite transform_enrich in Hdf. by eapply enrich_accepted.
Qed.

End Acceptance.

(** ** The enriched table in terms of the payload *)

Ltac read_derived :=
  unfold add_derived;
  repeat first [ rewrite dict_get_set_eq | rewrite dict_get_set_ne by discriminate ].

Lemma index_not_derived : "index" ∉ derived_names.
Proof. apply (bool_decide_unpack _). by compute. Qed.

Lemma cases_not_derived : "cases" ∉ derived_names.
Proof. apply (bool_decide_unpack _). by compute. Qed.

Lemma deaths_not_derived : "deaths" ∉ derived_names.
Proof. apply (bool_decide_unpack _). by compute. Qed.

Section Enriched.

Variable parse_datetime : string → option Timestamp.

Lemma mapM_length {A B} (f : A → option B) l k : mapM f l = Some k → length k = length l.
Proof. intros H. symmetry. by eapply length_mapM. Qed.

Lemma transform_Ok_view h c df :
  transform parse_datetime h c = Ok df →
  ∃ ts t x,
    mapM parse_datetime (labels h) = Some ts ∧
    nrows df = length (labels h) ∧
    total_population c = Ok t ∧ Scalar_float t = Ok x ∧
    ("index" ∉ dict_keys h → dates df = ts) ∧
    ((∀ n, n ∈ derived_names → n ∉ dict_keys h) → "index" ∉ dict_keys h →
       dict_keys (df_columns df) = "date" :: dict_keys h ++ derived_names) ∧
    (∀ cs, int_series h "cases" cs →
       length cs = length (labels h) ∧
       int_view df x cs "cases" "new_cases" "cases_ma7" "cases_per_million" ∧
       floats df "growth_rate"
       = (λ u, np.mul u (np.of_int 100))
           <$> zip_with np.div (diff_int64 cs) (shift1 np.nan (np.of_int <$> cs))) ∧
    (∀ ds, int_series h "deaths" ds →
       length ds = length (labels h) ∧
       int_view df x ds "deaths" "new_deaths" "deaths_ma7" "deaths_per_million").
Proof.
  rewrite transform_enrich.
  intros (ts & cases & deaths & nc & nd & gr & cma & dma & t & cpm & dpm & Hts & Hc & Hd
          & Hnc & Hnd & Hgr & Hcma & Hdma & Ht & Hcpm & Hdpm & Hfresh & ->)%enrich_Ok_inv.
  destruct (per_million_of_Ok_inv _ _ _ Hcpm) as (vc & x & Hvc & Hx).
  exists ts, t, x. split; [done|]. split.
  { unfold nrows, DataFrame_rename. cbn [df_index Index_length]. by eapply mapM_length. }
  split; [done|]. split; [done|]. split.
  { intros Hi. unfold dates. rewrite column_enriched_date; [done|].
    rewrite elem_of_keys_add_derived, from_dict_keys. intros [Hin|?]; [|done].
    by apply index_not_derived. }
  split.
  { intros Hder Hi.
    assert (Hidx : "index" ∉ dict_keys (add_derived nc nd gr cma dma cpm dpm
                                          (df_columns (DataFrame_from_dict h)))).
    { rewrite elem_of_keys_add_derived, from_dict_keys. intros [Hin|?]; [|done].
      by apply index_not_derived. }
    unfold DataFrame_rename. cbn [df_columns]. rewrite fmap_cons.
    cbn [fst snd]. rewrite dict_keys_cons.
    rewrite dict_keys_rename by done.
    unfold index_name. rewrite (bool_decide_eq_false_2 _ Hidx).
    rewrite bool_decide_eq_true_2 by done.
    rewrite dict_keys_add_derived, from_dict_keys; [done|].
    by rewrite from_dict_keys. }
  split.
  - intros cs Hcs. unfold int_series in Hcs. rewrite Hc in Hcs. injection Hcs as ->.
    pose proof (from_dict_column_length _ _ _ Hc) as Hlen. cbn [Series_length] in Hlen.
    cbn [Series_diff] in Hnc. injection Hnc as <-.
    cbn [as_float64] in Hvc. injection Hvc as <-.
    rewrite (growth_rate_of_numeric _ (SInt cs) (np.of_int <$> cs)) in Hgr by done.
    injection Hgr as <-.
    rewrite (per_million_of_numeric (SInt cs) (np.of_int <$> cs) t x) in Hcpm by done.
    injection Hcpm as <-.
    unfold Series_rolling_mean in Hcma. cbv [mbind pyresult_bind] in Hcma.
    cbn [as_float64] in Hcma. injection Hcma as <-.
    split; [done|]. unfold int_view, ints, floats.
    rewrite !column_enriched by discriminate.
    rewrite dict_get_add_derived by apply cases_not_derived.
    fold (column (DataFrame_from_dict h) "cases"). rewrite Hc.
    read_derived. done.
  - intros ds Hds. unfold int_series in Hds. rewrite Hd in Hds. injection Hds as ->.
    pose proof (from_dict_column_length _ _ _ Hd) as Hlen. cbn [Series_length] in Hlen.
    cbn [Series_diff] in Hnd. injection Hnd as <-.
    rewrite (per_million_of_numeric (SInt ds) (np.of_int <$> ds) t x) in Hdpm by done.
    injection Hdpm as <-.
    unfold Series_rolling_mean in Hdma. cbv [mbind pyresult_bind] in Hdma.
    cbn [as_float64] in Hdma. injection Hdma as <-.
    split; [done|]. unfold int_view, ints, floats.
    rewrite !column_enriched by discriminate.
    rewrite dict_get_add_derived by apply deaths_not_derived.
    fold (column (DataFrame_from_dict h) "deaths"). rewrite Hd.
    read_derived. done.
Qed.

End Enriched.

(** ** Every column of the enriched table has one entry per row *)

Lemma length_diff_float64 v : length (diff_float64 v) = length v.
Proof. unfold diff_float64. rewrite length_zip_with, length_shift1. lia. Qed.

Lemma Series_diff_length s r : Series_diff s = Ok r → Series_length r = Series_length s.
Proof.
  destruct s as [l|l|l|[|? l]]; simpl; intros [= <-]; simpl;
    by rewrite ?length_diff_int64, ?length_diff_float64.
Qed.

Lemma Series_rolling_mean_length w s r :
  Series_rolling_mean w s = Ok r → Series_length r = Series_length s.
Proof.
  unfold Series_rolling_mean. cbv [mbind pyresult_bind].
  destruct (as_float64 s) as [v|] eqn:Hv; [|done]. intros [= <-]. simpl.
  rewrite length_rolling_mean. by apply as_float64_length.
Qed.

Lemma Series_mul_int_length s k r :
  Series_mul_int s k = Ok r → Series_length r = Series_length s.
Proof.
  destruct s as [l|l|l|[|? l]]; simpl; intros [= <-]; simpl; by rewrite ?length_fmap.
Qed.

Lemma growth_rate_of_length nc s r :
  growth_rate_of nc s = Ok r → Series_length nc = Series_length s →
  Series_length r = Series_length s.
Proof.
  unfold growth_rate_of, Series_shift, Series_truediv. cbv [mbind pyresult_bind].
  destruct (as_float64 s) as [v|] eqn:Hv; [|done].
  cbn [as_float64].
  destruct (as_float64 nc) as [u|] eqn:Hu; [|done].
  intros Hr%Series_mul_int_length Hlen. rewrite Hr. simpl.
  rewrite length_zip_with, length_shift1.
  apply as_float64_length in Hv, Hu. lia.
Qed.

Lemma per_million_of_length s t r :
  per_million_of s t = Ok r → Series_length r = Series_length s.
Proof.
  unfold per_million_of, Series_truediv_scalar. cbv [mbind pyresult_bind].
  destruct (as_float64 s) as [v|] eqn:Hv; [|done].
  destruct (Scalar_float t) as [x|]; [|done].
  intros Hr%Series_mul_int_length. rewrite Hr. simpl. rewrite length_fmap.
  by apply as_float64_length.
Qed.

Lemma elem_of_dict_set {V} (kv : string * V) k v d :
  kv ∈ dict_set k v d → kv = (k, v) ∨ kv ∈ d.
Proof.
  induction d as [|[k' v'] d IH]; simpl.
  - rewrite list_elem_of_singleton. auto.
  - case_bool_decide; rewrite !elem_of_cons; naive_solver.
Qed.

Section Lengths.

Variable parse_datetime : string → option Timestamp.

Lemma transform_columns_length h c df name s :
  transform parse_datetime h c = Ok df →
  (name, s) ∈ df_columns df → Series_length s = nrows df.
Proof.
  rewrite transform_enrich.
  intros (ts & cases & deaths & nc & nd & gr & cma & dma & t & cpm & dpm & Hts & Hc & Hd
          & Hnc & Hnd & Hgr & Hcma & Hdma & Ht & Hcpm & Hdpm & Hfresh & ->)%enrich_Ok_inv.
  unfold nrows, DataFrame_rename. cbn [df_index df_columns Index_length].
  pose proof (mapM_length _ _ _ Hts) as Hlen.
  pose proof (from_dict_column_length _ _ _ Hc) as Hlc.
  pose proof (from_dict_column_length _ _ _ Hd) as Hld.
  apply Series_diff_length in Hnc, Hnd.
  apply growth_rate_of_length in Hgr; [|congruence].
  apply Series_rolling_mean_length in Hcma, Hdma.
  apply per_million_of_length in Hcpm, Hdpm.
  rewrite list_elem_of_fmap. intros ([k s'] & [= -> ->] & Hin).
  apply elem_of_cons in Hin as [[= _ ->] | Hin]; [simpl; congruence|].
  unfold add_derived in Hin.
  repeat (apply elem_of_dict_set in Hin as [[= _ ->] | Hin]; [congruence|]).
  unfold DataFrame_from_dict in Hin. cbn [df_columns] in Hin.
  apply list_elem_of_fmap in Hin as (col & [= _ ->] & _).
  rewrite convert_objects_length, length_fmap. congruence.
Qed.

End Lengths.

(** ** The store: what a computation leaves untouched *)

Lemma preserves_ret {A} σ0 (a : A) (Q : A → Prop) : Q a → preserves σ0 (mret a) Q.
Proof. intros HQ σ Hσ. split; [done|]. by intros ? [= <-]. Qed.

Lemma preserves_lift {A} σ0 (r : pyresult A) : preserves σ0 (lift r) (λ _, True).
Proof. intros σ Hσ. done. Qed.

Lemma preserves_bind {A B} σ0 (m : Py A) (f : A → Py B) (Q : A → Prop) (R : B → Prop) :
  preserves σ0 m Q → (∀ a, Q a → preserves σ0 (f a) R) → preserves σ0 (m ≫= f) R.
Proof.
  intros Hm Hf σ Hσ. destruct (Hm σ Hσ) as [Hpre HQ].
  unfold mbind, Py_bind. destruct (m σ) as [[a|e] σ'] eqn:E; simpl in *.
  - apply (Hf a); auto.
  - split; [done|]. done.
Qed.

Lemma preserves_alloc σ0 o : preserves σ0 (alloc o) (λ l, (length σ0 ≤ l)%nat).
Proof.
  intros σ Hσ. unfold alloc. simpl. split.
  - by apply prefix_app_r.
  - intros ? [= <-]. by apply prefix_length.
Qed.

Lemma preserves_load σ0 l : preserves σ0 (load_frame l) (λ _, True).
Proof.
  intros σ Hσ. unfold load_frame. by repeat case_match.
Qed.

Lemma preserves_store σ0 l df :
  (length σ0 ≤ l)%nat → preserves σ0 (store_frame l df) (λ _, True).
Proof.
  intros Hl σ [k ->]. unfold store_frame.
  cbv beta. repeat case_match; cbn [fst snd]; (split; [|done]); try by eexists.
  rewrite insert_app_r_alt by done. by eexists.
Qed.

Lemma preserves_pd_DataFrame σ0 x : preserves σ0 (pd_DataFrame x) (λ l, (length σ0 ≤ l)%nat).
Proof.
  intros σ Hσ. unfold pd_DataFrame.
  repeat case_match; try by apply preserves_alloc. done.
Qed.

Lemma preserves_get_index σ0 l : preserves σ0 (get_index l) (λ _, True).
Proof.
  unfold get_index. eapply preserves_bind; [apply preserves_load|].
  intros df _. by apply preserves_ret.
Qed.

Lemma preserves_set_index σ0 l i :
  (length σ0 ≤ l)%nat → preserves σ0 (set_index l i) (λ _, True).
Proof.
  intros Hl. unfold set_index. eapply preserves_bind; [apply preserves_load|].
  intros df _. by apply preserves_store.
Qed.

Lemma preserves_getitem σ0 l name : preserves σ0 (getitem l name) (λ _, True).
Proof.
  unfold getitem. eapply preserves_bind; [apply preserves_load|].
  intros df _. apply preserves_lift.
Qed.

Lemma preserves_setitem σ0 l name s :
  (length σ0 ≤ l)%nat → preserves σ0 (setitem l name s) (λ _, True).
Proof.
  intros Hl. unfold setitem. eapply preserves_bind; [apply preserves_load|].
  intros df _. by apply preserves_store.
Qed.

Lemma preserves_reset_index σ0 l :
  preserves σ0 (reset_index l) (λ l', (length σ0 ≤ l')%nat).
Proof.
  unfold reset_index. eapply preserves_bind; [apply preserves_load|].
  intros df _. eapply preserves_bind; [apply preserves_lift|].
  intros df' _. apply preserves_alloc.
Qed.

Lemma preserves_rename_inplace σ0 l old new :
  (length σ0 ≤ l)%nat → preserves σ0 (rename_inplace l old new) (λ _, True).
Proof.
  intros Hl. unfold rename_inplace. eapply preserves_bind; [apply preserves_load|].
  intros df _. by apply preserves_store.
Qed.

Ltac preserves_step :=
  eapply preserves_bind;
  [ first [ apply preserves_lift | apply preserves_getitem | apply preserves_get_index
          | apply preserves_pd_DataFrame | apply preserves_reset_index
          | by apply preserves_setitem | by apply preserves_set_index
          | by apply preserves_rename_inplace ]
  | intros ? ? ].

Lemma preserves_transform_data parse σ0 historical_data countries_data :
  preserves σ0 (transform_data parse historical_data countries_data) (λ _, True).
Proof.
  unfold transform_data. repeat preserves_step. by apply preserves_ret.
Qed.

(** ** Division by a zero count or a zero total *)

Lemma div_zero_scaled b k :
  (Z.abs b < 2 ^ 1023)%Z → (0 < k < 2 ^ 53)%Z →
  np.mul (np.div (np.of_int b) np.zero) (np.of_int k)
  = if (b =? 0)%Z then np.nan else S754_infinity (b <? 0)%Z.
Proof.
  intros Hb Hk. destruct k as [|k|k]; try lia. rewrite (of_int_pos k) by lia.
  destruct (Z.eqb_spec b 0) as [->|Hne]; [reflexivity|].
  destruct (of_int_finite b Hne Hb) as (m & e & ->).
  simpl. by rewrite !xorb_false_r.
Qed.

Lemma int64_range_abs b : np.int64_range b → (Z.abs b < 2 ^ 1023)%Z.
Proof.
  unfold np.int64_range. intros H.
  assert (2 ^ 63 < 2 ^ 1023)%Z by (apply Z.pow_lt_mono_r; lia). lia.
Qed.

Lemma per_million_defined z s m e :
  np.isnan (np.mul (np.div (np.of_int z) (S754_finite s m e)) (np.of_int 1000000)) = false.
Proof.
  rewrite (of_int_pos 1000000) by lia.
  apply mul_not_nan, div_not_nan, of_int_not_nan.
Qed.

(** ** The moving average of the deltas of an [int64] column *)

Lemma ma7_rule_diff_int64 cs :
  ma7_rule cs (diff_int64 cs) (rolling_mean 7 (diff_int64 cs)).
Proof.
  split; [by rewrite length_rolling_mean, length_diff_int64|].
  intros i Hi. exists (rolling_mean_at 7 (diff_int64 cs) i).
  assert (Hne : cs ≠ []) by (intros ->; simpl in Hi; lia).
  split; [by rewrite lookup_rolling_mean by (by rewrite length_diff_int64)|].
  split; [split|].
  - intros Hdef. destruct (le_lt_dec 7 i) as [|Hlt]; [done|].
    rewrite rolling_mean_at_early in Hdef; [done | by apply lookup_diff_int64_0 | done].
  - intros H7. apply rolling_mean_at_full_defined;
      [apply diff_int64_finite | done | by rewrite length_diff_int64].
  - intros H7 Hbound a b Ha Hb.
    destruct (window_deltas cs i a b H7 Ha Hb Hbound) as (deltas & Hw & Hl & Hs).
    exists deltas. split; [done|]. split; [done|]. split; [done|].
    assert (Hx : rolling_mean_at 7 (diff_int64 cs) i
                 = np.div (np.of_int (sum_list deltas)) (np.of_int 7)).
    { rewrite rolling_mean_at_full;
        [| apply diff_int64_finite | done | by rewrite length_diff_int64].
      by rewrite (window_sum_exact cs i a b), Hs. }
    split; [|exact Hx]. rewrite Hx. apply div_of_int_nearest; [|lia].
    rewrite Forall_lookup in Hbound.
    pose proof (Hbound _ _ Ha). pose proof (Hbound _ _ Hb). simpl in *. lia.
Qed.

(** The counts of an [int64] column are counts of the payload. *)
Lemma int_series_int64 h name cs :
  int64_counts h → int_series h name cs → Forall np.int64_range cs.
Proof.
  intros Hh (d & Hd & _ & Hcs)%int_series_iff.
  assert (Hin : ∀ (m : pydict (pydict Z)), dict_get name m = Some d → (name, d) ∈ m).
  { induction m as [|[k' d'] m IH]; simpl; [done|].
    case_bool_decide; [intros [= ->]; subst; left | right; auto]. }
  assert (Hcell : ∀ (m : pydict Z) k n, dict_get k m = Some n → (k, n) ∈ m).
  { induction m as [|[k' n'] m IH]; simpl; intros k n; [done|].
    case_bool_decide; [intros [= ->]; subst; left | right; auto]. }
  unfold int64_counts in Hh. rewrite Forall_forall in Hh.
  specialize (Hh _ (Hin h Hd)). simpl in Hh. rewrite Forall_forall in Hh.
  apply mapM_Some in Hcs. apply Forall_forall. intros n Hn.
  apply list_elem_of_lookup in Hn as [i Hi].
  destruct (Forall2_lookup_r _ _ _ _ _ Hcs Hi) as (k & _ & Hk).
  exact (Hh _ (Hcell _ _ _ Hk)).
Qed.

(** ** The population column *)

Lemma elem_of_concat {A} (x : A) (ls : list (list A)) :
  x ∈ concat ls ↔ ∃ l, l ∈ ls ∧ x ∈ l.
Proof.
  rewrite list_elem_of_In, in_concat. split; intros (l & H1 & H2); exists l;
    by rewrite ?list_elem_of_In in *.
Qed.

Lemma elem_of_unique_concat_keys (c : countries) k :
  k ∈ unique (concat (dict_keys <$> c)) ↔ Exists (λ d, is_Some (dict_get k d)) c.
Proof.
  rewrite elem_of_unique, Exists_exists, elem_of_concat. split.
  - intros (l & Hl & Hk).
    apply list_elem_of_fmap in Hl as (d & -> & Hd).
    exists d. split; [done|]. by apply dict_get_is_Some.
  - intros (d & Hd & Hk). exists (dict_keys d).
    split; [by apply list_elem_of_fmap_2 | by apply dict_get_is_Some].
Qed.

Lemma population_cells c :
  Forall (λ d, ¬ population_is_text d) c →
  let cells := (λ d, cell_of_json (dict_get "population" d)) <$> c in
  existsb is_str cells = false ∧
  filter (λ x, np.isnan x = false) (cell_float <$> cells) = np.of_int <$> population_values c ∧
  (forallb is_int cells = true → cell_int <$> cells = population_values c) ∧
  (existsb is_int cells = false → population_values c = []) ∧
  (existsb is_int cells = false → existsb is_nan cells = false → forallb is_none cells = true).
Proof.
  induction 1 as [|d c Hd _ IH]; [done|].
  destruct IH as (IH1 & IH2 & IH3 & IH4 & IH5).
  unfold population_values in *. csimpl.
  destruct (dict_get "population" d) as [[|n|s]|] eqn:E; csimpl.
  - rewrite filter_cons_False by done. naive_solver.
  - rewrite filter_cons_True by apply of_int_not_nan.
    rewrite IH2. repeat split; try done. intros ?. f_equal. auto.
  - destruct Hd. by exists s.
  - rewrite filter_cons_False by done. naive_solver.
Qed.


Lemma per_million_nan_iff z t :
  (Z.abs z < 2 ^ 1023)%Z → np.isnan t = false →
  np.isnan (np.mul (np.div (np.of_int z) t) (np.of_int 1000000)) = true
  ↔ np.iszero t = true ∧ z = 0%Z.
Proof.
  intros Hz Ht. rewrite (of_int_pos 1000000) by lia.
  destruct t as [s|s| |s m e]; try discriminate.
  - destruct (Z.eq_dec z 0) as [->|Hne]; [by split|].
    destruct (of_int_finite z Hne Hz) as (m & e & ->). naive_solver.
  - destruct (Z.eq_dec z 0) as [->|Hne]; [by split; [|intros []]|].
    destruct (of_int_finite z Hne Hz) as (m & e & ->). by split; [|intros []].
  - rewrite mul_not_nan by apply div_not_nan, of_int_not_nan.
    by split; [|intros []].
Qed.

Lemma population_floats_finite c :
  Forall np.int64_range (population_values c) →
  Forall (λ x, np.isfinite x = true)
    (filter (λ x, np.isnan x = false)
       (cell_float <$> ((λ d, cell_of_json (dict_get "population" d)) <$> c))).
Proof.
  unfold population_values. induction c as [|d c IH]; csimpl; [constructor|].
  destruct (dict_get "population" d) as [[|n|s]|]; csimpl; intros H.
  - rewrite filter_cons_False by done. auto.
  - apply Forall_cons in H as [Hn H].
    rewrite filter_cons_True by apply of_int_not_nan.
    constructor; [|auto]. by apply of_int_isfinite, int64_range_abs.
  - rewrite filter_cons_False by done. auto.
  - rewrite filter_cons_False by done. auto.
Qed.

(** The population total is a number. *)
Lemma total_population_float_not_nan c t :
  total_population_float c = Ok t → Forall np.int64_range (population_values c) →
  np.isnan t = false.
Proof.
  intros (s & Hs & Ht)%total_population_float_Ok Hrange.
  revert Hs. unfold total_population, DataFrame_getitem, DataFrame_from_records.
  cbn [df_columns].
  rewrite (dict_get_names
             (λ name, convert_objects ((λ d, cell_of_json (dict_get name d)) <$> c))).
  case_bool_decide; [|done]. cbv [mbind pyresult_bind].
  unfold convert_objects.
  repeat case_match; cbn [Series_sum]; repeat case_match; intros [= <-];
    cbn [Scalar_float] in Ht; simplify_eq;
    try done; try apply of_int_not_nan;
    by apply fsum_not_nan, population_floats_finite.
Qed.

(** A snapshot with a population field and no text population has a
    total. *)
Lemma total_population_float_defined c :
  Exists has_population c → Forall (λ d, ¬ population_is_text d) c →
  ∃ x, total_population_float c = Ok x.
Proof.
  intros Hex Htext.
  destruct (population_cells c Htext) as (Hstr & _ & _ & _ & Hnull).
  cut (∃ t x, total_population c = Ok t ∧ Scalar_float t = Ok x).
  { intros (t & x & Ht & Hx). exists x. apply total_population_float_Ok. eauto. }
  unfold total_population, DataFrame_getitem, DataFrame_from_records. cbn [df_columns].
  rewrite (dict_get_names
             (λ name, convert_objects ((λ d, cell_of_json (dict_get name d)) <$> c))).
  rewrite bool_decide_eq_true_2 by (by apply elem_of_unique_concat_keys).
  cbv [mbind pyresult_bind]. unfold convert_objects. rewrite Hstr.
  destruct (existsb is_int _) eqn:Ei.
  - destruct (forallb is_int _); do 2 eexists; split; reflexivity.
  - destruct (existsb is_nan _) eqn:En.
    + do 2 eexists; split; reflexivity.
    + cbn [Series_sum]. rewrite Hnull by done. do 2 eexists. split; reflexivity.
Qed.

(** * The properties of the specification *)

Section Claims.

Variable parse_datetime : string → option Timestamp.

(** C1, as the code has it. [transform_data] never sorts: on every accepted
    payload with N distinct date keys it returns exactly N records, one per
    key, in the order in which the keys first appear in the payload; the
    date of record i is the reading of key i. The records are therefore in
    strictly ascending date order exactly when the keys of the payload
    are. *)
Theorem C1_rows_follow_input_order h c :
  accepted parse_datetime h c → "index" ∉ dict_keys h →
  ∃ df ts,
    transform parse_datetime h c = Ok df ∧
    mapM parse_datetime (labels h) = Some ts ∧
    NoDup (labels h) ∧
    nrows df = length (labels h) ∧
    dates df = ts ∧
    ∀ name s, (name, s) ∈ df_columns df → Series_length s = length (labels h).
Proof.
  intros Hacc Hidx. destruct (accepted_enrich _ _ _ Hacc) as [df Hdf].
  rewrite <- transform_enrich in Hdf.
  destruct (transform_Ok_view _ _ _ _ Hdf) as (ts & t & x & Hts & Hn & _ & _ & Hd & _).
  exists df, ts. repeat split; try done.
  - apply NoDup_unique.
  - by apply Hd.
  - intros name s Hin. rewrite <- Hn. by eapply transform_columns_length.
Qed.

(** C2, as the code has it. When [transform_data] returns, every count of
    the payload fits [int64] and the cases (deaths) series has a count for
    every date, [cases_ma7[i]] ([deaths_ma7[i]]) is defined if and only if
    [i >= 7]. For counts below [2^52] in magnitude the seven deltas
    [new_cases[i-6..i]] are then the floats of integers that add up to
    [cases[i] - cases[i-7]], and [cases_ma7[i]] is the binary64 nearest to
    the seventh of their sum. A window that reaches row 0 gives NaN. Where
    a series lacks the count of a date the rule fails: the rows whose
    window meets the gap are NaN. *)
Theorem C2_moving_average_window h c df cs ds :
  transform parse_datetime h c = Ok df → int64_counts h →
  int_series h "cases" cs → int_series h "deaths" ds →
  ma7_rule cs (floats df "new_cases") (floats df "cases_ma7") ∧
  ma7_rule ds (floats df "new_deaths") (floats df "deaths_ma7").
Proof.
  intros Hdf _ Hcs Hds.
  destruct (transform_Ok_view _ _ _ _ Hdf) as (ts & t & x & _ & _ & _ & _ & _ & _ & Hc & Hd).
  destruct (Hc cs Hcs) as (_ & (_ & -> & -> & _) & _).
  destruct (Hd ds Hds) as (_ & (_ & -> & -> & _)).
  split; apply ma7_rule_diff_int64.
Qed.

(** C3, as the code has it. The division is not guarded. On an accepted
    payload whose counts and populations fit [int64] and whose cases series
    has a count for every date, nothing is raised, and on a row whose
    previous count is 0, [new_cases] is defined: it is the binary64 nearest
    to the count of the row itself, which is that count exactly when it is
    below [2^53] in magnitude; [growth_rate] is NaN only if that count is 0
    too, and otherwise infinite, with the sign of the count. *)
Theorem C3_growth_rate_after_zero h c cs i b :
  accepted parse_datetime h c → int64_counts h →
  Forall np.int64_range (population_values c) →
  int_series h "cases" cs →
  cs !! i = Some 0%Z → cs !! S i = Some b →
  ∃ df x,
    transform parse_datetime h c = Ok df ∧
    floats df "new_cases" !! S i = Some x ∧ x = np.of_int b ∧
    np.isnan x = false ∧
    ((Z.abs b < 2 ^ 53)%Z → np.to_int x = Some b) ∧
    floats df "growth_rate" !! S i
    = Some (if (b =? 0)%Z then np.nan else S754_infinity (b <? 0)%Z).
Proof.
  intros Hacc Hh _ Hcs Ha Hb. destruct (accepted_enrich _ _ _ Hacc) as [df Hdf].
  assert (Hrange : np.int64_range b).
  { pose proof (int_series_int64 _ _ _ Hh Hcs) as Hall.
    rewrite Forall_lookup in Hall. by eapply Hall. }
  rewrite <- transform_enrich in Hdf. exists df, (np.of_int b). split; [done|].
  destruct (transform_Ok_view _ _ _ _ Hdf) as (ts & t & x & _ & _ & _ & _ & _ & _ & Hc & _).
  destruct (Hc cs Hcs) as (_ & (_ & Hnc & _) & Hgr).
  assert (Hlen : (S i < length cs)%nat) by (by eapply lookup_lt_Some).
  assert (Hd : diff_int64 cs !! S i = Some (np.of_int b)).
  { rewrite (lookup_diff_int64_S cs i 0 b) by done.
    by rewrite Z.sub_0_r, wrap64_id. }
  split; [by rewrite Hnc|]. split; [done|]. split; [apply of_int_not_nan|].
  split; [apply to_int_of_int|].
  rewrite Hgr, list_lookup_fmap, lookup_zip_with, Hd. cbn [mbind option_bind].
  rewrite lookup_shift1_S by (by rewrite length_fmap).
  rewrite list_lookup_fmap, Ha. cbn [fmap option_fmap option_map mbind option_bind].
  f_equal. rewrite of_int_zero. apply div_zero_scaled; [by apply int64_range_abs | lia].
Qed.

(** C4, as the code has it. The division is not guarded. On an accepted
    payload whose counts fit [int64] and whose cases and deaths series have
    a count for every date, with populations below [2^53] in total
    magnitude whose total is 0, nothing is raised, and on every row
    [cases_per_million] is NaN where the count is 0 and infinite, with the
    sign of the count, where it is not; likewise [deaths_per_million]. *)
Theorem C4_zero_population h c cs ds :
  accepted parse_datetime h c → int64_counts h →
  (sum_abs (population_values c) < 2 ^ 53)%Z →
  total_population_float c = Ok np.zero →
  int_series h "cases" cs → int_series h "deaths" ds →
  ∃ df,
    transform parse_datetime h c = Ok df ∧
    floats df "cases_per_million"
    = (λ n, if (n =? 0)%Z then np.nan else S754_infinity (n <? 0)%Z) <$> cs ∧
    floats df "deaths_per_million"
    = (λ n, if (n =? 0)%Z then np.nan else S754_infinity (n <? 0)%Z) <$> ds.
Proof.
  intros Hacc Hh _ Hzero Hcs Hds. destruct (accepted_enrich _ _ _ Hacc) as [df Hdf].
  pose proof (int_series_int64 _ _ _ Hh Hcs) as Hrc.
  pose proof (int_series_int64 _ _ _ Hh Hds) as Hrd.
  rewrite <- transform_enrich in Hdf. exists df. split; [done|].
  destruct (transform_Ok_view _ _ _ _ Hdf) as (ts & t & x & _ & _ & Ht & Hx & _ & _ & Hc & Hd).
  apply total_population_float_Ok in Hzero as (t' & Ht' & Hx').
  rewrite Ht in Ht'. injection Ht' as <-. rewrite Hx in Hx'. injection Hx' as ->.
  destruct (Hc cs Hcs) as (_ & (_ & _ & _ & ->) & _).
  destruct (Hd ds Hds) as (_ & (_ & _ & _ & ->)).
  split; rewrite <- !list_fmap_compose; apply Forall_fmap_ext_1;
    (eapply Forall_impl; [eassumption|]); intros n Hn; cbn [compose];
    (apply div_zero_scaled; [by apply int64_range_abs | lia]).
Qed.

(** C5, as the code has it. When the payload holds the cases and deaths
    series, not both a series named [index] and one named [level_0], and no
    date, and the snapshot has a population field, no text population and
    populations that fit [int64], [transform_data] raises nothing and
    returns a table without rows: every column is empty. *)
Theorem C5_no_dates_no_rows h c :
  is_Some (dict_get "cases" h) → is_Some (dict_get "deaths" h) →
  ¬ ("index" ∈ dict_keys h ∧ "level_0" ∈ dict_keys h) →
  labels h = [] →
  Exists has_population c → Forall (λ d, ¬ population_is_text d) c →
  Forall np.int64_range (population_values c) →
  ∃ df,
    transform parse_datetime h c = Ok df ∧ nrows df = 0%nat ∧
    ∀ name s, (name, s) ∈ df_columns df → Series_length s = 0%nat.
Proof.
  intros Hcases Hdeaths Hnames Hl Hex Htext _.
  assert (Hacc : accepted parse_datetime h c).
  { split; [done|]. split; [done|]. split; [by rewrite Hl; eexists|].
    split; [by apply total_population_float_defined | done]. }
  destruct (accepted_enrich _ _ _ Hacc) as [df Hdf].
  rewrite <- transform_enrich in Hdf. exists df. split; [done|].
  destruct (transform_Ok_view _ _ _ _ Hdf) as (ts & t & x & _ & Hn & _).
  rewrite Hl in Hn. split; [done|].
  intros name s Hin. rewrite (transform_columns_length _ _ _ _ _ _ Hdf Hin). exact Hn.
Qed.

(** C6, as the code has it. On the first record [new_cases], [new_deaths],
    [growth_rate], [cases_ma7] and [deaths_ma7] are NaN whatever the
    counts are, and [cases] and [deaths] are the first counts of the
    payload. [cases_per_million] is defined on it unless the population
    total is 0 and the first count of cases is 0 too; likewise
    [deaths_per_million]. *)
Theorem C6_first_record h c df c0 cs d0 ds :
  transform parse_datetime h c = Ok df →
  int_series h "cases" (c0 :: cs) → int_series h "deaths" (d0 :: ds) →
  np.int64_range c0 → np.int64_range d0 →
  Forall np.int64_range (population_values c) →
  floats df "new_cases" !! 0%nat = Some np.nan ∧
  floats df "new_deaths" !! 0%nat = Some np.nan ∧
  floats df "growth_rate" !! 0%nat = Some np.nan ∧
  floats df "cases_ma7" !! 0%nat = Some np.nan ∧
  floats df "deaths_ma7" !! 0%nat = Some np.nan ∧
  ints df "cases" !! 0%nat = Some c0 ∧
  ints df "deaths" !! 0%nat = Some d0 ∧
  ∃ t x y,
    total_population_float c = Ok t ∧
    floats df "cases_per_million" !! 0%nat = Some x ∧
    floats df "deaths_per_million" !! 0%nat = Some y ∧
    (np.isnan x = true ↔ np.iszero t = true ∧ c0 = 0%Z) ∧
    (np.isnan y = true ↔ np.iszero t = true ∧ d0 = 0%Z).
Proof.
  intros Hdf Hcs Hds Hc0 Hd0 Hpop.
  destruct (transform_Ok_view _ _ _ _ Hdf) as (ts & t & x & _ & _ & Ht & Hx & _ & _ & Hc & Hd).
  destruct (Hc _ Hcs) as (_ & (-> & -> & -> & Hcpm) & ->).
  destruct (Hd _ Hds) as (_ & (-> & -> & -> & Hdpm)).
  repeat split; try reflexivity.
  assert (Htot : total_population_float c = Ok x)
    by (apply total_population_float_Ok; eauto).
  pose proof (total_population_float_not_nan _ _ Htot Hpop) as Hnan.
  rewrite Hcpm, Hdpm. exists x. do 2 eexists.
  split; [done|]. split; [reflexivity|]. split; [reflexivity|].
  split; apply per_million_nan_iff; auto using int64_range_abs.
Qed.

(** C7, as the code has it. When [transform_data] returns, every count of
    the payload fits [int64] and the cases series has a count for every
    date, [new_cases[i]] is the difference [cases[i] - cases[i-1]] taken
    in [int64], where it wraps around: the float of the one integer [n]
    of [int64] that differs from it by a multiple of [2^64]. It holds
    [cases[i] - cases[i-1]] exactly whenever that difference is below
    [2^53] in magnitude; likewise [new_deaths]. *)
Theorem C7_delta_exact_below_2_53 h c df cs ds :
  transform parse_datetime h c = Ok df → int64_counts h →
  int_series h "cases" cs → int_series h "deaths" ds →
  (∀ i a b, cs !! i = Some a → cs !! S i = Some b →
     ∃ n x, floats df "new_cases" !! S i = Some x ∧ x = np.of_int n ∧
            np.int64_range n ∧ ((n - (b - a)) mod 2 ^ 64 = 0)%Z ∧
            ((Z.abs (b - a) < 2 ^ 53)%Z → np.to_int x = Some (b - a)%Z)) ∧
  (∀ i a b, ds !! i = Some a → ds !! S i = Some b →
     ∃ n x, floats df "new_deaths" !! S i = Some x ∧ x = np.of_int n ∧
            np.int64_range n ∧ ((n - (b - a)) mod 2 ^ 64 = 0)%Z ∧
            ((Z.abs (b - a) < 2 ^ 53)%Z → np.to_int x = Some (b - a)%Z)).
Proof.
  intros Hdf _ Hcs Hds.
  destruct (transform_Ok_view _ _ _ _ Hdf) as (ts & t & x & _ & _ & _ & _ & _ & _ & Hc & Hd).
  destruct (Hc _ Hcs) as (_ & (_ & -> & _) & _).
  destruct (Hd _ Hds) as (_ & (_ & -> & _)).
  split; intros i a b Ha Hb; exists (np.wrap64 (b - a)); eexists;
    (split; [by eapply lookup_diff_int64_S|]); (split; [reflexivity|]);
    (split; [apply wrap64_range|]); (split; [apply wrap64_congruent|]);
    intros Hbound; rewrite wrap64_id by lia; by apply to_int_of_int.
Qed.

(** C9, as the code has it. Every series of the payload is kept. The
    columns of the result are: the dates, under the name [date], or
    [level_0] when the payload has a series named [index]; then the series
    of the payload in the payload's order, a series named [index] under
    the name [date]; then those of the seven derived columns whose names
    are not names of series of the payload. A derived column that has the
    name of a series of the payload is at the place of that series. With
    no series named [index] or like a derived column these are [date], the
    series of the payload and the seven derived columns; with exactly the
    series cases and deaths they are the ten fields the specification
    lists, in its order. *)
Theorem C9_columns_of_the_result h c df :
  transform parse_datetime h c = Ok df →
  dict_keys (df_columns df)
  = (if bool_decide ("index" ∈ dict_keys h) then "level_0" else "date")
    :: ((λ k, if bool_decide (k = "index") then "date" else k)
          <$> (dict_keys h ++ filter (λ n, n ∉ dict_keys h) derived_names)) ∧
  ("index" ∉ dict_keys h → (∀ n, n ∈ derived_names → n ∉ dict_keys h) →
   dict_keys (df_columns df) = "date" :: dict_keys h ++ derived_names) ∧
  (dict_keys h = ["cases"; "deaths"] →
   dict_keys (df_columns df)
   = ["date"; "cases"; "deaths"; "new_cases"; "new_deaths"; "growth_rate";
      "cases_ma7"; "deaths_ma7"; "cases_per_million"; "deaths_per_million"]).
Proof.
  intros Hdf.
  assert (Hkeys : dict_keys (df_columns df)
    = (if bool_decide ("index" ∈ dict_keys h) then "level_0" else "date")
      :: ((λ k, if bool_decide (k = "index") then "date" else k)
            <$> (dict_keys h ++ filter (λ n, n ∉ dict_keys h) derived_names))).
  { rewrite transform_enrich in Hdf.
    apply enrich_Ok_inv in Hdf
      as (ts & cases & deaths & nc & nd & gr & cma & dma & t & cpm & dpm & _ & _ & _
          & _ & _ & _ & _ & _ & _ & _ & _ & _ & ->).
    unfold DataFrame_rename. cbn [df_columns]. rewrite dict_keys_renamed.
    rewrite dict_keys_cons, fmap_cons, dict_keys_add_derived_any, from_dict_keys.
    f_equal. unfold index_name.
    assert (Hiff : "index" ∈ dict_keys (add_derived nc nd gr cma dma cpm dpm
                                          (df_columns (DataFrame_from_dict h)))
                   ↔ "index" ∈ dict_keys h).
    { rewrite elem_of_keys_add_derived, from_dict_keys.
      pose proof index_not_derived. tauto. }
    destruct (decide ("index" ∈ dict_keys h)) as [Hi|Hi].
    - rewrite (bool_decide_eq_true_2 _ (proj2 Hiff Hi)).
      by rewrite (bool_decide_eq_true_2 _ Hi).
    - rewrite (bool_decide_eq_false_2 _ (λ Hin, Hi (proj1 Hiff Hin))).
      by rewrite (bool_decide_eq_false_2 _ Hi). }
  split; [exact Hkeys|]. split.
  - destruct (transform_Ok_view _ _ _ _ Hdf) as (ts & t & x & _ & _ & _ & _ & _ & Hk & _).
    intros Hidx Hder. by apply Hk.
  - intros Hh. rewrite Hkeys, Hh. reflexivity.
Qed.

(** C10. [transform_data] changes no object that existed before the call,
    so neither of its two arguments: the store it leaves is the store it
    found, followed by the frames it built. *)
Theorem C10_arguments_untouched (σ : store) (historical_data countries_data : loc) :
  ∃ new, (transform_data parse_datetime historical_data countries_data σ).2 = σ ++ new.
Proof.
  destruct (preserves_transform_data parse_datetime σ historical_data countries_data σ)
    as [Hpre _]; [done|]. exact Hpre.
Qed.

End Claims.

(** C8, as the code has it. When at least one country carries a population
    field, no population is text, and the populations stay below [2^53] in
    total, the population total is the sum of the populations that are
    present and not null; null and absent populations add nothing. It is
    the one number both per-million columns divide by. *)
Theorem C8_population_total c :
  Exists has_population c → Forall (λ d, ¬ population_is_text d) c →
  (sum_abs (population_values c) < 2 ^ 53)%Z →
  ∃ t total,
    total = sum_list (population_values c) ∧
    total_population c = Ok t ∧
    Scalar_float t = Ok (np.of_int total) ∧
    np.to_int (np.of_int total) = Some total ∧
    ∀ parse h df cs ds,
      transform parse h c = Ok df →
      int_series h "cases" cs → int_series h "deaths" ds →
      floats df "cases_per_million"
      = (λ n, np.mul (np.div (np.of_int n) (np.of_int total)) (np.of_int 1000000)) <$> cs ∧
      floats df "deaths_per_million"
      = (λ n, np.mul (np.div (np.of_int n) (np.of_int total)) (np.of_int 1000000)) <$> ds.
Proof.
  intros Hex Htext Hsum.
  pose proof (sum_list_abs (population_values c)) as Habs.
  destruct (population_cells c Htext) as (Hstr & Hflt & Hint & Hnone & Hnull).
  assert (Htot : ∃ t, total_population c = Ok t ∧
                      Scalar_float t = Ok (np.of_int (sum_list (population_values c)))).
  { unfold total_population, DataFrame_getitem, DataFrame_from_records. cbn [df_columns].
    rewrite (dict_get_names
               (λ name, convert_objects ((λ d, cell_of_json (dict_get name d)) <$> c))).
    rewrite bool_decide_eq_true_2 by (by apply elem_of_unique_concat_keys).
    cbv [mbind pyresult_bind]. unfold convert_objects. rewrite Hstr.
    destruct (existsb is_int _) eqn:Ei.
    - destruct (forallb is_int _) eqn:Ea.
      + rewrite Hint by done. eexists. split; [reflexivity|].
        fold (sum_list (population_values c)). by rewrite wrap64_id by lia.
      + eexists. split; [reflexivity|]. cbn [Series_sum Scalar_float].
        by rewrite Hflt, fsum_of_int by done.
    - rewrite Hnone by done.
      destruct (existsb is_nan _) eqn:En.
      + eexists. split; [reflexivity|]. cbn [Series_sum Scalar_float].
        rewrite Hflt, Hnone by done. done.
      + cbn [Series_sum]. rewrite Hnull by done. eexists. done. }
  destruct Htot as (t & Ht & Hx). exists t, (sum_list (population_values c)).
  split; [done|]. split; [done|]. split; [done|]. split; [apply to_int_of_int; lia|].
  intros parse h df cs ds Hdf Hcs Hds.
  destruct (transform_Ok_view _ _ _ _ Hdf)
    as (ts & t' & x & _ & _ & Ht' & Hx' & _ & _ & Hc & Hd).
  rewrite Ht in Ht'. injection Ht' as <-. rewrite Hx in Hx'. injection Hx' as <-.
  destruct (Hc cs Hcs) as (_ & (_ & _ & _ & ->) & _).
  destruct (Hd ds Hds) as (_ & (_ & _ & _ & ->)).
  by rewrite <- !list_fmap_compose.
Qed.

(** * The properties on sample payloads *)

Ltac evaluate := vm_compute; reflexivity.
Ltac absent := apply (bool_decide_unpack _); vm_compute; exact I.

Ltac accept :=
  repeat split;
  [ eexists; evaluate | eexists; evaluate | eexists; evaluate | eexists; evaluate
  | intros [H _]; revert H; absent ].

Ltac in_range :=
  unfold int64_counts;
  repeat first [apply Forall_nil_2 | apply Forall_cons_2];
  simpl; unfold np.int64_range; lia.

Lemma accepted_scenario_A c :
  c = one_country ∨ c = null_countries → accepted parse_date scenario_A c.
Proof. intros [-> | ->]; accept. Qed.

Lemma accepted_scenario_C : accepted parse_date scenario_C one_country.
Proof. accept. Qed.

Lemma accepted_no_dates : accepted parse_date no_dates one_country.
Proof. accept. Qed.

(** Scenario A of the specification: row 2 has [new_cases = 2],
    [growth_rate = 200.0], [cases_per_million = 3.0] and no moving
    average. *)
Example scenario_A_row_2 :
  ∃ df,
    transform parse_date scenario_A one_country = Ok df ∧
    floats df "new_cases" !! 1%nat = Some (np.of_int 2) ∧
    floats df "growth_rate" !! 1%nat = Some (np.of_int 200) ∧
    floats df "cases_per_million" !! 1%nat = Some (np.of_int 3) ∧
    floats df "cases_ma7" !! 1%nat = Some np.nan.
Proof. eexists. split; [evaluate|]. repeat split. Qed.

(** Scenario B of the specification: eight days whose deltas are six times
    10 and then 70; the moving average of day 8 is 130/7. *)
Example scenario_B_day_8 :
  ∃ df,
    transform parse_date scenario_B one_country = Ok df ∧
    floats df "cases_ma7" !! 6%nat = Some np.nan ∧
    floats df "cases_ma7" !! 7%nat = Some (np.div (np.of_int 130) (np.of_int 7)).
Proof. eexists. split; [evaluate|]. repeat split. Qed.

(** C1 fails as stated: two dates given latest first come out latest
    first. *)
Lemma C1_counterexample :
  ∃ df d0 d1,
    transform parse_date descending one_country = Ok df ∧
    nrows df = 2%nat ∧ dates df = [d0; d1] ∧ (d1 < d0)%Z.
Proof. do 3 eexists. split; [evaluate|]. repeat split. Qed.

Lemma C1_witness :
  accepted parse_date scenario_A one_country ∧ ("index" ∉ dict_keys scenario_A) ∧
  ∃ df ts,
    transform parse_date scenario_A one_country = Ok df ∧
    mapM parse_date (labels scenario_A) = Some ts ∧
    NoDup (labels scenario_A) ∧
    nrows df = length (labels scenario_A) ∧
    dates df = ts ∧
    ∀ name s, (name, s) ∈ df_columns df → Series_length s = length (labels scenario_A).
Proof.
  assert (Ha : accepted parse_date scenario_A one_country) by (apply accepted_scenario_A; auto).
  assert (Hi : "index" ∉ dict_keys scenario_A) by absent.
  split; [exact Ha|]. split; [exact Hi|].
  exact (C1_rows_follow_input_order parse_date scenario_A one_country Ha Hi).
Defined.

(** C2 fails as stated: the cases series lacks the count of the eighth
    date, and [cases_ma7[7]] is undefined. *)
Lemma C2_counterexample :
  ∃ df,
    transform parse_date short_cases one_country = Ok df ∧
    nrows df = 8%nat ∧
    floats df "cases_ma7" !! 7%nat = Some np.nan.
Proof. eexists. split; [evaluate|]. repeat split. Qed.

Lemma C2_witness :
  ∃ df,
    transform parse_date scenario_B one_country = Ok df ∧
    int64_counts scenario_B ∧
    int_series scenario_B "cases" [5; 15; 25; 35; 45; 55; 65; 135]%Z ∧
    int_series scenario_B "deaths" [0; 1; 1; 2; 2; 3; 3; 4]%Z ∧
    ma7_rule [5; 15; 25; 35; 45; 55; 65; 135]%Z
      (floats df "new_cases") (floats df "cases_ma7") ∧
    ma7_rule [0; 1; 1; 2; 2; 3; 3; 4]%Z
      (floats df "new_deaths") (floats df "deaths_ma7").
Proof.
  assert (Hr : int64_counts scenario_B) by in_range.
  eexists. split; [evaluate|]. split; [exact Hr|]. split; [evaluate|]. split; [evaluate|].
  apply (C2_moving_average_window parse_date scenario_B one_country);
    [evaluate | exact Hr | evaluate | evaluate].
Defined.

(** C3 fails as stated: after a count of 0, a count of 5 gives an infinite
    growth rate. *)
Lemma C3_counterexample :
  ∃ df,
    transform parse_date scenario_C one_country = Ok df ∧
    ints df "cases" = [0; 5]%Z ∧
    floats df "growth_rate" !! 1%nat = Some np.inf.
Proof. eexists. split; [evaluate|]. repeat split. Qed.

Lemma C3_witness :
  accepted parse_date scenario_C one_country ∧ int64_counts scenario_C ∧
  Forall np.int64_range (population_values one_country) ∧
  int_series scenario_C "cases" [0; 5]%Z ∧
  ∃ df x,
    transform parse_date scenario_C one_country = Ok df ∧
    floats df "new_cases" !! 1%nat = Some x ∧ x = np.of_int 5 ∧
    np.isnan x = false ∧
    ((Z.abs 5 < 2 ^ 53)%Z → np.to_int x = Some 5%Z) ∧
    floats df "growth_rate" !! 1%nat
    = Some (if (5 =? 0)%Z then np.nan else S754_infinity (5 <? 0)%Z).
Proof.
  assert (Hs : int_series scenario_C "cases" [0; 5]%Z) by evaluate.
  assert (Hr : int64_counts scenario_C) by in_range.
  assert (Hp : Forall np.int64_range (population_values one_country)) by in_range.
  split; [exact accepted_scenario_C|]. split; [exact Hr|]. split; [exact Hp|].
  split; [exact Hs|].
  exact (C3_growth_rate_after_zero parse_date scenario_C one_country [0; 5]%Z 0 5
           accepted_scenario_C Hr Hp Hs eq_refl eq_refl).
Defined.

(** C4 fails as stated: with a population total of 0 the per-million
    values of non-zero counts are infinite. *)
Lemma C4_counterexample :
  ∃ df,
    transform parse_date scenario_A zero_population = Ok df ∧
    total_population zero_population = Ok (ScInt 0) ∧
    ints df "cases" = [1; 3]%Z ∧
    floats df "cases_per_million" = [np.inf; np.inf].
Proof. eexists. split; [evaluate|]. repeat split. Qed.

(** Scenario E of the specification: populations that are all null sum to
    0, and the outcome is the same. *)
Example scenario_E :
  ∃ df,
    transform parse_date scenario_A null_countries = Ok df ∧
    total_population null_countries = Ok (ScInt 0) ∧
    floats df "cases_per_million" = [np.inf; np.inf] ∧
    floats df "deaths_per_million" = [np.nan; np.nan].
Proof. eexists. split; [evaluate|]. repeat split. Qed.

Lemma C4_witness :
  accepted parse_date scenario_A null_countries ∧ int64_counts scenario_A ∧
  (sum_abs (population_values null_countries) < 2 ^ 53)%Z ∧
  total_population_float null_countries = Ok np.zero ∧
  ∃ df,
    transform parse_date scenario_A null_countries = Ok df ∧
    floats df "cases_per_million"
    = (λ n, if (n =? 0)%Z then np.nan else S754_infinity (n <? 0)%Z) <$> [1; 3]%Z ∧
    floats df "deaths_per_million"
    = (λ n, if (n =? 0)%Z then np.nan else S754_infinity (n <? 0)%Z) <$> [0; 0]%Z.
Proof.
  assert (Ha : accepted parse_date scenario_A null_countries)
    by (apply accepted_scenario_A; auto).
  assert (Hr : int64_counts scenario_A) by in_range.
  assert (Hp : (sum_abs (population_values null_countries) < 2 ^ 53)%Z) by evaluate.
  assert (Hz : total_population_float null_countries = Ok np.zero) by evaluate.
  split; [exact Ha|]. split; [exact Hr|]. split; [exact Hp|]. split; [exact Hz|].
  apply (C4_zero_population parse_date scenario_A null_countries [1; 3]%Z [0; 0]%Z
           Ha Hr Hp Hz); evaluate.
Defined.

(** C5 fails as stated: the empty payload has no cases series. *)
Lemma C5_counterexample :
  labels [] = [] ∧ transform parse_date [] one_country = Raise (KeyError "cases").
Proof. split; evaluate. Qed.

Lemma C5_witness :
  is_Some (dict_get "cases" no_dates) ∧ is_Some (dict_get "deaths" no_dates) ∧
  ¬ ("index" ∈ dict_keys no_dates ∧ "level_0" ∈ dict_keys no_dates) ∧
  labels no_dates = [] ∧
  Exists has_population one_country ∧
  Forall (λ d, ¬ population_is_text d) one_country ∧
  Forall np.int64_range (population_values one_country) ∧
  ∃ df,
    transform parse_date no_dates one_country = Ok df ∧ nrows df = 0%nat ∧
    ∀ name s, (name, s) ∈ df_columns df → Series_length s = 0%nat.
Proof.
  assert (H1 : is_Some (dict_get "cases" no_dates)) by (eexists; evaluate).
  assert (H2 : is_Some (dict_get "deaths" no_dates)) by (eexists; evaluate).
  assert (H3 : ¬ ("index" ∈ dict_keys no_dates ∧ "level_0" ∈ dict_keys no_dates))
    by (intros [H _]; revert H; absent).
  assert (H4 : Exists has_population one_country)
    by (apply Exists_cons_hd; eexists; evaluate).
  assert (H5 : Forall (λ d, ¬ population_is_text d) one_country)
    by (repeat constructor; intros [s Hs]; vm_compute in Hs; discriminate Hs).
  assert (H6 : Forall np.int64_range (population_values one_country)) by in_range.
  split; [exact H1|]. split; [exact H2|]. split; [exact H3|]. split; [reflexivity|].
  split; [exact H4|]. split; [exact H5|]. split; [exact H6|].
  exact (C5_no_dates_no_rows parse_date no_dates one_country H1 H2 H3 eq_refl H4 H5 H6).
Defined.

(** C6 fails as stated: with a first count of 0 and a population total of
    0 the first [cases_per_million] is NaN. *)
Lemma C6_counterexample :
  ∃ df,
    transform parse_date scenario_C zero_population = Ok df ∧
    nrows df = 2%nat ∧
    ints df "cases" !! 0%nat = Some 0%Z ∧
    floats df "cases_per_million" !! 0%nat = Some np.nan.
Proof. eexists. split; [evaluate|]. repeat split. Qed.

Lemma C6_witness :
  ∃ df,
    transform parse_date scenario_A one_country = Ok df ∧
    floats df "new_cases" !! 0%nat = Some np.nan ∧
    floats df "new_deaths" !! 0%nat = Some np.nan ∧
    floats df "growth_rate" !! 0%nat = Some np.nan ∧
    floats df "cases_ma7" !! 0%nat = Some np.nan ∧
    floats df "deaths_ma7" !! 0%nat = Some np.nan ∧
    ints df "cases" !! 0%nat = Some 1%Z ∧
    ints df "deaths" !! 0%nat = Some 0%Z ∧
    ∃ t x y,
      total_population_float one_country = Ok t ∧
      floats df "cases_per_million" !! 0%nat = Some x ∧
      floats df "deaths_per_million" !! 0%nat = Some y ∧
      (np.isnan x = true ↔ np.iszero t = true ∧ 1%Z = 0%Z) ∧
      (np.isnan y = true ↔ np.iszero t = true ∧ 0%Z = 0%Z).
Proof.
  eexists. split; [evaluate|].
  apply (C6_first_record parse_date scenario_A one_country _ 1%Z [3]%Z 0%Z [0]%Z);
    [ evaluate | evaluate | evaluate
    | unfold np.int64_range; lia | unfold np.int64_range; lia
    | repeat constructor; unfold np.int64_range; lia ].
Defined.

(** C7 fails as stated: a step of [2^53 + 1] is stored as [2^53]. *)
Lemma C7_counterexample :
  ∃ df x,
    transform parse_date huge_step one_country = Ok df ∧
    ints df "cases" = [0; 9007199254740993]%Z ∧
    floats df "new_cases" !! 1%nat = Some x ∧
    np.to_int x = Some 9007199254740992%Z.
Proof. do 2 eexists. split; [evaluate|]. repeat split. Qed.

(** The difference is taken in [int64]: from [-2^62] to [2^62] it wraps
    around to [-2^63]. *)
Example delta_wraps :
  ∃ df x,
    transform parse_date wide_step one_country = Ok df ∧
    ints df "cases" = [-4611686018427387904; 4611686018427387904]%Z ∧
    floats df "new_cases" !! 1%nat = Some x ∧
    np.to_int x = Some (-9223372036854775808)%Z.
Proof. do 2 eexists. split; [evaluate|]. repeat split. Qed.

Lemma C7_witness :
  ∃ df,
    transform parse_date scenario_A one_country = Ok df ∧
    int64_counts scenario_A ∧
    (∀ i a b, [1; 3]%Z !! i = Some a → [1; 3]%Z !! S i = Some b →
       ∃ n x, floats df "new_cases" !! S i = Some x ∧ x = np.of_int n ∧
              np.int64_range n ∧ ((n - (b - a)) mod 2 ^ 64 = 0)%Z ∧
              ((Z.abs (b - a) < 2 ^ 53)%Z → np.to_int x = Some (b - a)%Z)) ∧
    (∀ i a b, [0; 0]%Z !! i = Some a → [0; 0]%Z !! S i = Some b →
       ∃ n x, floats df "new_deaths" !! S i = Some x ∧ x = np.of_int n ∧
              np.int64_range n ∧ ((n - (b - a)) mod 2 ^ 64 = 0)%Z ∧
              ((Z.abs (b - a) < 2 ^ 53)%Z → np.to_int x = Some (b - a)%Z)).
Proof.
  assert (Hr : int64_counts scenario_A) by in_range.
  eexists. split; [evaluate|]. split; [exact Hr|].
  apply (C7_delta_exact_below_2_53 parse_date scenario_A one_country);
    [evaluate | exact Hr | evaluate | evaluate].
Defined.

(** C8 fails as stated: a snapshot in which no country carries a
    population field raises [KeyError]. *)
Lemma C8_counterexample :
  total_population unpopulated = Raise (KeyError "population") ∧
  transform parse_date scenario_A unpopulated = Raise (KeyError "population").
Proof. split; evaluate. Qed.

(** Above [2^53] a total that goes through floats is rounded: here
    [2^53 + 1] comes out as [2^53]. *)
Example population_total_rounds :
  sum_list (population_values large_populations) = 9007199254740993%Z ∧
  ∃ x, total_population_float large_populations = Ok x ∧
       np.to_int x = Some 9007199254740992%Z.
Proof. split; [reflexivity|]. eexists. split; [evaluate|]. reflexivity. Qed.

Lemma C8_witness :
  population_values mixed_countries = [1000; 500]%Z ∧
  ∃ t total,
    total = sum_list (population_values mixed_countries) ∧
    total_population mixed_countries = Ok t ∧
    Scalar_float t = Ok (np.of_int total) ∧
    np.to_int (np.of_int total) = Some total ∧
    ∀ parse h df cs ds,
      transform parse h mixed_countries = Ok df →
      int_series h "cases" cs → int_series h "deaths" ds →
      floats df "cases_per_million"
      = (λ n, np.mul (np.div (np.of_int n) (np.of_int total)) (np.of_int 1000000)) <$> cs ∧
      floats df "deaths_per_million"
      = (λ n, np.mul (np.div (np.of_int n) (np.of_int total)) (np.of_int 1000000)) <$> ds.
Proof.
  split; [reflexivity|].
  apply (C8_population_total mixed_countries).
  - apply Exists_cons_hd. eexists. evaluate.
  - repeat constructor; intros [s Hs]; vm_compute in Hs; discriminate Hs.
  - vm_compute. reflexivity.
Defined.

(** C9 fails as stated: the third series of the payload is a column of the
    result. *)
Lemma C9_counterexample :
  ∃ df,
    transform parse_date with_recovered one_country = Ok df ∧
    dict_keys (df_columns df)
    = ["date"; "cases"; "deaths"; "recovered"; "new_cases"; "new_deaths";
       "growth_rate"; "cases_ma7"; "deaths_ma7"; "cases_per_million";
       "deaths_per_million"].
Proof. eexists. split; [evaluate|]. reflexivity. Qed.

(** A series named [index] comes out under the name [date], and the dates
    under [level_0]. *)
Example columns_with_index_series :
  ∃ df,
    transform parse_date index_named one_country = Ok df ∧
    dict_keys (df_columns df)
    = ["level_0"; "cases"; "deaths"; "date"; "new_cases"; "new_deaths";
       "growth_rate"; "cases_ma7"; "deaths_ma7"; "cases_per_million";
       "deaths_per_million"].
Proof. eexists. split; [evaluate|]. reflexivity. Qed.

(** A series named [new_cases] is replaced where it stands, and six derived
    columns follow. *)
Example columns_with_derived_name :
  ∃ df,
    transform parse_date with_new_cases one_country = Ok df ∧
    dict_keys (df_columns df)
    = ["date"; "new_cases"; "cases"; "deaths"; "new_deaths"; "growth_rate";
       "cases_ma7"; "deaths_ma7"; "cases_per_million"; "deaths_per_million"].
Proof. eexists. split; [evaluate|]. reflexivity. Qed.

Lemma C9_witness :
  ∃ df,
    transform parse_date scenario_A one_country = Ok df ∧
    dict_keys (df_columns df)
    = (if bool_decide ("index" ∈ dict_keys scenario_A) then "level_0" else "date")
      :: ((λ k, if bool_decide (k = "index") then "date" else k)
            <$> (dict_keys scenario_A
                 ++ filter (λ n, n ∉ dict_keys scenario_A) derived_names)) ∧
    ("index" ∉ dict_keys scenario_A →
     (∀ n, n ∈ derived_names → n ∉ dict_keys scenario_A) →
     dict_keys (df_columns df) = "date" :: dict_keys scenario_A ++ derived_names) ∧
    (dict_keys scenario_A = ["cases"; "deaths"] →
     dict_keys (df_columns df)
     = ["date"; "cases"; "deaths"; "new_cases"; "new_deaths"; "growth_rate";
        "cases_ma7"; "deaths_ma7"; "cases_per_million"; "deaths_per_million"]).
Proof.
  eexists. split; [evaluate|].
  apply (C9_columns_of_the_result parse_date scenario_A one_country). evaluate.
Defined.

(** * Further properties of the transform *)

Lemma elem_of_labels h k :
  k ∈ labels h ↔ ∃ name d, (name, d) ∈ h ∧ k ∈ dict_keys d.
Proof.
  unfold labels. rewrite elem_of_unique, elem_of_concat. split.
  - intros (l & Hl & Hk). apply list_elem_of_fmap in Hl as ([name d] & -> & Hd). eauto.
  - intros (name & d & Hd & Hk). exists (dict_keys d). split; [|done].
    apply list_elem_of_fmap. by exists (name, d).
Qed.

Lemma div_nan_l y : np.div np.nan y = np.nan.
Proof. by destruct y. Qed.

Lemma mul_nan_l y : np.mul np.nan y = np.nan.
Proof. by destruct y. Qed.

(** A date without a count makes the column [float64], with NaN on that
    row. *)
Lemma gap_column (d : pydict Z) l i k :
  l !! i = Some k → dict_get k d = None →
  ∃ v, convert_objects ((λ k, cell_of_count (dict_get k d)) <$> l) = SFloat v ∧
       v !! i = Some np.nan ∧ length v = length l.
Proof.
  intros Hi Hk.
  set (cells := (λ k, cell_of_count (dict_get k d)) <$> l).
  assert (Hcell : cells !! i = Some PNan).
  { unfold cells. by rewrite list_lookup_fmap, Hi; simpl; rewrite Hk. }
  exists (cell_float <$> cells). split; [|split].
  - unfold convert_objects. fold cells. unfold cells at 1. rewrite counts_no_str. fold cells.
    assert (Hfa : forallb is_int cells = false).
    { apply not_true_is_false. rewrite forallb_forall. intros H.
      apply list_elem_of_lookup_2, list_elem_of_In, H in Hcell. done. }
    assert (Hex : existsb is_nan cells = true).
    { apply existsb_exists. exists PNan. split; [|done].
      by eapply list_elem_of_In, list_elem_of_lookup_2. }
    rewrite Hfa, Hex. by destruct (existsb is_int cells).
  - by rewrite list_lookup_fmap, Hcell.
  - unfold cells. by rewrite !length_fmap.
Qed.

Lemma lookup_diff_float64_gap v i :
  v !! i = Some np.nan →
  diff_float64 v !! i = Some np.nan ∧
  ((S i < length v)%nat → diff_float64 v !! S i = Some np.nan).
Proof.
  intros Hi. pose proof (lookup_lt_Some _ _ _ Hi) as Hlt.
  unfold diff_float64. split.
  - rewrite lookup_zip_with, Hi. simpl.
    destruct (lookup_lt_is_Some_2 (shift1 np.nan v) i) as [y ->];
      [by rewrite length_shift1|].
    reflexivity.
  - intros HS. rewrite lookup_zip_with.
    destruct (lookup_lt_is_Some_2 v (S i) HS) as [x ->]. cbn [mbind option_bind].
    rewrite lookup_shift1_S by done. rewrite Hi. cbn [mbind option_bind].
    by destruct x.
Qed.

(** Under [rename(columns={old: new})] the column [old] is found as
    [new]. *)
Lemma dict_get_renamed {V} old new (d : pydict V) :
  new ∉ dict_keys d →
  dict_get new ((λ c, (if bool_decide (c.1 = old) then new else c.1, c.2)) <$> d)
  = dict_get old d.
Proof.
  induction d as [|[k v] d IH]; [done|].
  rewrite dict_keys_cons, not_elem_of_cons. intros [Hne Hd].
  rewrite fmap_cons. cbn [fst snd].
  destruct (decide (k = old)) as [->|Hko].
  - rewrite (bool_decide_eq_true_2 (old = old)) by done. cbn [dict_get].
    by rewrite !bool_decide_eq_true_2 by done.
  - rewrite (bool_decide_eq_false_2 (k = old)) by done. cbn [dict_get].
    rewrite (bool_decide_eq_false_2 (k = old)) by done.
    rewrite (bool_decide_eq_false_2 (k = new)) by done. by apply IH.
Qed.

(** A window with an entry that is no number holds fewer than seven
    observations. *)
Lemma rolling_mean_at_gap v k j x :
  v !! k = Some x → np.isfinite x = false → (k ≤ j < k + 7)%nat →
  rolling_mean_at 7 v j = np.nan.
Proof.
  intros Hk Hx Hj. unfold rolling_mean_at.
  set (win := window 7 v j).
  assert (Hlen : (length win ≤ 7)%nat).
  { unfold win, window. rewrite length_drop, length_take. lia. }
  assert (Hin : x ∈ win).
  { apply (list_elem_of_lookup_2 _ (k - (S j - 7))). unfold win, window.
    rewrite lookup_drop, lookup_take_lt by lia. rewrite <- Hk. f_equal. lia. }
  pose proof (length_filter_lt (λ x, np.isfinite x = true) win x Hin) as Hlt.
  rewrite bool_decide_eq_false_2; [done|].
  assert (¬ np.isfinite x = true) as Hnot by (by rewrite Hx).
  specialize (Hlt Hnot). lia.
Qed.

Lemma Series_diff_float s r : Series_diff s = Ok r → ∃ v, r = SFloat v.
Proof.
  destruct s as [l|l|l|[|? l]]; simpl; intros [= <-]; eauto.
Qed.

Lemma lookup_diff_int64_app v w i :
  (i < length v)%nat → diff_int64 (v ++ w) !! i = diff_int64 v !! i.
Proof.
  intros Hi. destruct i as [|i].
  - destruct v; [simpl in Hi; lia|]. reflexivity.
  - destruct v as [|x v]; [simpl in Hi; lia|]. simpl in Hi.
    destruct (lookup_lt_is_Some_2 (x :: v) i ltac:(simpl; lia)) as [a Ha].
    destruct (lookup_lt_is_Some_2 (x :: v) (S i) ltac:(simpl; lia)) as [b Hb].
    rewrite (lookup_diff_int64_S _ _ _ _ Ha Hb).
    apply lookup_diff_int64_S; rewrite lookup_app_l; simpl; try lia; done.
Qed.

(** The moving average of a row looks at that row and at earlier rows
    only. *)
Lemma rolling_mean_at_take w v v' i :
  take (S i) v' = take (S i) v → rolling_mean_at w v' i = rolling_mean_at w v i.
Proof. intros H. unfold rolling_mean_at, window. by rewrite H. Qed.

Lemma take_lookup_ext {A} (u u' : list A) n :
  (n ≤ length u)%nat → (∀ i, (i < n)%nat → u' !! i = u !! i) → take n u' = take n u.
Proof.
  intros Hn H. apply list_eq. intros i.
  destruct (decide (i < n)%nat) as [Hi|Hi].
  - rewrite !lookup_take_lt by done. by apply H.
  - by rewrite !lookup_take_ge by lia.
Qed.

Lemma int_view_stable df df' x cs cs' counts delta ma7 per_million i :
  int_view df x cs counts delta ma7 per_million →
  int_view df' x (cs ++ cs') counts delta ma7 per_million →
  (i < length cs)%nat →
  ints df' counts !! i = ints df counts !! i ∧
  floats df' delta !! i = floats df delta !! i ∧
  floats df' ma7 !! i = floats df ma7 !! i ∧
  floats df' per_million !! i = floats df per_million !! i.
Proof.
  intros (-> & -> & -> & ->) (-> & -> & -> & ->) Hi.
  split; [by rewrite lookup_app_l|]. split; [by apply lookup_diff_int64_app|]. split.
  - rewrite !lookup_rolling_mean
      by (rewrite length_diff_int64, ?length_app; lia).
    f_equal. apply rolling_mean_at_take, take_lookup_ext.
    + rewrite length_diff_int64. lia.
    + intros j Hj. apply lookup_diff_int64_app. lia.
  - by rewrite !list_lookup_fmap, lookup_app_l.
Qed.

Lemma growth_rate_stable cs cs' i :
  (i < length cs)%nat →
  ((λ u, np.mul u (np.of_int 100))
     <$> zip_with np.div (diff_int64 (cs ++ cs'))
           (shift1 np.nan (np.of_int <$> (cs ++ cs')))) !! i
  = ((λ u, np.mul u (np.of_int 100))
       <$> zip_with np.div (diff_int64 cs) (shift1 np.nan (np.of_int <$> cs))) !! i.
Proof.
  intros Hi. rewrite !list_lookup_fmap, !lookup_zip_with.
  rewrite lookup_diff_int64_app by done.
  destruct (diff_int64 cs !! i) as [y|]; [|done]. cbn [mbind option_bind].
  destruct i as [|i].
  - rewrite !lookup_shift1_0; [done| |]; destruct cs; simpl in *; (done || lia).
  - rewrite !lookup_shift1_S by (rewrite length_fmap, ?length_app; lia).
    rewrite !list_lookup_fmap, lookup_app_l by lia. done.
Qed.

Section MoreFacts.

Variable parse_datetime : string → option Timestamp.

(** Once the dates are read and both series found, the only failures left
    are those of the population total and of its use as a number. *)
Lemma enrich_series h c ts cases deaths :
  mapM parse_datetime (labels h) = Some ts →
  column (DataFrame_from_dict h) "cases" = Some cases →
  column (DataFrame_from_dict h) "deaths" = Some deaths →
  enrich parse_datetime h c =
  match total_population c with
  | Raise e => Raise e
  | Ok t =>
      match Scalar_float t with
      | Raise e => Raise e
      | Ok x => enrich parse_datetime h c
      end
  end.
Proof.
  intros Hts Hc Hd.
  destruct (from_dict_column_numeric _ _ _ Hc) as (vc & Hvc & _).
  destruct (from_dict_column_numeric _ _ _ Hd) as (vd & Hvd & _).
  destruct (Series_diff_numeric _ _ Hvc) as (nc & Hnc).
  destruct (Series_diff_numeric _ _ Hvd) as (nd & Hnd).
  apply getitem_column in Hc, Hd.
  destruct (total_population c) as [t|e] eqn:Ht;
    [destruct (Scalar_float t) as [x|e] eqn:Hx; [done|]|].
  all: unfold total_population in Ht; cbv [mbind pyresult_bind] in Ht.
  all: unfold enrich; cbv [mbind mret pyresult_bind pyresult_ret].
  all: cbn [to_datetime DataFrame_from_dict df_index]; rewrite Hts.
  all: change (IdxStr (labels h)) with (df_index (DataFrame_from_dict h)).
  all: unfold Series_shift, Series_truediv, Series_rolling_mean, Series_truediv_scalar;
    cbv [mbind pyresult_bind].
  all: repeat first
    [ rewrite getitem_setitem_eq
    | rewrite getitem_setitem_ne by discriminate
    | rewrite getitem_set_index
    | rewrite Hc | rewrite Hd | rewrite Hnc | rewrite Hnd | rewrite Hvc | rewrite Hvd
    | progress cbn [as_float64 Series_mul_int]
    | progress cbv beta iota delta [mbind pyresult_bind] ].
  all: destruct (DataFrame_getitem (DataFrame_from_records c) "population"); [|congruence].
  all: rewrite Ht; try rewrite Hx; reflexivity.
Qed.

(** X1: a date key that pandas cannot read makes [transform_data] raise
    [ValueError], whatever else the two payloads hold. *)
Theorem transform_unreadable_date h c name d k :
  (name, d) ∈ h → k ∈ dict_keys d → parse_datetime k = None →
  transform parse_datetime h c = Raise ValueError.
Proof.
  intros Hd Hk Hnone. rewrite transform_enrich. unfold enrich.
  cbn [to_datetime DataFrame_from_dict df_index].
  destruct (mapM parse_datetime (labels h)) as [ts|] eqn:Hts; [|reflexivity].
  assert (Hin : k ∈ labels h) by (apply elem_of_labels; eauto).
  assert (is_Some (parse_datetime k)) as [? ?]; [|congruence].
  assert (Hall : Forall (is_Some ∘ parse_datetime) (labels h)).
  { apply mapM_is_Some. by eexists. }
  rewrite Forall_forall in Hall. by apply Hall.
Qed.

(** X2: with readable dates, a payload without the [cases] series raises
    [KeyError 'cases'], and one with [cases] but without [deaths] raises
    [KeyError 'deaths']; the country snapshot is not looked at before. *)
Theorem transform_missing_series h c :
  is_Some (mapM parse_datetime (labels h)) →
  (dict_get "cases" h = None →
   transform parse_datetime h c = Raise (KeyError "cases")) ∧
  (is_Some (dict_get "cases" h) → dict_get "deaths" h = None →
   transform parse_datetime h c = Raise (KeyError "deaths")).
Proof.
  intros [ts Hts]. rewrite transform_enrich. split.
  - intros Hc. unfold enrich. cbv [mbind pyresult_bind].
    cbn [to_datetime DataFrame_from_dict df_index]. rewrite Hts.
    change (IdxStr (labels h)) with (df_index (DataFrame_from_dict h)).
    rewrite getitem_set_index. unfold DataFrame_getitem, DataFrame_from_dict.
    cbn [df_columns].
    rewrite (dict_get_map
               (λ c, convert_objects ((λ k, cell_of_count (dict_get k c.2)) <$> labels h))).
    by rewrite Hc.
  - intros [cases Hc]%from_dict_column_is_Some Hd.
    destruct (from_dict_column_numeric _ _ _ Hc) as (vc & Hvc & _).
    destruct (Series_diff_numeric _ _ Hvc) as (nc & Hnc).
    apply getitem_column in Hc.
    unfold enrich. cbv [mbind pyresult_bind].
    cbn [to_datetime DataFrame_from_dict df_index]. rewrite Hts.
    change (IdxStr (labels h)) with (df_index (DataFrame_from_dict h)).
    rewrite getitem_set_index, Hc, Hnc.
    rewrite getitem_setitem_ne by discriminate. rewrite getitem_set_index.
    unfold DataFrame_getitem at 1, DataFrame_from_dict. cbn [df_columns].
    rewrite (dict_get_map
               (λ c, convert_objects ((λ k, cell_of_count (dict_get k c.2)) <$> labels h))).
    by rewrite Hd.
Qed.

(** X3: with readable dates and both series, a snapshot in which no country
    has a [population] field, the empty list among them, raises
    [KeyError 'population']. *)
Theorem transform_missing_population h c :
  is_Some (mapM parse_datetime (labels h)) →
  is_Some (dict_get "cases" h) → is_Some (dict_get "deaths" h) →
  Forall (λ d, dict_get "population" d = None) c →
  transform parse_datetime h c = Raise (KeyError "population").
Proof.
  intros [ts Hts] [cases Hc]%from_dict_column_is_Some
         [deaths Hd]%from_dict_column_is_Some Hnone.
  rewrite transform_enrich, (enrich_series _ _ _ _ _ Hts Hc Hd).
  assert (Ht : total_population c = Raise (KeyError "population")); [|by rewrite Ht].
  unfold total_population, DataFrame_getitem, DataFrame_from_records. cbn [df_columns].
  rewrite (dict_get_names
             (λ name, convert_objects ((λ d, cell_of_json (dict_get name d)) <$> c))).
  rewrite bool_decide_eq_false_2; [done|].
  rewrite elem_of_unique_concat_keys, Exists_exists. intros (d & Hin & [v Hv]).
  rewrite Forall_forall in Hnone. specialize (Hnone d Hin). congruence.
Qed.

(** X4: a population given as text is not skipped: with readable dates, at
    least one of them, and both series, it makes [transform_data] raise
    [TypeError]. *)
Theorem transform_text_population h c :
  is_Some (mapM parse_datetime (labels h)) →
  is_Some (dict_get "cases" h) → is_Some (dict_get "deaths" h) →
  labels h ≠ [] →
  Exists population_is_text c →
  transform parse_datetime h c = Raise TypeError.
Proof.
  intros [ts Hts] [cases Hc]%from_dict_column_is_Some
         [deaths Hd]%from_dict_column_is_Some _ Htext.
  rewrite transform_enrich, (enrich_series _ _ _ _ _ Hts Hc Hd).
  assert (Ht : total_population c = Raise TypeError ∨ ∃ s, total_population c = Ok (ScStr s)).
  { apply Exists_exists in Htext as (d & Hin & s & Hs).
    unfold total_population, DataFrame_getitem, DataFrame_from_records. cbn [df_columns].
    rewrite (dict_get_names
               (λ name, convert_objects ((λ d, cell_of_json (dict_get name d)) <$> c))).
    rewrite bool_decide_eq_true_2.
    2:{ apply elem_of_unique_concat_keys, Exists_exists. exists d. split; [done|].
        by eexists. }
    cbv [mbind pyresult_bind].
    set (cells := (λ d, cell_of_json (dict_get "population" d)) <$> c).
    assert (Hcell : PStr s ∈ cells).
    { unfold cells. apply list_elem_of_fmap. exists d. by rewrite Hs. }
    assert (Hstr : existsb is_str cells = true).
    { apply existsb_exists. exists (PStr s). split; [by apply list_elem_of_In|done]. }
    assert (Hnone : forallb is_none cells = false).
    { apply not_true_is_false. rewrite forallb_forall. intros H.
      apply list_elem_of_In, H in Hcell. done. }
    unfold convert_objects. rewrite Hstr. cbn [Series_sum]. rewrite Hnone.
    destruct (forallb is_str cells); eauto. }
  destruct Ht as [-> | [s ->]]; reflexivity.
Qed.

(** X5: every series of the payload is in the result as pandas read it:
    [transform_data] changes no count it was given. *)
Theorem transform_keeps_input_series h c df name :
  transform parse_datetime h c = Ok df →
  name ∉ derived_names → name ≠ "index" → name ≠ "date" → name ≠ "level_0" →
  column df name = column (DataFrame_from_dict h) name ∧
  ∀ v, int_series h name v → ints df name = v.
Proof.
  rewrite transform_enrich.
  intros (ts & cases & deaths & nc & nd & gr & cma & dma & t & cpm & dpm & Hts & Hc & Hd
          & Hnc & Hnd & Hgr & Hcma & Hdma & Ht & Hcpm & Hdpm & Hfresh & ->)%enrich_Ok_inv
         Hder H1 H2 H3.
  assert (Heq : column (DataFrame_rename "index" "date"
                   {| df_index := IdxRange (length ts);
                      df_columns :=
                        (index_name (add_derived nc nd gr cma dma cpm dpm
                                       (df_columns (DataFrame_from_dict h))), STime ts)
                        :: add_derived nc nd gr cma dma cpm dpm
                             (df_columns (DataFrame_from_dict h)) |}) name
                = column (DataFrame_from_dict h) name).
  { rewrite column_enriched by done. by rewrite dict_get_add_derived. }
  split; [exact Heq|].
  intros v Hv. unfold ints. rewrite Heq. unfold int_series in Hv. by rewrite Hv.
Qed.

(** X6: past the first row, [growth_rate] is a number whenever the count of
    the previous row is not 0: the delta, as [float64], divided by the
    previous count and then multiplied by 100. *)
Theorem growth_rate_defined h c df cs i a b :
  transform parse_datetime h c = Ok df →
  int_series h "cases" cs →
  cs !! i = Some a → cs !! S i = Some b →
  a ≠ 0 → np.int64_range a → np.int64_range b →
  ∃ x, floats df "growth_rate" !! S i = Some x ∧
       x = np.mul (np.div (np.of_int (np.wrap64 (b - a))) (np.of_int a)) (np.of_int 100) ∧
       np.isnan x = false.
Proof.
  intros Hdf Hcs Ha Hb Hne Hrange _.
  destruct (transform_Ok_view _ _ _ _ Hdf) as (ts & t & x & _ & _ & _ & _ & _ & _ & Hview & _).
  destruct (Hview cs Hcs) as (_ & _ & ->).
  pose proof (lookup_lt_Some _ _ _ Hb) as Hlt.
  eexists. split; [|split; [reflexivity|]].
  - rewrite list_lookup_fmap, lookup_zip_with.
    rewrite (lookup_diff_int64_S _ _ _ _ Ha Hb). simpl.
    rewrite lookup_shift1_S by (by rewrite length_fmap).
    rewrite list_lookup_fmap, Ha. reflexivity.
  - destruct (of_int_finite a Hne (int64_range_abs _ Hrange)) as (m & e & ->).
    rewrite (of_int_pos 100) by lia.
    apply mul_not_nan, div_not_nan, of_int_not_nan.
Qed.

(** X7: a date for which the [cases] series has no count. The column is
    [float64] and NaN on that row, and so are the delta of that row, the
    delta of the next row and the per-million value of that row. *)
Theorem transform_gap_in_cases h c df d i k :
  transform parse_datetime h c = Ok df →
  dict_get "cases" h = Some d →
  labels h !! i = Some k → dict_get k d = None →
  floats df "cases" !! i = Some np.nan ∧
  floats df "new_cases" !! i = Some np.nan ∧
  ((S i < length (labels h))%nat → floats df "new_cases" !! S i = Some np.nan) ∧
  floats df "cases_per_million" !! i = Some np.nan.
Proof.
  rewrite transform_enrich.
  intros (ts & cases & deaths & nc & nd & gr & cma & dma & t & cpm & dpm & Hts & Hc & Hd
          & Hnc & Hnd & Hgr & Hcma & Hdma & Ht & Hcpm & Hdpm & Hfresh & ->)%enrich_Ok_inv
         Hcases Hi Hk.
  destruct (from_dict_column _ _ _ Hc) as (d' & Hd' & Hconv).
  rewrite Hcases in Hd'. injection Hd' as <-.
  destruct (gap_column d (labels h) i k Hi Hk) as (v & Hv & Hnan & Hlen).
  rewrite Hv in Hconv. subst cases.
  cbn [Series_diff as_float64] in Hnc. cbv [mbind pyresult_bind] in Hnc.
  injection Hnc as <-.
  destruct (per_million_of_Ok_inv _ _ _ Hcpm) as (v' & x & Hv' & Hx).
  rewrite (per_million_of_numeric _ _ _ _ Hv' Hx) in Hcpm.
  cbn [as_float64] in Hv'. injection Hv' as <-. injection Hcpm as <-.
  unfold floats. rewrite !column_enriched by discriminate.
  rewrite dict_get_add_derived by apply cases_not_derived.
  fold (column (DataFrame_from_dict h) "cases"). rewrite Hc.
  read_derived.
  destruct (lookup_diff_float64_gap v i Hnan) as [H0 H1].
  repeat split; [done|done| |].
  - intros HS. apply H1. by rewrite Hlen.
  - rewrite !list_lookup_fmap, Hnan. cbn [fmap option_fmap option_map].
    by rewrite div_nan_l, mul_nan_l.
Qed.

(** X8: a series named [index] takes the place of the dates. The dates go
    to the column [level_0], and the column [date] holds that series. *)
Theorem transform_index_series h c df :
  transform parse_datetime h c = Ok df →
  "index" ∈ dict_keys h → "date" ∉ dict_keys h →
  ∃ ts, mapM parse_datetime (labels h) = Some ts ∧
        column df "level_0" = Some (STime ts) ∧
        column df "date" = column (DataFrame_from_dict h) "index" ∧
        dates df = [].
Proof.
  rewrite transform_enrich.
  intros (ts & cases & deaths & nc & nd & gr & cma & dma & t & cpm & dpm & Hts & Hc & Hd
          & Hnc & Hnd & Hgr & Hcma & Hdma & Ht & Hcpm & Hdpm & Hfresh & ->)%enrich_Ok_inv
         Hindex Hdate.
  set (cols := add_derived nc nd gr cma dma cpm dpm (df_columns (DataFrame_from_dict h))) in *.
  assert (Hin : "index" ∈ dict_keys cols).
  { unfold cols. rewrite elem_of_keys_add_derived, from_dict_keys. by right. }
  assert (Hname : index_name cols = "level_0").
  { unfold index_name. by rewrite bool_decide_eq_true_2. }
  assert (Hnd' : "date" ∉ dict_keys cols).
  { unfold cols. rewrite elem_of_keys_add_derived, from_dict_keys.
    intros [Hder|?]; [|done]. revert Hder. apply (bool_decide_unpack _). by compute. }
  assert (Hcol : column (DataFrame_rename "index" "date"
                   {| df_index := IdxRange (length ts);
                      df_columns := (index_name cols, STime ts) :: cols |}) "date"
                 = column (DataFrame_from_dict h) "index").
  { unfold column, DataFrame_rename. cbn [df_columns]. rewrite Hname.
    rewrite fmap_cons. cbn [fst snd].
    rewrite (bool_decide_eq_false_2 ("level_0" = "index")) by done.
    cbn [dict_get]. rewrite (bool_decide_eq_false_2 ("level_0" = "date")) by done.
    rewrite (dict_get_renamed "index" "date" cols Hnd').
    unfold cols. by rewrite dict_get_add_derived by apply index_not_derived. }
  exists ts. split; [done|]. split; [|split; [exact Hcol|]].
  - unfold column, DataFrame_rename. cbn [df_columns]. rewrite Hname. reflexivity.
  - unfold dates. rewrite Hcol.
    destruct (column (DataFrame_from_dict h) "index") as [s|] eqn:Hs; [|done].
    apply from_dict_column in Hs as (d & _ & ->).
    unfold convert_objects. by repeat case_match.
Qed.

(** X9: a moving average needs seven numbers. A delta that is NaN makes
    the average NaN on its own row and on the six rows after it; the first
    row aside, this is what a date without a count does. *)
Theorem moving_average_needs_seven_numbers h c df :
  transform parse_datetime h c = Ok df →
  (∀ k j, floats df "new_cases" !! k = Some np.nan → (k ≤ j < k + 7)%nat →
     (j < length (labels h))%nat → floats df "cases_ma7" !! j = Some np.nan) ∧
  (∀ k j, floats df "new_deaths" !! k = Some np.nan → (k ≤ j < k + 7)%nat →
     (j < length (labels h))%nat → floats df "deaths_ma7" !! j = Some np.nan).
Proof.
  rewrite transform_enrich.
  intros (ts & cases & deaths & nc & nd & gr & cma & dma & t & cpm & dpm & Hts & Hc & Hd
          & Hnc & Hnd & Hgr & Hcma & Hdma & Ht & Hcpm & Hdpm & Hfresh & ->)%enrich_Ok_inv.
  pose proof (Series_diff_length _ _ Hnc) as Hlc.
  pose proof (Series_diff_length _ _ Hnd) as Hld.
  rewrite (from_dict_column_length _ _ _ Hc) in Hlc.
  rewrite (from_dict_column_length _ _ _ Hd) in Hld.
  destruct (Series_diff_float _ _ Hnc) as (vc & ->).
  destruct (Series_diff_float _ _ Hnd) as (vd & ->).
  unfold Series_rolling_mean in Hcma, Hdma. cbv [mbind pyresult_bind] in Hcma, Hdma.
  cbn [as_float64] in Hcma, Hdma. injection Hcma as <-. injection Hdma as <-.
  cbn [Series_length] in Hlc, Hld.
  unfold floats. rewrite !column_enriched by discriminate. read_derived.
  split; intros k j Hk Hj Hlt.
  - rewrite lookup_rolling_mean by lia. f_equal. by eapply rolling_mean_at_gap.
  - rewrite lookup_rolling_mean by lia. f_equal. by eapply rolling_mean_at_gap.
Qed.

(** X10: rows are keyed by the date strings, not by the dates: two different
    keys that pandas reads as the same date give two rows with that date. *)
Theorem transform_keeps_duplicate_dates h c df i j k1 k2 :
  transform parse_datetime h c = Ok df →
  "index" ∉ dict_keys h →
  labels h !! i = Some k1 → labels h !! j = Some k2 → i ≠ j →
  parse_datetime k1 = parse_datetime k2 →
  k1 ≠ k2 ∧ ∃ t, dates df !! i = Some t ∧ dates df !! j = Some t.
Proof.
  intros Hdf Hindex Hi Hj Hne Hparse.
  destruct (transform_Ok_view _ _ _ _ Hdf) as (ts & t & x & Hts & _ & _ & _ & Hdates & _).
  rewrite (Hdates Hindex). split.
  - intros ->. apply Hne. eapply NoDup_lookup; [apply NoDup_unique|done..].
  - apply mapM_Some in Hts.
    destruct (Forall2_lookup_l _ _ _ _ _ Hts Hi) as (t1 & Ht1 & H1).
    destruct (Forall2_lookup_l _ _ _ _ _ Hts Hj) as (t2 & Ht2 & H2).
    exists t1. split; [done|]. rewrite Ht2. congruence.
Qed.

(** X11: of the country snapshot only the population fields matter, in
    their order: two snapshots that agree on them give the same result,
    frame or exception. *)
Theorem transform_uses_populations_only h c c' :
  dict_get "population" <$> c = dict_get "population" <$> c' →
  transform parse_datetime h c = transform parse_datetime h c'.
Proof.
  intros Hpop. rewrite !transform_enrich.
  assert (Ht : DataFrame_getitem (DataFrame_from_records c) "population"
               = DataFrame_getitem (DataFrame_from_records c') "population").
  { unfold DataFrame_getitem, DataFrame_from_records. cbn [df_columns].
    rewrite !(dict_get_names
                (λ name, convert_objects ((λ d, cell_of_json (dict_get name d)) <$> _))).
    assert (Hcells : ∀ l : countries,
              (λ d, cell_of_json (dict_get "population" d)) <$> l
              = cell_of_json <$> (dict_get "population" <$> l)).
    { intros l. by rewrite <- list_fmap_compose. }
    rewrite !Hcells, Hpop.
    rewrite (bool_decide_ext _ ("population" ∈ unique (concat (dict_keys <$> c')))); [done|].
    rewrite !elem_of_unique_concat_keys, !Exists_exists.
    assert (Hex : ∀ l : countries,
              (∃ d, d ∈ l ∧ is_Some (dict_get "population" d))
              ↔ ∃ o, o ∈ dict_get "population" <$> l ∧ is_Some o).
    { intros l. split.
      - intros (d & Hd & Hs). eexists. split; [|exact Hs]. by apply list_elem_of_fmap_2.
      - intros (o & (d & -> & Hd)%list_elem_of_fmap & Hs). eauto. }
    by rewrite !Hex, Hpop. }
  unfold enrich. cbv [mbind pyresult_bind]. rewrite Ht. reflexivity.
Qed.

(** X12: rows are stable: when later dates are added to the payload, the rows
    of the dates that were there before come out as they did, column by
    column. *)
Theorem transform_past_rows_stable h h' c df df' more cs cs' ds ds' i :
  transform parse_datetime h c = Ok df →
  transform parse_datetime h' c = Ok df' →
  labels h' = labels h ++ more →
  "index" ∉ dict_keys h → "index" ∉ dict_keys h' →
  int_series h "cases" cs → int_series h' "cases" (cs ++ cs') →
  int_series h "deaths" ds → int_series h' "deaths" (ds ++ ds') →
  (i < length (labels h))%nat →
  dates df' !! i = dates df !! i ∧
  ints df' "cases" !! i = ints df "cases" !! i ∧
  ints df' "deaths" !! i = ints df "deaths" !! i ∧
  Forall (λ name, floats df' name !! i = floats df name !! i) derived_names.
Proof.
  intros Hdf Hdf' Hlabels Hindex Hindex' Hcs Hcs' Hds Hds' Hi.
  destruct (transform_Ok_view _ _ _ _ Hdf)
    as (ts & t & x & Hts & _ & Ht & Hx & Hdates & _ & Hc & Hd).
  destruct (transform_Ok_view _ _ _ _ Hdf')
    as (ts' & t' & x' & Hts' & _ & Ht' & Hx' & Hdates' & _ & Hc' & Hd').
  rewrite Ht in Ht'. injection Ht' as <-. rewrite Hx in Hx'. injection Hx' as <-.
  destruct (Hc cs Hcs) as (Hlc & Vc & Gc). destruct (Hc' _ Hcs') as (_ & Vc' & Gc').
  destruct (Hd ds Hds) as (Hld & Vd). destruct (Hd' _ Hds') as (_ & Vd').
  rewrite <- Hlc in Hi.
  destruct (int_view_stable _ _ _ _ _ _ _ _ _ i Vc Vc' Hi) as (I1 & I2 & I3 & I4).
  assert (Hi' : (i < length ds)%nat) by lia.
  destruct (int_view_stable _ _ _ _ _ _ _ _ _ i Vd Vd' Hi') as (J1 & J2 & J3 & J4).
  split; [|split; [done|split; [done|]]].
  - rewrite (Hdates Hindex), (Hdates' Hindex').
    rewrite Hlabels in Hts'. apply mapM_Some in Hts, Hts'.
    apply Forall2_app_inv_l in Hts' as (ts1 & ts2 & H1 & _ & ->).
    assert (ts1 = ts) as ->.
    { apply mapM_Some in H1, Hts. congruence. }
    apply lookup_app_l. rewrite <- (Forall2_length _ _ _ Hts). lia.
  - unfold derived_names. repeat constructor; try done.
    rewrite Gc, Gc'. by apply growth_rate_stable.
Qed.

End MoreFacts.

(** * The stages around the transform *)

Ltac unfold_programs :=
  cbv [trace_of outcome_of main fetch_covid_data transform_data_call setup_git_repo
       save_and_push_data print perform value mbind mret prog_mbind prog_ret].

(** One step of a run: the next call is answered, the next test decided. *)
Ltac answer w :=
  match goal with
  | |- context [w ?A ?tr ?c] => destruct (w A tr c) eqn:?
  | |- context [bool_decide ?P] => destruct (bool_decide_reflect P)
  | |- context [match transformed ?p ?a ?b with _ => _ end] =>
      destruct (transformed p a b) eqn:?
  | |- context [match Response_json ?r with _ => _ end] =>
      destruct (Response_json r) eqn:?
  end.

Ltac explore w :=
  unfold_programs;
  repeat (progress (cbn [run prog_bind try_except app]; try answer w)).

Ltac read_trace :=
  cbn [printed responses requested written staged commits pushed remotes_created
       initialised configured listings delivered publication local_effect failed
       unhindered opening forallb negb andb stamps fetched raised stopped_by
       omap list_omap existsb orb fst snd].


(** X13: [fetch_covid_data] returns the two decoded bodies exactly when both
    requests returned with status 200 and both bodies decode. *)
Theorem fetch_covid_data_returns (w : world) tr h c :
  trace_of w fetch_covid_data = tr →
  outcome_of w fetch_covid_data = Returns (h, c) ↔
  ∃ r1 r2,
    responses tr = [r1; r2] ∧
    status_code r1 = 200 ∧ status_code r2 = 200 ∧
    Response_json r1 = Returns h ∧ Response_json r2 = Returns c.
Proof.
  intros <-. explore w; cbn [fst snd]; read_trace.
  all: split; [intros ?; simplify_eq | intros (r1 & r2 & ? & ? & ? & ? & ?); simplify_eq].
  all: try (exfalso; naive_solver).
  all: try (do 2 eexists; split; [reflexivity|]; naive_solver lia).
  all: congruence.
Qed.

Section PipelineFacts.

Variable parse_datetime : string → option Timestamp.
Variable pandas_text : pyexc → string.
Variables GITHUB_URL GIT_NAME GIT_EMAIL : string.


(** On a dict and a list, [transformed] is the frame the properties of the
    transform speak of. *)
Lemma transformed_payloads h c :
  transformed parse_datetime (PyDict h) (PyList c) = transform parse_datetime h c.
Proof. reflexivity. Qed.

(** X14: [main] asks for the historical series and then for the countries, and
    for nothing else; the second request is made whenever the first one
    returns, whatever its status. *)
Theorem main_requests (w : world) tr :
  trace_of w (main parse_datetime pandas_text GITHUB_URL GIT_NAME GIT_EMAIL) = tr →
  requested tr = [historical_url; countries_url] ∨
  (requested tr = [historical_url] ∧ responses tr = [] ∧ existsb failed tr = true).
Proof.
  intros <-. explore w; cbn [fst snd]; read_trace.
  all: first [ left; reflexivity | right; repeat split; reflexivity ].
Qed.

(** X15: A status other than 200 on either request: both requests were made,
    and [main] prints the error and stops, whatever the bodies hold. *)
Theorem main_bad_status (w : world) tr r1 r2 :
  trace_of w (main parse_datetime pandas_text GITHUB_URL GIT_NAME GIT_EMAIL) = tr →
  responses tr = [r1; r2] →
  status_code r1 ≠ 200 ∨ status_code r2 ≠ 200 →
  tr = [Printed "Obteniendo datos de COVID-19...";
        Called (requests_get historical_url) (Returns r1);
        Called (requests_get countries_url) (Returns r2);
        Printed "Error en el proceso: Error al obtener datos de la API"].
Proof.
  intros <-. explore w; cbn [fst snd]; read_trace; intros ? ?; simplify_eq.
  all: first [ reflexivity | tauto ].
Qed.

(** X16: An exception of [transform_data] ends the run before the repository
    or the disk is touched; the line printed shows the exception. *)
Theorem main_transform_error (w : world) tr r1 r2 h c e :
  trace_of w (main parse_datetime pandas_text GITHUB_URL GIT_NAME GIT_EMAIL) = tr →
  responses tr = [r1; r2] →
  status_code r1 = 200 → status_code r2 = 200 →
  Response_json r1 = Returns (PyDict h) → Response_json r2 = Returns (PyList c) →
  transform parse_datetime h c = Raise e →
  tr = [Printed "Obteniendo datos de COVID-19...";
        Called (requests_get historical_url) (Returns r1);
        Called (requests_get countries_url) (Returns r2);
        Printed "Transformando datos...";
        Printed (error_line pandas_text (Pandas e))].
Proof.
  intros <-. rewrite <- transformed_payloads.
  explore w; cbn [fst snd]; read_trace; intros; simplify_eq.
  all: first [ reflexivity | congruence
             | match goal with H : _ ∨ _ |- _ => destruct H; congruence end ].
Qed.

(** X17: [main] reaches the repository or the disk only after both requests
    returned 200, both bodies decoded and [transform_data] returned. *)
Theorem main_effects_need_data (w : world) tr :
  trace_of w (main parse_datetime pandas_text GITHUB_URL GIT_NAME GIT_EMAIL) = tr →
  existsb local_effect tr = true →
  ∃ r1 r2 o1 o2 df,
    responses tr = [r1; r2] ∧
    status_code r1 = 200 ∧ status_code r2 = 200 ∧
    Response_json r1 = Returns o1 ∧ Response_json r2 = Returns o2 ∧
    transformed parse_datetime o1 o2 = Ok df.
Proof.
  intros <-. explore w; cbn [fst snd]; read_trace; intros ?; try discriminate.
  all: do 5 eexists; split; [reflexivity|]; repeat split; try eassumption; lia.
Qed.

(** X18: What [main] hands to the parquet writer is the frame [transform_data]
    returned for the two bodies fetched in this run, once, to the one
    output path, with gzip compression. *)
Theorem main_writes_the_transformed_frame (w : world) tr x :
  trace_of w (main parse_datetime pandas_text GITHUB_URL GIT_NAME GIT_EMAIL) = tr →
  x ∈ written tr →
  ∃ r1 r2 o1 o2 df,
    responses tr = [r1; r2] ∧
    Response_json r1 = Returns o1 ∧ Response_json r2 = Returns o2 ∧
    transformed parse_datetime o1 o2 = Ok df ∧
    written tr = [(df, output_path, "gzip")].
Proof.
  intros <-. explore w; cbn [fst snd]; read_trace; intros Hx;
    try (by apply elem_of_nil in Hx).
  all: do 5 eexists; split; [reflexivity|]; repeat split; eassumption.
Qed.


(** X20: the run that goes through. When both requests return 200 with a
    dict and a list that [transform_data] accepts, and no call raises but
    possibly the opening of the repository, [main] writes the frame of
    these payloads, the push returns and the success line is printed. *)
Theorem main_succeeds (w : world) tr r1 r2 h c :
  trace_of w (main parse_datetime pandas_text GITHUB_URL GIT_NAME GIT_EMAIL) = tr →
  responses tr = [r1; r2] →
  status_code r1 = 200 → status_code r2 = 200 →
  Response_json r1 = Returns (PyDict h) → Response_json r2 = Returns (PyList c) →
  accepted parse_datetime h c →
  unhindered tr = true →
  ∃ df, transform parse_datetime h c = Ok df ∧
        written tr = [(df, output_path, "gzip")] ∧
        delivered tr ≠ [] ∧
        last (printed tr) = Some success_line.
Proof.
  intros <- Hr H1 H2 Hh Hc [df Hdf]%transform_accepted. revert Hr H1 H2 Hh Hc.
  rewrite <- transformed_payloads in Hdf. revert Hdf.
  explore w; cbn [fst snd]; read_trace; intros; simplify_eq.
  all: try discriminate.
  all: try (exfalso; congruence).
  all: try (exfalso; match goal with H : _ ∨ _ |- _ => destruct H; congruence end).
  all: eexists; split; [eassumption|]; split; [|split; [done|reflexivity]].
  all: repeat f_equal; congruence.
Qed.

(** X21: [main] publishes in one order: it sets the user name and the
    e-mail address of the repository, writes the output file, stages that
    path, commits under the message that ends with what the clock
    returned, and pushes to the remote the repository returned last under
    the name [origin]; each step at most once and none before the one
    before it returned; a run that pushes has done all of them. *)
Theorem main_publishes_in_order (w : world) tr :
  trace_of w (main parse_datetime pandas_text GITHUB_URL GIT_NAME GIT_EMAIL) = tr →
  let stamp := default EmptyString (last (stamps tr)) in
  let origin := default (mkRemote EmptyString 0%nat) (last (fetched tr)) in
  let steps := [Configured "user" "name" GIT_NAME; Configured "user" "email" GIT_EMAIL;
                Wrote "data/raw/covid_historical_data.parquet";
                Staged ["data/raw/covid_historical_data.parquet"];
                Committed ("Actualización datos COVID-19 " +:+ stamp); Pushed origin] in
  publication tr `prefix_of` steps ∧
  (pushed tr ≠ [] → publication tr = steps) ∧
  (commits tr ≠ [] → length (stamps tr) = 1%nat).
Proof.
  intros <-. explore w; cbn [fst snd]; read_trace; cbn [last default length].
  all: split; [eexists; reflexivity|].
  all: split; first [ reflexivity | by intros [] ].
Qed.



End PipelineFacts.

(** * The further properties on sample payloads and sample worlds *)

(** X1 on a sample. *)
Lemma transform_unreadable_date_witness :
  ("cases", [("1/22/20", 1); ("soon", 3)]) ∈ unreadable ∧
  "soon" ∈ dict_keys [("1/22/20", 1); ("soon", 3)] ∧
  parse_date "soon" = None ∧
  transform parse_date unreadable one_country = Raise ValueError.
Proof.
  assert (H1 : ("cases", [("1/22/20", 1); ("soon", 3)]) ∈ unreadable)
    by apply list_elem_of_here.
  assert (H2 : "soon" ∈ dict_keys [("1/22/20", 1); ("soon", 3)])
    by apply list_elem_of_further, list_elem_of_here.
  assert (H3 : parse_date "soon" = None) by reflexivity.
  split; [exact H1|]. split; [exact H2|]. split; [exact H3|].
  exact (transform_unreadable_date parse_date unreadable one_country _ _ _ H1 H2 H3).
Defined.

(** X2 on a sample. *)
Lemma transform_missing_series_witness :
  (is_Some (mapM parse_date (labels deaths_only)) ∧
   dict_get "cases" deaths_only = None ∧
   transform parse_date deaths_only one_country = Raise (KeyError "cases")) ∧
  (is_Some (mapM parse_date (labels cases_only)) ∧
   is_Some (dict_get "cases" cases_only) ∧ dict_get "deaths" cases_only = None ∧
   transform parse_date cases_only [] = Raise (KeyError "deaths")).
Proof.
  assert (H1 : is_Some (mapM parse_date (labels deaths_only))) by (eexists; evaluate).
  assert (H2 : is_Some (mapM parse_date (labels cases_only))) by (eexists; evaluate).
  assert (H3 : is_Some (dict_get "cases" cases_only)) by (eexists; reflexivity).
  split.
  - split; [exact H1|]. split; [reflexivity|].
    exact (proj1 (transform_missing_series parse_date deaths_only one_country H1) eq_refl).
  - split; [exact H2|]. split; [exact H3|]. split; [reflexivity|].
    exact (proj2 (transform_missing_series parse_date cases_only [] H2) H3 eq_refl).
Defined.

(** X3 on a sample. *)
Lemma transform_missing_population_witness :
  is_Some (mapM parse_date (labels scenario_A)) ∧
  is_Some (dict_get "cases" scenario_A) ∧ is_Some (dict_get "deaths" scenario_A) ∧
  Forall (λ d, dict_get "population" d = None) unpopulated ∧
  transform parse_date scenario_A unpopulated = Raise (KeyError "population").
Proof.
  assert (H1 : is_Some (mapM parse_date (labels scenario_A))) by (eexists; evaluate).
  assert (H2 : is_Some (dict_get "cases" scenario_A)) by (eexists; reflexivity).
  assert (H3 : is_Some (dict_get "deaths" scenario_A)) by (eexists; reflexivity).
  assert (H4 : Forall (λ d, dict_get "population" d = None) unpopulated)
    by (repeat constructor).
  split; [exact H1|]. split; [exact H2|]. split; [exact H3|]. split; [exact H4|].
  exact (transform_missing_population parse_date scenario_A unpopulated H1 H2 H3 H4).
Defined.

(** X4 on a sample. *)
Lemma transform_text_population_witness :
  is_Some (mapM parse_date (labels scenario_A)) ∧
  is_Some (dict_get "cases" scenario_A) ∧ is_Some (dict_get "deaths" scenario_A) ∧
  labels scenario_A ≠ [] ∧
  Exists population_is_text text_population ∧
  transform parse_date scenario_A text_population = Raise TypeError.
Proof.
  assert (H1 : is_Some (mapM parse_date (labels scenario_A))) by (eexists; evaluate).
  assert (H2 : is_Some (dict_get "cases" scenario_A)) by (eexists; reflexivity).
  assert (H3 : is_Some (dict_get "deaths" scenario_A)) by (eexists; reflexivity).
  assert (H4 : labels scenario_A ≠ []) by discriminate.
  assert (H5 : Exists population_is_text text_population).
  { apply Exists_cons_tl, Exists_cons_hd. by exists "unknown". }
  split; [exact H1|]. split; [exact H2|]. split; [exact H3|]. split; [exact H4|].
  split; [exact H5|].
  exact (transform_text_population parse_date scenario_A text_population H1 H2 H3 H4 H5).
Defined.

(** X5 on a sample. *)
Lemma transform_keeps_input_series_witness :
  ∃ df,
    transform parse_date with_recovered one_country = Ok df ∧
    ("recovered" ∉ derived_names) ∧
    column df "recovered" = column (DataFrame_from_dict with_recovered) "recovered" ∧
    ∀ v, int_series with_recovered "recovered" v → ints df "recovered" = v.
Proof.
  eexists.
  assert (H1 : transform parse_date with_recovered one_country = Ok _) by evaluate.
  assert (H2 : "recovered" ∉ derived_names) by absent.
  split; [exact H1|]. split; [exact H2|].
  refine (transform_keeps_input_series parse_date with_recovered one_country _
            "recovered" H1 H2 _ _ _); discriminate.
Defined.

(** X6 on a sample. *)
Lemma growth_rate_defined_witness :
  ∃ df x,
    transform parse_date scenario_A one_country = Ok df ∧
    int_series scenario_A "cases" [1; 3] ∧
    floats df "growth_rate" !! 1%nat = Some x ∧
    x = np.mul (np.div (np.of_int (np.wrap64 (3 - 1))) (np.of_int 1)) (np.of_int 100) ∧
    np.isnan x = false.
Proof.
  eexists.
  assert (H1 : transform parse_date scenario_A one_country = Ok _) by evaluate.
  assert (H2 : int_series scenario_A "cases" [1; 3]) by evaluate.
  destruct (growth_rate_defined parse_date scenario_A one_country _ [1; 3] 0%nat 1 3
              H1 H2 eq_refl eq_refl) as (x & Hx);
    [discriminate | unfold np.int64_range; lia | unfold np.int64_range; lia |].
  exists x. split; [exact H1|]. split; [exact H2|]. exact Hx.
Defined.

(** X7 on a sample. *)
Lemma transform_gap_in_cases_witness :
  ∃ df,
    transform parse_date gapped one_country = Ok df ∧
    dict_get "cases" gapped = Some [("1/22/20", 1); ("1/24/20", 4)] ∧
    labels gapped !! 1%nat = Some "1/23/20" ∧
    floats df "cases" !! 1%nat = Some np.nan ∧
    floats df "new_cases" !! 1%nat = Some np.nan ∧
    floats df "new_cases" !! 2%nat = Some np.nan ∧
    floats df "cases_per_million" !! 1%nat = Some np.nan.
Proof.
  eexists.
  assert (H1 : transform parse_date gapped one_country = Ok _) by evaluate.
  assert (H2 : dict_get "cases" gapped = Some [("1/22/20", 1); ("1/24/20", 4)])
    by reflexivity.
  assert (H3 : labels gapped !! 1%nat = Some "1/23/20") by evaluate.
  destruct (transform_gap_in_cases parse_date gapped one_country _ _ 1%nat "1/23/20"
              H1 H2 H3 eq_refl) as (Ha & Hb & Hc & Hd).
  split; [exact H1|]. split; [exact H2|]. split; [exact H3|].
  split; [exact Ha|]. split; [exact Hb|]. split; [|exact Hd].
  apply Hc. vm_compute. lia.
Defined.

(** X8 on a sample. *)
Lemma transform_index_series_witness :
  ∃ df ts,
    transform parse_date index_named one_country = Ok df ∧
    ("index" ∈ dict_keys index_named) ∧ ("date" ∉ dict_keys index_named) ∧
    mapM parse_date (labels index_named) = Some ts ∧
    column df "level_0" = Some (STime ts) ∧
    column df "date" = Some (SInt [7; 8]) ∧
    dates df = [].
Proof.
  eexists.
  assert (H1 : transform parse_date index_named one_country = Ok _) by evaluate.
  assert (H2 : "index" ∈ dict_keys index_named).
  { do 2 apply list_elem_of_further. apply list_elem_of_here. }
  assert (H3 : "date" ∉ dict_keys index_named) by absent.
  destruct (transform_index_series parse_date index_named one_country _ H1 H2 H3)
    as (ts & Hts & Hl & Hd & He).
  exists ts. split; [exact H1|]. split; [exact H2|]. split; [exact H3|].
  split; [exact Hts|]. split; [exact Hl|]. split; [|exact He].
  rewrite Hd. evaluate.
Defined.

(** X9 on a sample. *)
Lemma moving_average_needs_seven_numbers_witness :
  ∃ df,
    transform parse_date scenario_B one_country = Ok df ∧
    floats df "new_cases" !! 0%nat = Some np.nan ∧
    floats df "cases_ma7" !! 6%nat = Some np.nan ∧
    floats df "deaths_ma7" !! 3%nat = Some np.nan.
Proof.
  eexists.
  assert (H1 : transform parse_date scenario_B one_country = Ok _) by evaluate.
  destruct (moving_average_needs_seven_numbers parse_date scenario_B one_country _ H1)
    as [Hc Hd].
  split; [exact H1|]. split; [reflexivity|]. split.
  - apply (Hc 0%nat 6%nat); [reflexivity | lia | vm_compute; lia].
  - apply (Hd 0%nat 3%nat); [reflexivity | lia | vm_compute; lia].
Defined.

(** X10 on a sample. *)
Lemma transform_keeps_duplicate_dates_witness :
  ∃ df,
    transform parse_date twice_dated one_country = Ok df ∧
    ("index" ∉ dict_keys twice_dated) ∧
    labels twice_dated = ["1/22/20"; "01/22/20"] ∧
    parse_date "1/22/20" = parse_date "01/22/20" ∧
    "1/22/20" ≠ "01/22/20" ∧
    ∃ t, dates df !! 0%nat = Some t ∧ dates df !! 1%nat = Some t.
Proof.
  eexists.
  assert (H1 : transform parse_date twice_dated one_country = Ok _) by evaluate.
  assert (H2 : "index" ∉ dict_keys twice_dated) by absent.
  assert (H3 : labels twice_dated = ["1/22/20"; "01/22/20"]) by evaluate.
  assert (H4 : parse_date "1/22/20" = parse_date "01/22/20") by evaluate.
  split; [exact H1|]. split; [exact H2|]. split; [exact H3|]. split; [exact H4|].
  refine (transform_keeps_duplicate_dates parse_date twice_dated one_country _ 0%nat 1%nat
            _ _ H1 H2 _ _ _ H4); [by rewrite H3 | by rewrite H3 | discriminate].
Defined.

(** X11 on a sample. *)
Lemma transform_uses_populations_only_witness :
  dict_get "population" <$> one_country = dict_get "population" <$> other_fields ∧
  transform parse_date scenario_B one_country = transform parse_date scenario_B other_fields.
Proof.
  assert (H1 : dict_get "population" <$> one_country
               = dict_get "population" <$> other_fields) by reflexivity.
  split; [exact H1|].
  exact (transform_uses_populations_only parse_date scenario_B _ _ H1).
Defined.

(** X12 on a sample. *)
Lemma transform_past_rows_stable_witness :
  ∃ df df',
    transform parse_date scenario_A one_country = Ok df ∧
    transform parse_date scenario_A_next one_country = Ok df' ∧
    labels scenario_A_next = labels scenario_A ++ ["1/24/20"] ∧
    int_series scenario_A "cases" [1; 3] ∧
    int_series scenario_A_next "cases" ([1; 3] ++ [4]) ∧
    int_series scenario_A "deaths" [0; 0] ∧
    int_series scenario_A_next "deaths" ([0; 0] ++ [1]) ∧
    dates df' !! 1%nat = dates df !! 1%nat ∧
    ints df' "cases" !! 1%nat = ints df "cases" !! 1%nat ∧
    ints df' "deaths" !! 1%nat = ints df "deaths" !! 1%nat ∧
    Forall (λ name, floats df' name !! 1%nat = floats df name !! 1%nat) derived_names.
Proof.
  do 2 eexists.
  assert (H1 : transform parse_date scenario_A one_country = Ok _) by evaluate.
  assert (H2 : transform parse_date scenario_A_next one_country = Ok _) by evaluate.
  assert (H3 : labels scenario_A_next = labels scenario_A ++ ["1/24/20"]) by evaluate.
  assert (H4 : int_series scenario_A "cases" [1; 3]) by evaluate.
  assert (H5 : int_series scenario_A_next "cases" ([1; 3] ++ [4])) by evaluate.
  assert (H6 : int_series scenario_A "deaths" [0; 0]) by evaluate.
  assert (H7 : int_series scenario_A_next "deaths" ([0; 0] ++ [1])) by evaluate.
  split; [exact H1|]. split; [exact H2|]. split; [exact H3|]. split; [exact H4|].
  split; [exact H5|]. split; [exact H6|]. split; [exact H7|].
  refine (transform_past_rows_stable parse_date scenario_A scenario_A_next one_country
            _ _ ["1/24/20"] [1; 3] [4] [0; 0] [1] 1%nat H1 H2 H3 _ _ H4 H5 H6 H7 _).
  - absent.
  - absent.
  - vm_compute. lia.
Defined.

(** ** Sample runs *)

(** X13 on a sample. *)
Lemma fetch_covid_data_returns_witness :
  let w := fresh_checkout scenario_A one_country in
  outcome_of w fetch_covid_data = Returns (PyDict scenario_A, PyList one_country) ∧
  ∃ r1 r2,
    responses (trace_of w fetch_covid_data) = [r1; r2] ∧
    status_code r1 = 200 ∧ status_code r2 = 200 ∧
    Response_json r1 = Returns (PyDict scenario_A) ∧
    Response_json r2 = Returns (PyList one_country).
Proof.
  intros w.
  assert (H1 : outcome_of w fetch_covid_data
               = Returns (PyDict scenario_A, PyList one_country)) by evaluate.
  split; [exact H1|].
  exact (proj1 (fetch_covid_data_returns w _ _ _ eq_refl) H1).
Defined.

(** X14 on a sample. *)
Lemma main_requests_witness :
  let tr := trace_of (countries_down scenario_A) sample_main in
  requested tr = [historical_url; countries_url] ∨
  (requested tr = [historical_url] ∧ responses tr = [] ∧ existsb failed tr = true).
Proof.
  exact (main_requests parse_date sample_text _ _ _ (countries_down scenario_A) _ eq_refl).
Defined.

(** X15 on a sample. *)
Lemma main_bad_status_witness :
  let tr := trace_of (countries_down scenario_A) sample_main in
  let r1 := respond 200 (PyDict scenario_A) in
  let r2 := {| status_code := 503;
               Response_json := Raises (External "JSONDecodeError" "Expecting value") |} in
  responses tr = [r1; r2] ∧
  (status_code r1 ≠ 200 ∨ status_code r2 ≠ 200) ∧
  tr = [Printed "Obteniendo datos de COVID-19...";
        Called (requests_get historical_url) (Returns r1);
        Called (requests_get countries_url) (Returns r2);
        Printed "Error en el proceso: Error al obtener datos de la API"].
Proof.
  intros tr r1 r2.
  assert (H1 : responses tr = [r1; r2]) by evaluate.
  assert (H2 : status_code r1 ≠ 200 ∨ status_code r2 ≠ 200) by (right; discriminate).
  split; [exact H1|]. split; [exact H2|].
  exact (main_bad_status parse_date sample_text _ _ _ _ tr r1 r2 eq_refl H1 H2).
Defined.

(** X16 on a sample. *)
Lemma main_transform_error_witness :
  let tr := trace_of (fresh_checkout scenario_A []) sample_main in
  let r1 := respond 200 (PyDict scenario_A) in
  let r2 := respond 200 (PyList []) in
  responses tr = [r1; r2] ∧
  transform parse_date scenario_A [] = Raise (KeyError "population") ∧
  tr = [Printed "Obteniendo datos de COVID-19...";
        Called (requests_get historical_url) (Returns r1);
        Called (requests_get countries_url) (Returns r2);
        Printed "Transformando datos...";
        Printed "Error en el proceso: 'population'"].
Proof.
  intros tr r1 r2.
  assert (H1 : responses tr = [r1; r2]) by evaluate.
  assert (H2 : transform parse_date scenario_A [] = Raise (KeyError "population"))
    by evaluate.
  split; [exact H1|]. split; [exact H2|].
  exact (main_transform_error parse_date sample_text _ _ _ _ tr r1 r2 scenario_A [] _
           eq_refl H1 eq_refl eq_refl eq_refl eq_refl H2).
Defined.

(** X17 on a sample. *)
Lemma main_effects_need_data_witness :
  let tr := trace_of (fresh_checkout scenario_A one_country) sample_main in
  existsb local_effect tr = true ∧
  ∃ r1 r2 o1 o2 df,
    responses tr = [r1; r2] ∧
    status_code r1 = 200 ∧ status_code r2 = 200 ∧
    Response_json r1 = Returns o1 ∧ Response_json r2 = Returns o2 ∧
    transformed parse_date o1 o2 = Ok df.
Proof.
  intros tr.
  assert (H1 : existsb local_effect tr = true) by evaluate.
  split; [exact H1|].
  exact (main_effects_need_data parse_date sample_text _ _ _ _ tr eq_refl H1).
Defined.

(** X18 on a sample. *)
Lemma main_writes_the_transformed_frame_witness :
  let tr := trace_of (fresh_checkout scenario_A one_country) sample_main in
  (scenario_A_frame, output_path, "gzip") ∈ written tr ∧
  ∃ r1 r2 o1 o2 df,
    responses tr = [r1; r2] ∧
    Response_json r1 = Returns o1 ∧ Response_json r2 = Returns o2 ∧
    transformed parse_date o1 o2 = Ok df ∧
    written tr = [(df, output_path, "gzip")].
Proof.
  intros tr.
  assert (H1 : (scenario_A_frame, output_path, "gzip") ∈ written tr).
  { replace (written tr) with [(scenario_A_frame, output_path, "gzip")] by evaluate.
    apply list_elem_of_here. }
  split; [exact H1|].
  exact (main_writes_the_transformed_frame parse_date sample_text _ _ _ _ tr _ eq_refl H1).
Defined.


(** X20 on a sample. *)
Lemma main_succeeds_witness :
  let tr := trace_of (fresh_checkout scenario_A one_country) sample_main in
  let r1 := respond 200 (PyDict scenario_A) in
  let r2 := respond 200 (PyList one_country) in
  responses tr = [r1; r2] ∧
  accepted parse_date scenario_A one_country ∧
  unhindered tr = true ∧
  ∃ df, transform parse_date scenario_A one_country = Ok df ∧
        written tr = [(df, output_path, "gzip")] ∧
        delivered tr ≠ [] ∧
        last (printed tr) = Some success_line.
Proof.
  intros tr r1 r2.
  assert (H1 : responses tr = [r1; r2]) by evaluate.
  assert (H2 : accepted parse_date scenario_A one_country)
    by (apply accepted_scenario_A; by left).
  assert (H3 : unhindered tr = true) by evaluate.
  split; [exact H1|]. split; [exact H2|]. split; [exact H3|].
  exact (main_succeeds parse_date sample_text _ _ _ _ tr r1 r2 scenario_A one_country
           eq_refl H1 eq_refl eq_refl eq_refl eq_refl H2 H3).
Defined.

(** X21 on a sample: the clock says 2021-03-01 06:00:00. *)
Lemma main_publishes_in_order_witness :
  let tr := trace_of (fresh_checkout scenario_A one_country) sample_main in
  let steps := [Configured "user" "name" "bot";
                Configured "user" "email" "bot@example.org";
                Wrote "data/raw/covid_historical_data.parquet";
                Staged ["data/raw/covid_historical_data.parquet"];
                Committed "Actualización datos COVID-19 2021-03-01 06:00:00";
                Pushed (mkRemote "origin" 0%nat)] in
  publication tr `prefix_of` steps ∧
  (pushed tr ≠ [] → publication tr = steps) ∧
  (commits tr ≠ [] → length (stamps tr) = 1%nat).
Proof.
  exact (main_publishes_in_order parse_date sample_text _ _ _
           (fresh_checkout scenario_A one_country) _ eq_refl).
Defined.


